(** * GitSmart: the route layer [app.py] and the client [utils/github_api.py]

    A shallow embedding of the Flask handlers and of the [GitHubAPI] methods
    they call.  Python values that travel through JSON are values of [pyval];
    every outbound HTTP request is appended to a log, and the remote side is
    an oracle that answers a request knowing the log so far, so that a remote
    answer may depend on everything that was sent before (an upload changes
    what a later lookup sees).  A Python exception is the [Raise] outcome. *)

From Stdlib Require Import List String Ascii ZArith Bool Lia.
Import ListNotations.
Open Scope string_scope.
Open Scope list_scope.
Set Warnings "-register-all".

(** ** Python values *)

(** The JSON-shaped Python values: [None], [bool], [int], [str], [list] and
    [dict] with string keys.  A dict is an association list; a key occurs at
    most once in the dicts built here ([dict_set] replaces), and lookup takes
    the first binding. *)
Inductive pyval : Type :=
| PNone
| PBool (b : bool)
| PInt (z : Z)
| PStr (s : string)
| PList (l : list pyval)
| PDict (d : list (string * pyval)).

Definition dict := list (string * pyval).

(** Python truthiness: [bool(v)]. *)
Definition truthy (v : pyval) : bool :=
  match v with
  | PNone => false
  | PBool b => b
  | PInt z => negb (Z.eqb z 0)
  | PStr s => negb (String.eqb s "")
  | PList l => match l with [] => false | _ => true end
  | PDict d => match d with [] => false | _ => true end
  end.

Definition is_none (v : pyval) : bool :=
  match v with PNone => true | _ => false end.

(** [a or b] *)
Definition py_or (a b : pyval) : pyval := if truthy a then a else b.

Fixpoint dict_lookup (k : string) (d : dict) : option pyval :=
  match d with
  | [] => None
  | (k', v) :: d' => if String.eqb k k' then Some v else dict_lookup k d'
  end.

(** [d.get(k, dflt)] and [d.get(k)] on a dict. *)
Definition dict_get_default (k : string) (dflt : pyval) (d : dict) : pyval :=
  match dict_lookup k d with Some v => v | None => dflt end.

Definition dict_get (k : string) (d : dict) : pyval :=
  dict_get_default k PNone d.

(** [d[k] = v] *)
Fixpoint dict_set (k : string) (v : pyval) (d : dict) : dict :=
  match d with
  | [] => [(k, v)]
  | (k', v') :: d' =>
      if String.eqb k k' then (k, v) :: d' else (k', v') :: dict_set k v d'
  end.

(** Equality of two values as [==] and [in] compute it.  Python's [==] is
    this structural equality whenever one side is a [str], which is the case
    at every membership test of the handlers below: the branch names they
    compare are the hint, ["main"] and ["master"], all of them strings. *)
Fixpoint py_eqb (a b : pyval) {struct a} : bool :=
  match a, b with
  | PNone, PNone => true
  | PBool x, PBool y => Bool.eqb x y
  | PInt x, PInt y => Z.eqb x y
  | PStr x, PStr y => String.eqb x y
  | PList x, PList y =>
      (fix go (l1 l2 : list pyval) {struct l1} : bool :=
         match l1, l2 with
         | [], [] => true
         | u :: l1', w :: l2' => py_eqb u w && go l1' l2'
         | _, _ => false
         end) x y
  | PDict x, PDict y =>
      (fix go (l1 l2 : dict) {struct l1} : bool :=
         match l1, l2 with
         | [], [] => true
         | (k1, u) :: l1', (k2, w) :: l2' =>
             String.eqb k1 k2 && py_eqb u w && go l1' l2'
         | _, _ => false
         end) x y
  | _, _ => false
  end.

(** [v in l] *)
Definition py_in (v : pyval) (l : list pyval) : bool := existsb (py_eqb v) l.

(** The induction principle of [pyval] that reaches the values nested in a
    list or a dict. *)
Section PyvalInd.
Variable P : pyval -> Prop.
Hypothesis HNone : P PNone.
Hypothesis HBool : forall b, P (PBool b).
Hypothesis HInt : forall z, P (PInt z).
Hypothesis HStr : forall s, P (PStr s).
Hypothesis HList : forall l, Forall P l -> P (PList l).
Hypothesis HDict : forall d, Forall (fun kv => P (snd kv)) d -> P (PDict d).

Fixpoint pyval_nested_ind (v : pyval) : P v :=
  match v with
  | PNone => HNone
  | PBool b => HBool b
  | PInt z => HInt z
  | PStr s => HStr s
  | PList l =>
      HList l ((fix all (l : list pyval) : Forall P l :=
                  match l with
                  | [] => Forall_nil _
                  | u :: l' => Forall_cons u (pyval_nested_ind u) (all l')
                  end) l)
  | PDict d =>
      HDict d ((fix all (d : dict) : Forall (fun kv => P (snd kv)) d :=
                  match d with
                  | [] => Forall_nil _
                  | kv :: d' =>
                      Forall_cons kv (pyval_nested_ind (snd kv)) (all d')
                  end) d)
  end.
End PyvalInd.

(** ** Strings *)

Definition nl : string := String (ascii_of_nat 10) EmptyString.
Definition dquote : string := String (ascii_of_nat 34) EmptyString.

(** [f"{v}"] for a value that is a [str] or [None]. *)
Definition fmt (v : option string) : string :=
  match v with Some s => s | None => "None" end.

(** [f"Upload {path}"] *)
Definition upload_message (path : string) : string :=
  ("Upload " ++ path)%string.
Arguments upload_message : simpl never.

(** [s.lower()], on ASCII letters. *)
Definition lower_char (c : ascii) : ascii :=
  let n := nat_of_ascii c in
  if Nat.leb 65 n && Nat.leb n 90 then ascii_of_nat (n + 32) else c.

Fixpoint lower (s : string) : string :=
  match s with
  | EmptyString => EmptyString
  | String c s' => String (lower_char c) (lower s')
  end.

(** [s.endswith(suffix)] *)
Definition endswith (s suffix : string) : bool :=
  let n := String.length s in
  let k := String.length suffix in
  Nat.leb k n && String.eqb (substring (n - k) k s) suffix.

(** [p.split("/")[-1]]: what follows the last slash. *)
Fixpoint last_segment (cur s : string) : string :=
  match s with
  | EmptyString => cur
  | String c s' =>
      if Ascii.eqb c "/" then last_segment EmptyString s'
      else last_segment (cur ++ String c EmptyString)%string s'
  end.

Definition is_space (c : ascii) : bool :=
  let n := nat_of_ascii c in
  (Nat.leb 9 n && Nat.leb n 13) || (Nat.leb 28 n && Nat.leb n 32).

Fixpoint lstrip_chars (l : list ascii) : list ascii :=
  match l with
  | c :: l' => if is_space c then lstrip_chars l' else l
  | [] => []
  end.

(** [s.strip()] *)
Definition strip (s : string) : string :=
  string_of_list_ascii
    (rev (lstrip_chars (rev (lstrip_chars (list_ascii_of_string s))))).

(** ** Outcomes, the request log and the remote side *)

Inductive outcome (A : Type) : Type :=
| Ok (a : A)
| Raise (e : string).
Arguments Ok {A} a.
Arguments Raise {A} e.

(** What [requests] hands back: the status code, the body as text, and the
    body as [r.json()] parses it ([None] when parsing raises). *)
Record response : Type := mkResponse {
  status_code : Z;
  text : string;
  json : option pyval
}.

(** A call of the GitHub REST API, sent with the token of the client. *)
Inductive api_call : Type :=
| GetUserRepos (page : Z)
| GetRepo (owner repo : string)
| PostUserRepos (name : string) (description : pyval) (private : bool)
| GetTree (owner repo : string) (branch : pyval)
| GetRootContents (owner repo : string)
| GetContents (owner repo path : string) (ref : option pyval)
| PutContents (owner repo path message content : string) (sha : option pyval)
| DeleteContents (owner repo path message : string) (sha : pyval).

(** An outbound request: an authenticated API call, or the unauthenticated
    retrieval of [raw.githubusercontent.com/{owner}/{repo}/{b}/{path}]. *)
Inductive request : Type :=
| Api (token : string) (c : api_call)
| GetRaw (owner repo : string) (b : pyval) (path : string).

Definition log := list request.

(** The remote side: the answer to a request given everything sent before
    it, or the exception [requests] raises (time-out, connection error). *)
Definition remote := log -> request -> outcome response.

(** Computations that send requests and may raise. *)
Definition M (A : Type) : Type := log -> outcome A * log.

Definition ret {A} (a : A) : M A := fun l => (Ok a, l).

Definition bind {A B} (m : M A) (f : A -> M B) : M B :=
  fun l => match m l with
           | (Ok a, l') => f a l'
           | (Raise e, l') => (Raise e, l')
           end.

(** [try: m except Exception as e: h e] *)
Definition try_except {A} (m : M A) (h : string -> M A) : M A :=
  fun l => match m l with
           | (Ok a, l') => (Ok a, l')
           | (Raise e, l') => h e l'
           end.

Definition lift {A} (o : outcome A) : M A := fun l => (o, l).

Declare Scope py_scope.
Delimit Scope py_scope with py.
Notation "x <- m ;; k" := (bind m (fun x => k))
  (at level 61, m at next level, right associativity) : py_scope.
Notation "' p <- m ;; k" := (bind m (fun p => k))
  (at level 61, p pattern, m at next level, right associativity) : py_scope.
Open Scope py_scope.

(** [v.get(k, dflt)] on an arbitrary value: only a dict has the method. *)
Definition py_get (v : pyval) (k : string) (dflt : pyval) : outcome pyval :=
  match v with
  | PDict d => Ok (dict_get_default k dflt d)
  | _ => Raise "AttributeError: object has no attribute 'get'"
  end.

(** [r.json()] *)
Definition r_json (r : response) : outcome pyval :=
  match json r with
  | Some v => Ok v
  | None => Raise "JSONDecodeError"
  end.

(** ** The GitHub client: utils/github_api.py *)

Record GitHubAPI : Type := mkGitHubAPI { token : string }.

(** The session cookie: ["pat"] and ["username"], each possibly absent. *)
Record session : Type := mkSession {
  pat : option string;
  username : option string
}.

(** A Flask response made by [jsonify(body), status]. *)
Definition http_response : Type := (pyval * Z)%type.

Definition jsonify (body : dict) (status : Z) : http_response :=
  (PDict body, status).

(** [_json_ok(payload)] *)
Definition _json_ok (payload : dict) : dict :=
  dict_set "success" (PBool true) payload.

(** [jsonify({"success": False, "error": msg}), status] *)
Definition json_error (msg : pyval) (status : Z) : http_response :=
  jsonify [("success", PBool false); ("error", msg)] status.

(** [get_gh()] : no client when the session has no token or an empty one. *)
Definition get_gh (s : session) : option GitHubAPI :=
  match pat s with
  | Some p => if String.eqb p "" then None else Some (mkGitHubAPI p)
  | None => None
  end.

Section Client.

(** The remote side, and the two codecs of Python's library the client
    calls: [base64.b64decode(s).decode("utf-8", errors="replace")], which
    raises on what is not base64 ([None] here), and
    [base64.b64encode(b).decode("utf-8")]. *)
Variable http : remote.
Variable b64decode_utf8 : string -> option string.
Variable b64encode : string -> string.

(** [werkzeug.utils.secure_filename], and the members of a zip archive
    that are no directories, as [zipfile] reads them (it raises on what is
    no archive). *)
Variable secure_filename : string -> string.
Variable zip_members : string -> outcome (list (string * string)).

(** [requests.get/post/put(...)]: the request is logged, the remote side
    answers or the call raises. *)
Definition send (q : request) : M response :=
  fun l => (http l q, l ++ [q]).

(** The tail of [get_file_text] once the response [r] is there. *)
Definition get_file_text_of (r : response) : outcome pyval :=
  if Z.eqb (status_code r) 200 then
    match r_json r with
    | Raise e => Raise e
    | Ok (PDict data) =>
        let content := dict_get "content" data in
        if py_eqb (dict_get "encoding" data) (PStr "base64")
           && negb (is_none content)
        then match content with
             | PStr s => match b64decode_utf8 s with
                         | Some t => Ok (PStr t)
                         | None => Ok content
                         end
             | _ => Ok content
             end
        else Ok content
    | Ok _ => Raise "AttributeError: object has no attribute 'get'"
    end
  else
    match r_json r with
    | Ok (PDict data) =>
        Ok (PDict [("error", dict_get_default "message" (PStr (text r)) data)])
    | _ => Ok PNone
    end.

Definition get_file_text (gh : GitHubAPI) (owner repo path : string)
    (ref : pyval) : M pyval :=
  let params := if truthy ref then Some ref else None in
  r <- send (Api (token gh) (GetContents owner repo path params)) ;;
  lift (get_file_text_of r).

(** The tail of [get_repo_info] once the response [r] is there. *)
Definition get_repo_info_of (r : response) : outcome pyval :=
  if Z.eqb (status_code r) 200 || Z.eqb (status_code r) 201
  then r_json r
  else Ok (PDict [("message", PStr (text r))]).

Definition get_repo_info (gh : GitHubAPI) (owner repo : string) : M pyval :=
  r <- send (Api (token gh) (GetRepo owner repo)) ;;
  lift (get_repo_info_of r).

(** ** /api/get_file *)

(** [isinstance(c, dict) and c.get("error")] *)
Definition is_error (c : pyval) : bool :=
  match c with
  | PDict d => truthy (dict_get "error" d)
  | _ => false
  end.

(** One structured attempt: [c = gh.get_file_text(..., ref=b)] and the
    [if]/[else] that sets [content] from it. *)
Definition fetch_content (gh : GitHubAPI) (owner repo path : string)
    (b : pyval) : M pyval :=
  c <- get_file_text gh owner repo path b ;;
  ret (if is_error c then PNone else c).

Section Resolve.
Variable gh : GitHubAPI.
Variables owner repo path : string.

(** [if branch: ...] *)
Definition try_hint (branch : option string) : M (list pyval * pyval) :=
  match branch with
  | Some b =>
      if truthy (PStr b) then
        c <- fetch_content gh owner repo path (PStr b) ;;
        ret ([PStr b], c)
      else ret ([], PNone)
  | None => ret ([], PNone)
  end.

(** [if content is None: repo_info = ...] *)
Definition try_default (st : list pyval * pyval) : M (list pyval * pyval) :=
  let '(tried, content) := st in
  if is_none content then
    info <- get_repo_info gh owner repo ;;
    let repo_info := py_or info (PDict []) in
    default_branch <- lift (py_get repo_info "default_branch" PNone) ;;
    if truthy default_branch && negb (py_in default_branch tried) then
      c <- fetch_content gh owner repo path default_branch ;;
      ret (tried ++ [default_branch], c)
    else ret (tried, content)
  else ret (tried, content).

(** [for b in ("main", "master"): ...] *)
Fixpoint try_literals (bs : list string) (st : list pyval * pyval)
    : M (list pyval * pyval) :=
  match bs with
  | [] => ret st
  | b :: bs' =>
      let '(tried, content) := st in
      if is_none content && negb (py_in (PStr b) tried) then
        c <- fetch_content gh owner repo path (PStr b) ;;
        try_literals bs' (tried ++ [PStr b], c)
      else try_literals bs' st
  end.

(** The raw fallback loop: [break] at the first 200, [continue] on an
    exception; the result is [content]. *)
Fixpoint raw_fallback (bs : list pyval) : M pyval :=
  match bs with
  | [] => ret PNone
  | b :: bs' =>
      hit <- try_except
               (rr <- send (GetRaw owner repo b path) ;;
                ret (if Z.eqb (status_code rr) 200
                     then Some (PStr (text rr)) else None))
               (fun _ => ret None) ;;
      match hit with
      | Some content => ret content
      | None => raw_fallback bs'
      end
  end.

(** The [try] block of [api_get_file]. *)
Definition get_file_body (branch : option string) : M http_response :=
  st <- try_hint branch ;;
  st <- try_default st ;;
  ' (tried, content) <- try_literals ["main"; "master"] st ;;
  content <- (if is_none content
              then raw_fallback
                     (match tried with [] => [PStr "main"] | _ => tried end)
              else ret content) ;;
  if is_none content then
    ret (jsonify [("success", PBool false);
                  ("error", PStr "File not found on branches tried");
                  ("tried", PList tried)] 404)
  else
    ret (jsonify (_json_ok [("path", PStr path); ("content", content)]) 200).

End Resolve.

(** The query string of a GET request. *)
Definition query := list (string * string).

Fixpoint args_get (k : string) (args : query) : option string :=
  match args with
  | [] => None
  | (k', v) :: args' => if String.eqb k k' then Some v else args_get k args'
  end.

Definition args_get_default (k dflt : string) (args : query) : string :=
  match args_get k args with Some v => v | None => dflt end.

(** [request.args.get("owner") or session.get("username")] *)
Definition owner_of (sess : session) (args : query) : option string :=
  match args_get "owner" args with
  | Some o => if String.eqb o "" then username sess else Some o
  | None => username sess
  end.

(** [except Exception as e: return jsonify({...str(e)}), 500] *)
Definition on_exception (e : string) : M http_response :=
  ret (json_error (PStr e) 500).

Definition api_get_file (sess : session) (args : query) : M http_response :=
  let owner := owner_of sess args in
  let repo := strip (args_get_default "repo" "" args) in
  let path := strip (args_get_default "path" "" args) in
  let branch := let b := strip (args_get_default "branch" "" args) in
                if String.eqb b "" then None else Some b in
  match owner with
  | None => ret (json_error (PStr "owner, repo, path required") 400)
  | Some owner =>
      if String.eqb owner "" || String.eqb repo "" || String.eqb path "" then
        ret (json_error (PStr "owner, repo, path required") 400)
      else
        match get_gh sess with
        | None => ret (json_error (PStr "GitHub client unavailable") 500)
        | Some gh =>
            try_except (get_file_body gh owner repo path branch) on_exception
        end
  end.

(** ** Uploads *)

Definition upload_file (gh : GitHubAPI)
    (owner repo path content_bytes message : string) : M pyval :=
  sha <- try_except
           (r_get <- send (Api (token gh) (GetContents owner repo path None)) ;;
            if Z.eqb (status_code r_get) 200 then
              data <- lift (r_json r_get) ;;
              lift (py_get data "sha" PNone)
            else ret PNone)
           (fun _ => ret PNone) ;;
  let payload_sha := if truthy sha then Some sha else None in
  r <- send (Api (token gh)
               (PutContents owner repo path message
                  (b64encode content_bytes) payload_sha)) ;;
  if Z.eqb (status_code r) 200 || Z.eqb (status_code r) 201 then
    lift (r_json r)
  else
    try_except
      (data <- lift (r_json r) ;;
       msg <- lift (py_get data "message" (PStr (text r))) ;;
       ret (PDict [("error", msg)]))
      (fun _ => ret (PDict [("error", PStr (text r))])).

Definition delete_file (gh : GitHubAPI) (owner repo path message : string)
    : M pyval :=
  r_get <- send (Api (token gh) (GetContents owner repo path None)) ;;
  if negb (Z.eqb (status_code r_get) 200) then
    ret (PDict [("error", PStr "File not found")])
  else
    data <- lift (r_json r_get) ;;
    sha <- lift (py_get data "sha" PNone) ;;
    r <- send (Api (token gh) (DeleteContents owner repo path message sha)) ;;
    if Z.eqb (status_code r) 200 || Z.eqb (status_code r) 204 then
      try_except (lift (r_json r)) (fun _ => ret (PDict [("ok", PBool true)]))
    else
      try_except
        (data <- lift (r_json r) ;;
         msg <- lift (py_get data "message" (PStr (text r))) ;;
         ret (PDict [("error", msg)]))
        (fun _ => ret (PDict [("error", PStr (text r))])).

(** The loop of [bulk_upload], [results] being the list built so far. *)
Fixpoint bulk_upload_loop (gh : GitHubAPI) (owner repo : string)
    (items : list (string * string)) (results : list pyval)
    : M (list pyval) :=
  match items with
  | [] => ret results
  | (path, b) :: items' =>
      res <- upload_file gh owner repo path b (upload_message path) ;;
      bulk_upload_loop gh owner repo items' (results ++ [res])
  end.

Definition bulk_upload (gh : GitHubAPI) (owner repo : string)
    (items : list (string * string)) : M (list pyval) :=
  bulk_upload_loop gh owner repo items [].

Definition extract_zip (raw_bytes : string)
    : option (list (string * string)) :=
  match zip_members raw_bytes with
  | Ok out => Some out
  | Raise _ => None
  end.

(** The second loop of [api_upload_files], run when [bulk_upload] raised:
    one [try] per file. *)
Fixpoint upload_each (gh : GitHubAPI) (owner repo : string)
    (upload_list : list (string * string)) (results : list pyval)
    : M (list pyval) :=
  match upload_list with
  | [] => ret results
  | (fname, b) :: rest =>
      res <- try_except
               (upload_file gh owner repo fname b (upload_message fname))
               (fun e => ret (PDict [("error", PStr e)])) ;;
      upload_each gh owner repo rest (results ++ [res])
  end.

(** [results] of [api_upload_files]: [bulk_upload], and the per-file loop
    when it raised. *)
Definition upload_results (gh : GitHubAPI) (owner repo : string)
    (upload_list : list (string * string)) : M (list pyval) :=
  results <- try_except
               (rs <- bulk_upload gh owner repo upload_list ;; ret (Some rs))
               (fun _ => ret None) ;;
  match results with
  | Some rs => ret rs
  | None => upload_each gh owner repo upload_list []
  end.

(** The loop over [request.files] that fills [upload_list]: a zip is
    replaced by its members, read a second time from a temporary file when
    [extract_zip] gave nothing. *)
Fixpoint build_upload_list (files upload_list : list (string * string))
    : outcome (list (string * string)) :=
  match files with
  | [] => Ok upload_list
  | (fname, data) :: rest =>
      let filename := secure_filename fname in
      if endswith (lower filename) ".zip" then
        match extract_zip data with
        | Some (m :: ms) => build_upload_list rest (upload_list ++ m :: ms)
        | _ =>
            match zip_members data with
            | Ok ms => build_upload_list rest (upload_list ++ ms)
            | Raise e => Raise e
            end
        end
      else build_upload_list rest (upload_list ++ [(filename, data)])
  end.

(** [a or b] on two values that are a [str] or [None]. *)
Definition opt_or (a b : option string) : option string :=
  match a with
  | Some s => if String.eqb s "" then b else a
  | None => b
  end.

Definition api_upload_files (sess : session) (form : query)
    (files : list (string * string)) : M http_response :=
  match pat sess with
  | None => ret (json_error (PStr "Unauthorized") 401)
  | Some _ =>
      let owner := fmt (username sess) in
      let repo :=
        strip (match opt_or (opt_or (args_get "repo" form)
                               (args_get "upload-repo" form)) (Some "")
               with Some s => s | None => "" end) in
      if String.eqb repo "" then ret (json_error (PStr "repo required") 400)
      else
        match get_gh sess with
        | None => ret (json_error (PStr "GitHub client unavailable") 500)
        | Some gh =>
            try_except
              (match files with
               | [] => ret (json_error (PStr "No files uploaded") 400)
               | _ =>
                   upload_list <- lift (build_upload_list files []) ;;
                   results <- upload_results gh owner repo upload_list ;;
                   ret (jsonify
                          (_json_ok
                             [("message", PStr "Files uploaded successfully!");
                              ("files", PList results)]) 200)
               end)
              on_exception
        end
  end.

(** ** /api/create_repo *)

Definition create_repo (gh : GitHubAPI) (owner_or_user name : string)
    (description license : pyval) (private : bool) : M pyval :=
  r <- send (Api (token gh) (PostUserRepos name description private)) ;;
  if Z.eqb (status_code r) 200 || Z.eqb (status_code r) 201 then
    lift (r_json r)
  else
    data <- lift (r_json r) ;;
    msg <- lift (py_get data "message" (PStr (text r))) ;;
    ret (PDict [("error", msg)]).

Definition file_exists (gh : GitHubAPI) (owner repo path : string) : M bool :=
  r <- send (Api (token gh) (GetContents owner repo path None)) ;;
  ret (Z.eqb (status_code r) 200).

Definition ensure_readme (gh : GitHubAPI) (owner repo : string) : M pyval :=
  upload_file gh owner repo "README.md"
    ("# " ++ repo ++ nl ++ nl ++ "Created with GitSmart." ++ nl)%string
    "Add README".

Definition ensure_license (gh : GitHubAPI) (owner repo : string)
    (license_name : pyval) : M pyval :=
  upload_file gh owner repo "LICENSE"
    ("MIT License" ++ nl ++ nl
     ++ "Copyright (c) 2024 " ++ owner ++ nl ++ nl
     ++ "Permission is hereby granted, free of charge, "
     ++ "to any person obtaining a copy"
     ++ nl ++ "..." ++ nl)%string
    "Add LICENSE".

Definition ensure_cicd (gh : GitHubAPI) (owner repo : string) : M pyval :=
  upload_file gh owner repo ".github/workflows/ci.yml"
    ("name: CI" ++ nl ++ nl
     ++ "on:" ++ nl
     ++ "  push:" ++ nl
     ++ "    branches: [ main ]" ++ nl ++ nl
     ++ "jobs:" ++ nl
     ++ "  build:" ++ nl
     ++ "    runs-on: ubuntu-latest" ++ nl
     ++ "    steps:" ++ nl
     ++ "      - uses: actions/checkout@v3" ++ nl
     ++ "      - name: Run tests" ++ nl
     ++ "        run: echo " ++ dquote ++ "No tests configured" ++ dquote
     ++ nl)%string
    "Add CI workflow".

(** [v.strip()] on an arbitrary value: only a [str] has the method. *)
Definition py_strip (v : pyval) : outcome string :=
  match v with
  | PStr s => Ok (strip s)
  | _ => Raise "AttributeError: object has no attribute 'strip'"
  end.

(** The inner [try] of [api_create_repo] that adds the README, the licence
    and the workflow when they are missing. *)
Definition provision (gh : GitHubAPI) (username name : string)
    (license_choice : pyval) : M unit :=
  has_readme <- file_exists gh username name "README.md" ;;
  _ <- (if has_readme then ret PNone else ensure_readme gh username name) ;;
  has_license <- file_exists gh username name "LICENSE" ;;
  _ <- (if has_license then ret PNone
        else ensure_license gh username name license_choice) ;;
  has_ci <- file_exists gh username name ".github/workflows/ci.yml" ;;
  _ <- (if has_ci then ret PNone else ensure_cicd gh username name) ;;
  ret tt.

(** [data] is [request.json or request.form or {}]. *)
Definition api_create_repo (sess : session) (data : dict) : M http_response :=
  match pat sess with
  | None => ret (json_error (PStr "Unauthorized") 401)
  | Some _ =>
      name <- lift (py_strip (py_or (dict_get "name" data) (PStr ""))) ;;
      let description :=
        py_or (dict_get "description" data)
              (PStr "Repository created with GitSmart") in
      let license_choice :=
        py_or (py_or (dict_get "license" data) (dict_get "repo-license" data))
              (PStr "mit") in
      let private := truthy (dict_get_default "private" (PBool false) data) in
      if String.eqb name "" then ret (json_error (PStr "name required") 400)
      else
        match get_gh sess with
        | None => ret (json_error (PStr "GitHub client unavailable") 500)
        | Some gh =>
            try_except
              (let user := fmt (username sess) in
               info <- try_except (get_repo_info gh user name)
                                  (fun _ => ret PNone) ;;
               found <- (if truthy info then
                           m <- lift (py_get info "message" PNone) ;;
                           ret (negb (truthy m))
                         else ret false) ;;
               if found then
                 ret (json_error
                        (PStr ("Repository '" ++ name
                               ++ "' already exists.")%string)
                        200)
               else
                 res <- create_repo gh user name description license_choice
                          private ;;
                 if negb (truthy res) || is_error res then
                   ret (json_error
                          (match res with
                           | PDict d => dict_get "error" d
                           | _ => PStr "Failed to create repo"
                           end) 400)
                 else
                   _ <- try_except (provision gh user name license_choice)
                                   (fun _ => ret tt) ;;
                   ret (jsonify
                          (_json_ok
                             [("message",
                               PStr ("Repository " ++ name
                                     ++ " created successfully!")%string)])
                          200))
              on_exception
        end
  end.

(** ** /api/repos *)

(** The [while True] of [get_repos]; [None] when [fuel] pages were all
    full, the loop being unbounded when the remote side never sends a short
    page. *)
Fixpoint get_repos_loop (fuel : nat) (gh : GitHubAPI) (page : Z)
    (repos : list pyval) : M (option (list pyval)) :=
  match fuel with
  | O => ret None
  | S fuel' =>
      r <- send (Api (token gh) (GetUserRepos page)) ;;
      if negb (Z.eqb (status_code r) 200) then ret (Some repos)
      else
        batch <- lift (r_json r) ;;
        match batch with
        | PList items =>
            if Nat.eqb (List.length items) 0 then ret (Some repos)
            else if Nat.ltb (List.length items) 100
                 then ret (Some (repos ++ items))
                 else get_repos_loop fuel' gh (page + 1)%Z (repos ++ items)
        | _ => ret (Some repos)
        end
  end.

Definition get_repos (fuel : nat) (gh : GitHubAPI)
    : M (option (list pyval)) :=
  get_repos_loop fuel gh 1%Z [].

(** What [api_repos] appends to [out] for one element of [repos]. *)
Definition repo_entry (r : pyval) : list pyval :=
  match r with
  | PDict d =>
      [PDict [("name", dict_get "name" d);
              ("full_name", dict_get "full_name" d);
              ("description", dict_get "description" d);
              ("private", dict_get "private" d);
              ("forks_count", dict_get "forks_count" d);
              ("open_issues_count", dict_get "open_issues_count" d);
              ("created_at", dict_get "created_at" d);
              ("updated_at", dict_get "updated_at" d);
              ("owner", dict_get_default "owner" (PDict []) d)]]
  | _ => []
  end.

Definition api_repos (fuel : nat) (sess : session)
    : M (option http_response) :=
  match pat sess with
  | None => ret (Some (json_error (PStr "Unauthorized") 401))
  | Some _ =>
      match get_gh sess with
      | None => ret (Some (json_error (PStr "GitHub client unavailable") 500))
      | Some gh =>
          try_except
            (repos <- get_repos fuel gh ;;
             match repos with
             | None => ret None
             | Some repos =>
                 ret (Some (jsonify
                              (_json_ok
                                 [("repos", PList (flat_map repo_entry repos))])
                              200))
             end)
            (fun e => ret (Some (json_error (PStr e) 500)))
      end
  end.

(** ** /api/list_files *)

Definition list_repo_files (gh : GitHubAPI) (owner repo : string) : M pyval :=
  ri <- get_repo_info gh owner repo ;;
  default_branch <- lift (py_get ri "default_branch" (PStr "main")) ;;
  tree <- try_except
            (r <- send (Api (token gh) (GetTree owner repo default_branch)) ;;
             if Z.eqb (status_code r) 200
             then (j <- lift (r_json r) ;; ret (Some j))
             else ret None)
            (fun _ => ret None) ;;
  match tree with
  | Some j => ret j
  | None =>
      contents <- try_except
                    (r2 <- send (Api (token gh) (GetRootContents owner repo)) ;;
                     if Z.eqb (status_code r2) 200
                     then (j <- lift (r_json r2) ;; ret (Some j))
                     else ret None)
                    (fun _ => ret None) ;;
      match contents with
      | Some j => ret j
      | None => ret (PList [])
      end
  end.

(** One turn of the loop over [files_resp["tree"]]: what is appended to
    [candidate_files], or the exception of [item.get] / [p.split]. *)
Definition tree_entry (owner repo branch : string) (item : pyval)
    : outcome (list pyval) :=
  match item with
  | PDict d =>
      let typ := dict_get "type" d in
      let p := dict_get "path" d in
      if negb (truthy p) then Ok []
      else
        match p with
        | PStr ps =>
            let blob := py_eqb typ (PStr "blob") in
            Ok [PDict
                  [("name", PStr (last_segment EmptyString ps));
                   ("path", p);
                   ("type", PStr (if blob then "file" else "dir"));
                   ("download_url",
                    if blob
                    then PStr ("https://raw.githubusercontent.com/"
                               ++ owner ++ "/" ++ repo ++ "/" ++ branch
                               ++ "/" ++ ps)%string
                    else PNone)]]
        | _ => Raise "AttributeError: object has no attribute 'split'"
        end
  | _ => Raise "AttributeError: object has no attribute 'get'"
  end.

Fixpoint tree_entries (owner repo branch : string) (items : list pyval)
    (candidate_files : list pyval) : outcome (list pyval) :=
  match items with
  | [] => Ok candidate_files
  | item :: items' =>
      match tree_entry owner repo branch item with
      | Ok e => tree_entries owner repo branch items' (candidate_files ++ e)
      | Raise e => Raise e
      end
  end.

(** What the [elif] branch appends for one element of a contents listing. *)
Definition contents_entry (it : pyval) : list pyval :=
  match it with
  | PDict d =>
      [PDict [("name", dict_get "name" d);
              ("path", dict_get "path" d);
              ("type", dict_get_default "type" (PStr "file") d);
              ("download_url", dict_get "download_url" d)]]
  | _ => []
  end.

(** [candidate_files] from [files_resp]. *)
Definition candidate_files_of (owner repo branch : string)
    (files_resp : pyval) : outcome (list pyval) :=
  match files_resp with
  | PDict d =>
      let tree := dict_get "tree" d in
      if truthy tree then
        match tree with
        | PList items => tree_entries owner repo branch items []
        | PInt _ | PBool _ => Raise "TypeError: object is not iterable"
        | _ => Raise "AttributeError: object has no attribute 'get'"
        end
      else Ok []
  | PList l => Ok (flat_map contents_entry l)
  | _ => Ok []
  end.

Definition api_list_files (sess : session) (args : query) : M http_response :=
  let owner := owner_of sess args in
  let repo := strip (args_get_default "repo" "" args) in
  match owner with
  | None => ret (json_error (PStr "owner and repo required") 400)
  | Some owner =>
      if String.eqb owner "" || String.eqb repo "" then
        ret (json_error (PStr "owner and repo required") 400)
      else
        let gh := match pat sess with
                  | Some _ => get_gh sess
                  | None => None
                  end in
        try_except
          (files_resp <- match gh with
                         | Some gh =>
                             try_except (list_repo_files gh owner repo)
                                        (fun _ => ret PNone)
                         | None => ret PNone
                         end ;;
           let branch := match opt_or (args_get "branch" args) (Some "main")
                         with Some b => b | None => "main" end in
           candidate_files <- lift (candidate_files_of owner repo branch
                                                       files_resp) ;;
           ret (jsonify (_json_ok [("files", PList candidate_files)]) 200))
          on_exception
  end.

End Client.

(** ** Reading a log *)

Definition fetch_request (gh : GitHubAPI) (owner repo path : string)
    (b : pyval) : request :=
  Api (token gh) (GetContents owner repo path (Some b)).

Definition repo_request (gh : GitHubAPI) (owner repo : string) : request :=
  Api (token gh) (GetRepo owner repo).

Definition raw_request (owner repo path : string) (b : pyval) : request :=
  GetRaw owner repo b path.

(** The branches of the structured fetches of a log, in the order sent. *)
Fixpoint structured_refs (ev : log) : list pyval :=
  match ev with
  | [] => []
  | Api _ (GetContents _ _ _ (Some b)) :: ev' => b :: structured_refs ev'
  | _ :: ev' => structured_refs ev'
  end.

(** The branches of the raw retrievals of a log, in the order sent. *)
Fixpoint raw_refs (ev : log) : list pyval :=
  match ev with
  | [] => []
  | GetRaw _ _ b _ :: ev' => b :: raw_refs ev'
  | _ :: ev' => raw_refs ev'
  end.

(** How many structured fetches of a log ask for branch [b]. *)
Definition attempts_of (b : pyval) (ev : log) : nat :=
  List.length (filter (py_eqb b) (structured_refs ev)).

(** The content writes of a log, each with its path and the content it
    carries, in the order sent. *)
Fixpoint writes (ev : log) : list (string * string) :=
  match ev with
  | [] => []
  | Api _ (PutContents _ _ p _ c _) :: ev' => (p, c) :: writes ev'
  | _ :: ev' => writes ev'
  end.

(** A lookup of the contents of a path, or a write to it. *)
Definition lookup_or_write (q : request) : Prop :=
  match q with
  | Api _ (GetContents _ _ _ None) => True
  | Api _ (PutContents _ _ _ _ _ _) => True
  | _ => False
  end.

(** ** What one answer means to the handlers *)

(** [content] after one structured attempt that was answered by [o]. *)
Definition content_of (b64decode_utf8 : string -> option string)
    (o : outcome response) : outcome pyval :=
  match o with
  | Ok r =>
      match get_file_text_of b64decode_utf8 r with
      | Ok c => Ok (if is_error c then PNone else c)
      | Raise e => Raise e
      end
  | Raise e => Raise e
  end.

(** [(gh.get_repo_info(...) or {}).get("default_branch")] when the metadata
    request was answered by [o]. *)
Definition default_branch_of (o : outcome response) : outcome pyval :=
  match o with
  | Ok r =>
      match get_repo_info_of r with
      | Ok info => py_get (py_or info (PDict [])) "default_branch" PNone
      | Raise e => Raise e
      end
  | Raise e => Raise e
  end.

(** [content] after one raw retrieval answered by [o], if it sets it. *)
Definition raw_hit (o : outcome response) : option pyval :=
  match o with
  | Ok rr => if Z.eqb (status_code rr) 200 then Some (PStr (text rr)) else None
  | Raise _ => None
  end.

(** [sha] of [upload_file] when the lookup was answered by [o], and the
    ["sha"] entry of the payload. *)
Definition sha_value (o : outcome response) : pyval :=
  match o with
  | Ok r_get =>
      if Z.eqb (status_code r_get) 200 then
        match json r_get with
        | Some (PDict data) => dict_get "sha" data
        | _ => PNone
        end
      else PNone
  | Raise _ => PNone
  end.

Definition sha_of (o : outcome response) : option pyval :=
  if truthy (sha_value o) then Some (sha_value o) else None.

(** What [upload_file] returns when its write was answered by [o]. *)
Definition put_value (o : outcome response) : outcome pyval :=
  match o with
  | Ok r =>
      if Z.eqb (status_code r) 200 || Z.eqb (status_code r) 201 then r_json r
      else
        match json r with
        | Some (PDict data) =>
            Ok (PDict [("error",
                        dict_get_default "message" (PStr (text r)) data)])
        | _ => Ok (PDict [("error", PStr (text r))])
        end
  | Raise e => Raise e
  end.

(** The entry of the [files] array for one upload whose write was answered
    by [o]: the value [upload_file] returns, or the error entry the per-file
    loop makes of its exception. *)
Definition file_result (o : outcome response) : pyval :=
  match put_value o with
  | Ok v => v
  | Raise e => PDict [("error", PStr e)]
  end.

Definition lookup_of (gh : GitHubAPI) (owner repo path : string) : request :=
  Api (token gh) (GetContents owner repo path None).

Definition write_of (b64encode : string -> string) (gh : GitHubAPI)
    (owner repo path content message : string) (sha : option pyval)
    : request :=
  Api (token gh) (PutContents owner repo path message (b64encode content) sha).

(** The path and the content the write of [item] carries. *)
Definition item_write (b64encode : string -> string) (item : string * string)
    : string * string :=
  (fst item, b64encode (snd item)).

(** In the log [final], the write of [item] was sent and [res] is the entry
    made of its answer. *)
Definition uploaded (http : remote) (b64encode : string -> string)
    (gh : GitHubAPI) (owner repo : string) (final : log)
    (item : string * string) (res : pyval) : Prop :=
  exists pre sha suf,
    final = pre ++ Api (token gh)
                     (PutContents owner repo (fst item)
                        (upload_message (fst item))
                        (b64encode (snd item)) sha) :: suf
    /\ res = file_result
               (http pre (Api (token gh)
                            (PutContents owner repo (fst item)
                               (upload_message (fst item))
                               (b64encode (snd item)) sha))).

(** Every write is answered, and a 200 or 201 carries JSON: no upload
    raises. *)
Definition writes_answered (http : remote) : Prop :=
  forall l tok o r p m c sha,
    exists v, put_value (http l (Api tok (PutContents o r p m c sha))) = Ok v.

(** The two answers of [get_file_body]. *)
Definition not_found (tried : list pyval) : http_response :=
  jsonify [("success", PBool false);
           ("error", PStr "File not found on branches tried");
           ("tried", PList tried)] 404.

Definition found (path : string) (content : pyval) : http_response :=
  jsonify (_json_ok [("path", PStr path); ("content", content)]) 200.

(** ** The resolution order as the specification words it *)

Section ResolutionOrder.
Variable http : remote.
Variable b64decode_utf8 : string -> option string.
Variable gh : GitHubAPI.
Variables owner repo path : string.

(** Where a candidate branch comes from. *)
Inductive source : Type :=
| Hint
| DefaultBranch
| Literal (name : string).

Definition resolution_order : list source :=
  [Hint; DefaultBranch; Literal "main"; Literal "master"].

(** The branch a source names, if it names one; the default branch is
    asked of the repository's metadata. *)
Definition candidate (branch : option string) (s : source)
    : M (option pyval) :=
  match s with
  | Hint =>
      ret (match branch with
           | Some b => if String.eqb b "" then None else Some (PStr b)
           | None => None
           end)
  | DefaultBranch =>
      info <- get_repo_info http gh owner repo ;;
      d <- lift (py_get (py_or info (PDict [])) "default_branch" PNone) ;;
      ret (if truthy d then Some d else None)
  | Literal name => ret (Some (PStr name))
  end.

(** The sources in order: a candidate already tried is skipped, the others
    are fetched, and the first fetch that yields content ends the walk. *)
Fixpoint first_success (branch : option string) (order : list source)
    (tried : list pyval) : M (list pyval * option pyval) :=
  match order with
  | [] => ret (tried, None)
  | s :: order' =>
      cand <- candidate branch s ;;
      match cand with
      | None => first_success branch order' tried
      | Some b =>
          if py_in b tried then first_success branch order' tried
          else
            c <- fetch_content http b64decode_utf8 gh owner repo path b ;;
            if is_none c then first_success branch order' (tried ++ [b])
            else ret (tried ++ [b], Some c)
      end
  end.

(** The raw retrievals of the names in order, up to the first 200. *)
Fixpoint first_200 (names : list pyval) : M (option string) :=
  match names with
  | [] => ret None
  | b :: names' =>
      fun l =>
        let q := GetRaw owner repo b path in
        match http l q with
        | Ok rr =>
            if Z.eqb (status_code rr) 200 then (Ok (Some (text rr)), l ++ [q])
            else first_200 names' (l ++ [q])
        | Raise _ => first_200 names' (l ++ [q])
        end
  end.

Definition resolve_in_order (branch : option string) : M http_response :=
  ' (tried, hit) <- first_success branch resolution_order [] ;;
  match hit with
  | Some c => ret (found path c)
  | None =>
      raw <- first_200 tried ;;
      match raw with
      | Some t => ret (found path (PStr t))
      | None => ret (not_found tried)
      end
  end.

End ResolutionOrder.

(** ** The phases of [get_file_body] side by side with the ordered walk *)

Definition fmap {A B} (f : A -> B) (m : M A) : M B := x <- m ;; ret (f x).

(** [tried] and [content] for a result of the ordered walk. *)
Definition as_state (r : list pyval * option pyval) : list pyval * pyval :=
  (fst r, match snd r with Some c => c | None => PNone end).

Definition as_content (o : option string) : pyval :=
  match o with Some t => PStr t | None => PNone end.

Section Phases.
Variable http : remote.
Variable b64decode_utf8 : string -> option string.
Variable gh : GitHubAPI.
Variables owner repo path : string.
Variable branch : option string.

(** [get_file_body] from the raw fallback on. *)
Definition finish (st : list pyval * pyval) : M http_response :=
  let '(tried, content) := st in
  content <- (if is_none content
              then raw_fallback http owner repo path
                     (match tried with [] => [PStr "main"] | _ => tried end)
              else ret content) ;;
  if is_none content then ret (not_found tried)
  else ret (found path content).

(** [get_file_body] from the loop over the two literals on. *)
Definition rest_code (st : list pyval * pyval) : M http_response :=
  st <- try_literals http b64decode_utf8 gh owner repo path
          ["main"; "master"] st ;;
  finish st.

(** [resolve_in_order] once the walk is done. *)
Definition answer (r : list pyval * option pyval) : M http_response :=
  match snd r with
  | Some c => ret (found path c)
  | None =>
      raw <- first_200 http owner repo path (fst r) ;;
      match raw with
      | Some t => ret (found path (PStr t))
      | None => ret (not_found (fst r))
      end
  end.

(** [resolve_in_order] over the sources [order], [tried] being tried. *)
Definition rest_spec (order : list source) (tried : list pyval)
    : M http_response :=
  r <- first_success http b64decode_utf8 gh owner repo path branch
         order tried ;;
  answer r.

End Phases.

(** Every literal source of [order] names a branch. *)
Definition literals_named (order : list source) : Prop :=
  forall name, In (Literal name) order -> name <> "".

(** ** Scenarios *)

Section Scenarios.
Variable http : remote.
Variable b64decode_utf8 : string -> option string.
Variable gh : GitHubAPI.
Variables owner repo path : string.

(** Every structured fetch is answered, and leaves [content] at [None]: the
    answer is no 200 and carries a message or no JSON object, or it is a 200
    without content (see [failed_answer]).  An error whose message is empty or
    null is no failure to the handler, which takes the error dict for the
    content. *)
Definition every_fetch_fails : Prop :=
  forall l b,
    content_of b64decode_utf8 (http l (fetch_request gh owner repo path b))
    = Ok PNone.

(** The metadata request is answered with something [.get] reads. *)
Definition metadata_answers : Prop :=
  forall l, exists d,
    default_branch_of (http l (repo_request gh owner repo)) = Ok d.

(** The metadata names [d] as the default branch. *)
Definition default_branch_is (d : string) : Prop :=
  forall l,
    default_branch_of (http l (repo_request gh owner repo)) = Ok (PStr d).

(** No raw retrieval is answered with a 200. *)
Definition every_raw_fails : Prop :=
  forall l b, raw_hit (http l (GetRaw owner repo b path)) = None.

(** The raw retrieval for branch [b] is answered with a 200. *)
Definition raw_serves (b : pyval) : Prop :=
  forall l, exists t, raw_hit (http l (GetRaw owner repo b path)) = Some t.

(** The file is on branch [b] and on no other: the fetch on [b] yields
    content, every other fetch fails. *)
Definition file_only_on (b : string) : Prop :=
  (forall l, exists c,
      content_of b64decode_utf8
        (http l (fetch_request gh owner repo path (PStr b))) = Ok c
      /\ c <> PNone)
  /\ (forall l b', b' <> PStr b ->
        content_of b64decode_utf8
          (http l (fetch_request gh owner repo path b')) = Ok PNone).

End Scenarios.

(** A 200 whose body is a JSON object with no ["content"] or a null one. *)
Definition no_usable_content (r : response) : Prop :=
  status_code r = 200%Z
  /\ exists data, json r = Some (PDict data)
                  /\ (dict_lookup "content" data = None
                      \/ dict_lookup "content" data = Some PNone).

(** An error answer of the API: not a 200, and a JSON object whose message
    (the body text when it has none) is not empty. *)
Definition error_answer (r : response) : Prop :=
  status_code r <> 200%Z
  /\ exists data, json r = Some (PDict data)
                  /\ truthy (dict_get_default "message" (PStr (text r)) data)
                     = true.

(** The answers to a structured fetch that leave [content] at [None]. *)
Definition failed_answer (r : response) : Prop :=
  error_answer r
  \/ (status_code r <> 200%Z /\ forall data, json r <> Some (PDict data))
  \/ no_usable_content r.

(** Two remote sides that answer alike, but for contents requests that the
    first answers with a 200 without usable content where the second sends an
    error. *)
Definition same_but_empty_for_error (http1 http2 : remote) : Prop :=
  forall l q,
    http1 l q = http2 l q
    \/ exists tok o r p ref r1 r2,
         q = Api tok (GetContents o r p ref)
         /\ http1 l q = Ok r1 /\ no_usable_content r1
         /\ http2 l q = Ok r2 /\ error_answer r2.

(** ** The envelope of the JSON answers *)

(** A dict with a boolean ["success"], true only with status 200, and with
    an ["error"] entry when it is false. *)
Definition envelope (resp : http_response) : Prop :=
  exists body b,
    fst resp = PDict body
    /\ dict_lookup "success" body = Some (PBool b)
    /\ (b = true -> snd resp = 200%Z)
    /\ (b = false -> exists msg, dict_lookup "error" body = Some msg).

(** An envelope whose status is one of [codes]. *)
Definition answer_in (codes : list Z) (resp : http_response) : Prop :=
  envelope resp /\ In (snd resp) codes.

Definition answer_in_opt (codes : list Z) (o : option http_response) : Prop :=
  match o with
  | Some resp => answer_in codes resp
  | None => True
  end.

(** Whatever [m] returns satisfies [P]. *)
Definition ok_with {A} (P : A -> Prop) (m : M A) : Prop :=
  forall l, match fst (m l) with Ok a => P a | Raise _ => True end.

(** A required field of [api_get_file] is missing. *)
Definition get_file_field_missing (sess : session) (args : query) : Prop :=
  match owner_of sess args with
  | None => True
  | Some owner =>
      owner = "" \/ strip (args_get_default "repo" "" args) = ""
      \/ strip (args_get_default "path" "" args) = ""
  end.

(** ** Concrete remote sides *)

Definition not_found_answer : response :=
  mkResponse 404 "{message: Not Found}"
    (Some (PDict [("message", PStr "Not Found")])).

Definition json_answer (v : pyval) : response :=
  mkResponse 200 "{...}" (Some v).

(** Nothing is found anywhere. *)
Definition remote_nothing : remote := fun _ _ => Ok not_found_answer.

(** The API finds nothing; the raw host serves branch [master]. *)
Definition remote_raw_master : remote :=
  fun _ q =>
    match q with
    | GetRaw _ _ b _ =>
        if py_eqb b (PStr "master") then Ok (mkResponse 200 "hello" None)
        else Ok not_found_answer
    | _ => Ok not_found_answer
    end.

(** The default branch is [main]; the file is on [master] only. *)
Definition remote_master_only : remote :=
  fun _ q =>
    match q with
    | Api _ (GetRepo _ _) =>
        Ok (json_answer (PDict [("name", PStr "widgets");
                                ("default_branch", PStr "main")]))
    | Api _ (GetContents _ _ _ (Some b)) =>
        if py_eqb b (PStr "master")
        then Ok (json_answer (PDict [("encoding", PStr "base64");
                                     ("content", PStr "aGVsbG8=")]))
        else Ok not_found_answer
    | _ => Ok not_found_answer
    end.

(** Every contents request is answered 200 with an object without content. *)
Definition remote_empty_bodies : remote :=
  fun _ q =>
    match q with
    | Api _ (GetContents _ _ _ _) =>
        Ok (json_answer (PDict [("name", PStr "README.md")]))
    | _ => Ok not_found_answer
    end.

(** Lookups find nothing; the write of [b.txt] is rejected, the others
    are accepted. *)
Definition remote_rejects_b : remote :=
  fun _ q =>
    match q with
    | Api _ (PutContents _ _ p _ _ _) =>
        if String.eqb p "b.txt"
        then Ok (mkResponse 422 "{message: Invalid request}"
                   (Some (PDict [("message", PStr "Invalid request")])))
        else Ok (mkResponse 201 "{content: ...}"
                   (Some (PDict [("content", PDict [("path", PStr p)])])))
    | _ => Ok not_found_answer
    end.

Definition three_files : list (string * string) :=
  [("a.txt", "A"); ("b.txt", "B"); ("c.txt", "C")].

(** The identity stands for the base64 encoder in the examples. *)
Definition plain (s : string) : string := s.

(** The repository exists. *)
Definition remote_has_widgets : remote :=
  fun _ q =>
    match q with
    | Api _ (GetRepo _ _) =>
        Ok (json_answer (PDict [("name", PStr "widgets");
                                ("default_branch", PStr "main")]))
    | _ => Ok not_found_answer
    end.

Definition alice : session := mkSession (Some "ghp_token") (Some "alice").

(** The session of a browser that never logged in. *)
Definition anonymous : session := mkSession None None.

(** A decoder that knows one word. *)
Definition decode_hello (s : string) : option string :=
  if String.eqb s "aGVsbG8=" then Some "hello" else None.

Definition acme : GitHubAPI := mkGitHubAPI "ghp_token".

(** ** Languages by file extension *)

(** ["." in s] *)
Fixpoint has_dot (s : string) : bool :=
  match s with
  | EmptyString => false
  | String c s' => Ascii.eqb c "." || has_dot s'
  end.

(** [s.rsplit(".", 1)[-1]]: what follows the last dot. *)
Fixpoint after_last_dot (cur s : string) : string :=
  match s with
  | EmptyString => cur
  | String c s' =>
      if Ascii.eqb c "." then after_last_dot EmptyString s'
      else after_last_dot (cur ++ String c EmptyString)%string s'
  end.

(** The dict [mapping] of [detect_language_from_filename]. *)
Definition mapping : list (string * string) :=
  [("py", "python"); ("js", "javascript"); ("ts", "typescript");
   ("java", "java"); ("c", "c"); ("cpp", "cpp"); ("go", "go");
   ("rb", "ruby"); ("php", "php"); ("cs", "csharp"); ("rs", "rust");
   ("kt", "kotlin"); ("swift", "swift"); ("sh", "bash"); ("r", "r");
   ("lua", "lua"); ("hs", "haskell"); ("scala", "scala"); ("pl", "perl");
   ("dart", "dart"); ("m", "objective-c"); ("html", "html"); ("css", "css");
   ("jsx", "jsx"); ("tsx", "tsx"); ("txt", "text"); ("md", "text");
   ("json", "json"); ("yml", "yaml"); ("yaml", "yaml")].

(** [m.get(ext)] *)
Fixpoint mapping_get (ext : string) (m : list (string * string))
    : option string :=
  match m with
  | [] => None
  | (k, v) :: m' => if String.eqb ext k then Some v else mapping_get ext m'
  end.

Definition detect_language_from_filename (filename : string)
    : option string :=
  let ext := if has_dot filename
             then after_last_dot EmptyString (lower filename)
             else "" in
  mapping_get ext mapping.

(** ** Responses that are no JSON *)

(** What a handler returns: [jsonify(...)] with its status,
    [render_template(template, **context)], [redirect(location)] and
    [send_file(io.BytesIO(data), as_attachment=True, download_name=...)]. *)
Inductive flask_response : Type :=
| Json (resp : http_response)
| Render (template : string) (context : dict)
| RedirectTo (location : string)
| SendFile (data download_name : string).

(** [session.get("username")] as a value. *)
Definition opt_val (v : option string) : pyval :=
  match v with Some s => PStr s | None => PNone end.

(** [session.clear()] *)
Definition cleared : session := mkSession None None.

(** [index], [logout] and [dashboard]; [url_for] gives the paths of the
    two routes. *)
Definition index (sess : session) : flask_response :=
  match pat sess with
  | Some _ => RedirectTo "/dashboard"
  | None => Render "login.html" []
  end.

Definition logout (sess : session) : flask_response * session :=
  (RedirectTo "/", cleared).

Definition dashboard (sess : session) : flask_response :=
  match pat sess with
  | None => RedirectTo "/"
  | Some _ => Render "dashboard.html" [("username", opt_val (username sess))]
  end.

(** ** /api/settings and /api/whoami *)

(** [data] is [request.json or {}]; the session is returned as the handler
    leaves it. *)
Definition api_settings (method : string) (sess : session) (data : dict)
    : http_response * session :=
  if String.eqb method "GET" then
    (jsonify (_json_ok [("username", opt_val (username sess));
                        ("has_pat", PBool (match pat sess with
                                           | Some _ => true
                                           | None => false
                                           end))]) 200,
     sess)
  else if py_eqb (dict_get "action" data) (PStr "logout") then
    (jsonify (_json_ok [("message", PStr "Logged out")]) 200, cleared)
  else (json_error (PStr "Unknown action") 400, sess).

Definition api_whoami (sess : session) : http_response :=
  match pat sess with
  | None => json_error (PStr "Not authenticated") 401
  | Some _ => jsonify (_json_ok [("username", opt_val (username sess))]) 200
  end.

(** ** /api/delete_file and /api/add_cicd *)

(** [GitHubAPI(token)] *)
Definition GitHubAPI_init (token : string) : outcome GitHubAPI :=
  if String.eqb token "" then Raise "ValueError: token required"
  else Ok (mkGitHubAPI token).

(** [f"File {path} deleted from {repo}"] *)
Definition deleted_message (path repo : string) : string :=
  ("File " ++ path ++ " deleted from " ++ repo)%string.
Arguments deleted_message : simpl never.

(** [res.get("error")] of an error answer of the client. *)
Definition error_of (res : pyval) : pyval :=
  match res with
  | PDict d => dict_get "error" d
  | _ => PNone
  end.

Definition workflow_path : string := ".github/workflows/ci.yml".

Section Routes.
Variable http : remote.
Variable b64encode : string -> string.

(** [data] is [request.json or request.form or {}]. *)
Definition api_delete_file (sess : session) (data : dict) : M http_response :=
  match pat sess with
  | None => ret (json_error (PStr "Unauthorized") 401)
  | Some _ =>
      repo <- lift (py_strip (py_or (dict_get "repo" data) (PStr ""))) ;;
      path <- lift (py_strip (py_or (dict_get "path" data) (PStr ""))) ;;
      if String.eqb repo "" || String.eqb path "" then
        ret (json_error (PStr "repo and path required") 400)
      else
        match get_gh sess with
        | None => ret (json_error (PStr "GitHub client unavailable") 500)
        | Some gh =>
            try_except
              (let owner := fmt (username sess) in
               res <- delete_file http gh owner repo path
                        "Delete via GitSmart" ;;
               if is_error res then ret (json_error (error_of res) 400)
               else
                 ret (jsonify
                        (_json_ok
                           [("message", PStr (deleted_message path repo))])
                        200))
              on_exception
        end
  end.

(** [data] is [request.json or {}]. *)
Definition api_add_cicd (sess : session) (data : dict) : M http_response :=
  match pat sess with
  | None => ret (json_error (PStr "Unauthorized") 401)
  | Some _ =>
      repo <- lift (py_strip (py_or (dict_get "repo" data) (PStr ""))) ;;
      if String.eqb repo "" then ret (json_error (PStr "repo required") 400)
      else
        match get_gh sess with
        | None => ret (json_error (PStr "GitHub client unavailable") 500)
        | Some gh =>
            try_except
              (present <- file_exists http gh (fmt (username sess)) repo
                            workflow_path ;;
               if present then
                 ret (jsonify
                        (_json_ok
                           [("message",
                             PStr "CI/CD workflow already present")]) 200)
               else
                 _ <- ensure_cicd http b64encode gh (fmt (username sess))
                        repo ;;
                 ret (jsonify
                        (_json_ok [("message", PStr "CI/CD workflow added")])
                        200))
              on_exception
        end
  end.

End Routes.

(** ** The other services *)

(** The requests of the handlers below: those of the client above, and the
    calls it has no constructor for.  [GetUser], [DeleteRepo] and
    [GetZipball] carry the token of the client; the search, the [HEAD] of a
    branch archive on github.com and the execution request to a Piston
    endpoint are sent without one. *)
Inductive xrequest : Type :=
| GitHub (q : request)
| GetUser (token : string)
| DeleteRepo (token owner repo : string)
| GetZipball (token owner repo branch : string)
| SearchRepositories (q : string) (per_page : Z)
| HeadArchive (owner repo b : string)
| PostExecute (endpoint : string) (language : pyval) (name : string)
    (content stdin : pyval).

Definition xlog := list xrequest.

Definition xremote := xlog -> xrequest -> outcome response.

Definition XM (A : Type) : Type := xlog -> outcome A * xlog.

Definition xret {A} (a : A) : XM A := fun l => (Ok a, l).

Definition xbind {A B} (m : XM A) (f : A -> XM B) : XM B :=
  fun l => match m l with
           | (Ok a, l') => f a l'
           | (Raise e, l') => (Raise e, l')
           end.

Definition xtry {A} (m : XM A) (h : string -> XM A) : XM A :=
  fun l => match m l with
           | (Ok a, l') => (Ok a, l')
           | (Raise e, l') => h e l'
           end.

Definition xlift {A} (o : outcome A) : XM A := fun l => (o, l).

Declare Scope xpy_scope.
Delimit Scope xpy_scope with xpy.
Notation "x <- m ;; k" := (xbind m (fun x => k))
  (at level 61, m at next level, right associativity) : xpy_scope.

(** The remote side a computation of the client sees when it starts after
    the requests [xl]: what it sends goes out after them. *)
Definition github_remote (xhttp : xremote) (xl : xlog) : remote :=
  fun l q => xhttp (xl ++ map GitHub l) (GitHub q).

(** A computation of the client above, run among the other requests. *)
Definition github {A} (xhttp : xremote) (m : remote -> M A) : XM A :=
  fun xl =>
    let '(o, l) := m (github_remote xhttp xl) [] in
    (o, xl ++ map GitHub l).

Definition PISTON_ENDPOINTS : list string :=
  ["https://emkc.org/api/v2/piston/execute"; "https://piston.rs/execute"].

(** [f"https://github.com/{owner}/{repo}/archive/refs/heads/{b}.zip"] *)
Definition archive_url (owner repo b : string) : string :=
  ("https://github.com/" ++ owner ++ "/" ++ repo ++ "/archive/refs/heads/"
   ++ b ++ ".zip")%string.
Arguments archive_url : simpl never.

(** [f"{repo}-{branch}.zip"] *)
Definition download_name_of (repo branch : string) : string :=
  (repo ++ "-" ++ branch ++ ".zip")%string.
Arguments download_name_of : simpl never.

(** [f"Repository {repo} deleted successfully!"] *)
Definition repo_deleted_message (repo : string) : string :=
  ("Repository " ++ repo ++ " deleted successfully!")%string.
Arguments repo_deleted_message : simpl never.

(** [isinstance(user, dict) and user.get("message")] *)
Definition has_message (user : pyval) : bool :=
  match user with
  | PDict d => truthy (dict_get "message" d)
  | _ => false
  end.

(** What the execution loop of [api_run] returns for a 200 of an endpoint:
    the answer, or the exception of [r.json()] or of a [.get] on what is no
    dict. *)
Definition run_answer (r : response) (language : pyval) (path : string)
    : outcome http_response :=
  match r_json r with
  | Raise e => Raise e
  | Ok j =>
      match py_get j "run" (PDict []) with
      | Raise e => Raise e
      | Ok run0 =>
          match py_or run0 j with
          | PDict run =>
              Ok (jsonify
                    (_json_ok
                       [("stdout",
                         py_or (dict_get_default "stdout" (PStr "") run)
                               (dict_get_default "output" (PStr "") run));
                        ("stderr",
                         py_or (dict_get_default "stderr" (PStr "") run)
                               (dict_get_default "error" (PStr "") run));
                        ("exit_code",
                         py_or (dict_get_default "code" (PInt 0) run)
                               (dict_get_default "exit" (PInt 0) run));
                        ("language", language);
                        ("file", PStr path)]) 200)
          | _ => Raise "AttributeError: object has no attribute 'get'"
          end
      end
  end.

(** One element of [items] in [api_public_repos]. *)
Definition public_entry (it : pyval) : outcome pyval :=
  match it with
  | PDict d =>
      match dict_get_default "owner" (PDict []) d with
      | PDict o =>
          Ok (PDict [("full_name", dict_get "full_name" d);
                     ("description", dict_get "description" d);
                     ("stargazers_count", dict_get "stargazers_count" d);
                     ("owner", PDict [("login", dict_get "login" o)]);
                     ("name", dict_get "name" d)])
      | _ => Raise "AttributeError: object has no attribute 'get'"
      end
  | _ => Raise "AttributeError: object has no attribute 'get'"
  end.

Fixpoint public_entries (items repos : list pyval) : outcome (list pyval) :=
  match items with
  | [] => Ok repos
  | it :: items' =>
      match public_entry it with
      | Ok e => public_entries items' (repos ++ [e])
      | Raise e => Raise e
      end
  end.

(** The loop [for it in items] over whatever ["items"] holds: a list is
    walked, an empty string or dict gives nothing, the elements of the
    others have no [get], and what is no sequence cannot be iterated. *)
Definition public_repos_of (items : pyval) : outcome (list pyval) :=
  match items with
  | PList l => public_entries l []
  | PStr s =>
      if String.eqb s "" then Ok []
      else Raise "AttributeError: object has no attribute 'get'"
  | PDict [] => Ok []
  | PDict _ => Raise "AttributeError: object has no attribute 'get'"
  | _ => Raise "TypeError: object is not iterable"
  end.

Section Services.

(** The remote side, the decoder of the client, and [int(s)] on a string,
    which raises on what is no number. *)
Variable xhttp : xremote.
Variable b64decode_utf8 : string -> option string.
Variable py_int : string -> outcome Z.

Definition xsend (q : xrequest) : XM response :=
  fun l => (xhttp l q, l ++ [q]).

Definition x_on_exception (e : string) : XM http_response :=
  xret (json_error (PStr e) 500).

(** *** The client: [get_user], [delete_repo], [download_repo_zip] *)

Definition get_user (gh : GitHubAPI) : XM pyval :=
  (r <- xsend (GetUser (token gh)) ;;
   xret (match json r with
         | Some v => v
         | None => PDict [("message", PStr "failed")]
         end))%xpy.

Definition delete_repo (gh : GitHubAPI) (owner repo : string) : XM pyval :=
  (r <- xsend (DeleteRepo (token gh) owner repo) ;;
   if Z.eqb (status_code r) 204 then xret (PDict [("ok", PBool true)])
   else
     xtry
       (data <- xlift (r_json r) ;;
        msg <- xlift (py_get data "message" (PStr (text r))) ;;
        xret (PDict [("error", msg)]))
       (fun _ => xret (PDict [("error", PStr (text r))])))%xpy.

(** [r.content] is the body, [None] when the answer is no 200. *)
Definition download_repo_zip (gh : GitHubAPI) (owner repo branch : string)
    : XM (option string) :=
  (r <- xsend (GetZipball (token gh) owner repo branch) ;;
   xret (if Z.eqb (status_code r) 200 then Some (text r) else None))%xpy.

(** *** /login *)

(** The handler with the assignments it makes to the session, in order;
    [form] is [request.form]. *)
Definition login (method : string) (form : query)
    : XM (flask_response * list (string * pyval)) :=
  if String.eqb method "GET" then xret (Render "login.html" [], [])
  else
    let pat := strip (match opt_or (args_get "pat" form) (Some "") with
                      | Some s => s
                      | None => ""
                      end) in
    if String.eqb pat "" then
      xret (Render "login.html" [("error", PStr "Enter your GitHub PAT")], [])
    else
      xtry
        (gh <- xlift (GitHubAPI_init pat) ;;
         user <- get_user gh ;;
         if negb (truthy user) || has_message user then
           xret (Render "login.html"
                   [("error", PStr "Invalid PAT or missing repo scopes")],
                 [])
         else
           match py_get user "login" PNone with
           | Ok name =>
               xret (RedirectTo "/dashboard",
                     [("pat", PStr pat); ("username", name)])
           | Raise _ =>
               xret (Render "login.html"
                       [("error",
                         PStr "Unexpected error authenticating token")],
                     [("pat", PStr pat)])
           end)%xpy
        (fun _ =>
           xret (Render "login.html"
                   [("error", PStr "Unexpected error authenticating token")],
                 [])).

(** *** /api/delete_repo *)

(** [data] is [request.json or request.form or {}]. *)
Definition api_delete_repo (sess : session) (data : dict)
    : XM http_response :=
  match pat sess with
  | None => xret (json_error (PStr "Unauthorized") 401)
  | Some _ =>
      (repo <- xlift (py_strip (py_or (dict_get "repo" data) (PStr ""))) ;;
       if String.eqb repo "" then xret (json_error (PStr "repo required") 400)
       else
         match get_gh sess with
         | None => xret (json_error (PStr "GitHub client unavailable") 500)
         | Some gh =>
             xtry
               (result <- delete_repo gh (fmt (username sess)) repo ;;
                if is_error result then
                  xret (json_error (error_of result) 400)
                else
                  xret (jsonify
                          (_json_ok
                             [("message", PStr (repo_deleted_message repo))])
                          200))
               x_on_exception
         end)%xpy
  end.

(** *** /api/public_repos *)

(** [int(request.args.get("per_page", 20) or 20)] *)
Definition per_page_of (args : query) : outcome Z :=
  match args_get "per_page" args with
  | Some s => if String.eqb s "" then Ok 20%Z else py_int s
  | None => Ok 20%Z
  end.

Definition api_public_repos (args : query) : XM http_response :=
  let q := args_get_default "q" "stars:>20000" args in
  (per_page <- xlift (per_page_of args) ;;
   xtry
     (r <- xsend (SearchRepositories q per_page) ;;
      if Z.eqb (status_code r) 200 then
        j <- xlift (r_json r) ;;
        items <- xlift (py_get j "items" (PList [])) ;;
        repos <- xlift (public_repos_of items) ;;
        xret (jsonify (_json_ok [("repos", PList repos)]) 200)
      else xret (json_error (PStr (text r)) 500))
     x_on_exception)%xpy.

(** *** /api/download *)

(** The loop over [(branch, "main", "master")]. *)
Fixpoint find_archive (owner repo : string) (bs : list string)
    : XM flask_response :=
  match bs with
  | [] => xret (Json (json_error (PStr "Could not find branch zip") 404))
  | b :: bs' =>
      (hit <- xtry
                (head <- xsend (HeadArchive owner repo b) ;;
                 xret (Z.eqb (status_code head) 200))
                (fun _ => xret false) ;;
       if hit then xret (RedirectTo (archive_url owner repo b))
       else find_archive owner repo bs')%xpy
  end.

Definition api_download (sess : session) (owner repo : string) (args : query)
    : XM flask_response :=
  let branch := args_get_default "branch" "main" args in
  xtry
    (data <- match get_gh sess with
             | Some gh => download_repo_zip gh owner repo branch
             | None => xret None
             end ;;
     match data with
     | Some d =>
         if String.eqb d "" then
           find_archive owner repo [branch; "main"; "master"]
         else xret (SendFile d (download_name_of repo branch))
     | None => find_archive owner repo [branch; "main"; "master"]
     end)%xpy
    (fun e => xret (Json (json_error (PStr e) 500))).

(** *** /api/run *)

Definition jsx_refusal : string :=
  "React/JSX requires build step; preview HTML instead.".

(** The loop over [PISTON_ENDPOINTS]: the first 200 that can be read ends
    it, an exception goes on to the next endpoint. *)
Fixpoint run_on (endpoints : list string) (language : pyval) (path : string)
    (file_text stdin : pyval) : XM http_response :=
  match endpoints with
  | [] => xret (json_error (PStr "Execution service failed") 502)
  | endpoint :: rest =>
      (hit <- xtry
                (r <- xsend (PostExecute endpoint language
                               (last_segment EmptyString path) file_text
                               (py_or stdin (PStr ""))) ;;
                 if Z.eqb (status_code r) 200 then
                   resp <- xlift (run_answer r language path) ;;
                   xret (Some resp)
                 else xret None)
                (fun _ => xret None) ;;
       match hit with
       | Some resp => xret resp
       | None => run_on rest language path file_text stdin
       end)%xpy
  end.

(** The fields of [request.json]: [owner] when it is there, [repo] and
    [path] with their default [""], all three strings; [stdin] and
    [language] as they come, [None] standing for a missing language. *)
Definition api_run (sess : session) (owner : option string)
    (repo path : string) (stdin language : pyval) : XM http_response :=
  match opt_or owner (username sess) with
  | None => xret (json_error (PStr "owner, repo, path required") 400)
  | Some owner =>
      if String.eqb owner "" || String.eqb repo "" || String.eqb path "" then
        xret (json_error (PStr "owner, repo, path required") 400)
      else
        match get_gh sess with
        | None => xret (json_error (PStr "GitHub client unavailable") 500)
        | Some gh =>
            xtry
              (file_text <- github xhttp
                              (fun http =>
                                 get_file_text http b64decode_utf8 gh owner
                                   repo path PNone) ;;
               if is_error file_text then
                 xret (json_error (error_of file_text) 400)
               else if is_none file_text then
                 xret (json_error (PStr "Could not fetch file content") 404)
               else if endswith (lower path) ".html"
                       || endswith (lower path) ".css" then
                 xret (jsonify
                         (_json_ok [("preview", PBool true);
                                    ("content", file_text);
                                    ("path", PStr path)]) 200)
               else if endswith (lower path) ".jsx"
                       || endswith (lower path) ".tsx" then
                 xret (json_error (PStr jsx_refusal) 400)
               else
                 let language :=
                   if truthy language then language
                   else opt_val (detect_language_from_filename path) in
                 if negb (truthy language) then
                   xret (json_error (PStr "Could not detect language") 400)
                 else run_on PISTON_ENDPOINTS language path file_text stdin)%xpy
              x_on_exception
        end
  end.

End Services.

(** ** Scenarios for the listings *)

(** The request for page [p] of the repositories of the user. *)
Definition page_request (gh : GitHubAPI) (p : Z) : request :=
  Api (token gh) (GetUserRepos p).

(** Page [p] is answered with a 200 that lists [items]. *)
Definition page_lists (http : remote) (gh : GitHubAPI) (p : Z)
    (items : list pyval) : Prop :=
  forall l, exists r,
    http l (page_request gh p) = Ok r
    /\ status_code r = 200%Z /\ json r = Some (PList items).

(** A first page of a hundred repositories and a second of one. *)
Definition remote_two_pages : remote :=
  fun _ q =>
    match q with
    | Api _ (GetUserRepos p) =>
        if Z.eqb p 1 then
          Ok (json_answer (PList (repeat (PDict [("name", PStr "r")]) 100)))
        else if Z.eqb p 2 then
          Ok (json_answer (PList [PDict [("name", PStr "last")]]))
        else Ok not_found_answer
    | _ => Ok not_found_answer
    end.

Definition tree_request (gh : GitHubAPI) (owner repo : string) (b : pyval)
    : request :=
  Api (token gh) (GetTree owner repo b).

Definition root_request (gh : GitHubAPI) (owner repo : string) : request :=
  Api (token gh) (GetRootContents owner repo).

(** [ri.get("default_branch", "main")] of [list_repo_files] when the
    metadata request was answered by [r]. *)
Definition listed_branch (r : response) : outcome pyval :=
  match get_repo_info_of r with
  | Ok ri => py_get ri "default_branch" (PStr "main")
  | Raise e => Raise e
  end.

(** The listing an answer carries: the JSON of a 200. *)
Definition listing_of (o : outcome response) : option pyval :=
  match o with
  | Ok r => if Z.eqb (status_code r) 200 then json r else None
  | Raise _ => None
  end.

(** ["/" in s] *)
Fixpoint has_slash (s : string) : bool :=
  match s with
  | EmptyString => false
  | String c s' => Ascii.eqb c "/" || has_slash s'
  end.

(** An entry of the [files] array made from a tree: its name is the last
    segment of its path, and it has a download URL exactly when it is a
    file. *)
Definition tree_file (e : pyval) : Prop :=
  exists d name path,
    e = PDict d
    /\ dict_lookup "name" d = Some (PStr name)
    /\ dict_lookup "path" d = Some (PStr path)
    /\ path <> ""
    /\ has_slash name = false
    /\ (path = name \/ exists dir, path = (dir ++ "/" ++ name)%string)
    /\ ((dict_lookup "type" d = Some (PStr "file")
         /\ exists url, dict_lookup "download_url" d = Some (PStr url))
        \/ (dict_lookup "type" d = Some (PStr "dir")
            /\ dict_lookup "download_url" d = Some PNone)).

(** A tree of two blobs, a directory and an entry without a path. *)
Definition sample_tree : list pyval :=
  [PDict [("path", PStr "README.md"); ("type", PStr "blob")];
   PDict [("path", PStr "src"); ("type", PStr "tree")];
   PDict [("type", PStr "blob")];
   PDict [("path", PStr "src/app.py"); ("type", PStr "blob")]].

(** Every path holds a file with a revision hash; deletions are accepted. *)
Definition remote_has_files : remote :=
  fun _ q =>
    match q with
    | Api _ (GetContents _ _ _ _) =>
        Ok (json_answer (PDict [("sha", PStr "abc123")]))
    | Api _ (DeleteContents _ _ _ _ _) =>
        Ok (json_answer (PDict [("commit", PDict [("sha", PStr "def456")])]))
    | _ => Ok not_found_answer
    end.

(** ** What a computation sends *)

(** Every request [m] sends satisfies [P]: the log grows by such requests
    only, whatever the remote side answers and whether [m] raises or not. *)
Definition sends_only {A} (P : request -> Prop) (m : M A) : Prop :=
  forall l, exists ev, snd (m l) = l ++ ev /\ Forall P ev.

(** A request that reads: a [GET] of the API or of the raw host. *)
Definition reads (q : request) : Prop :=
  match q with
  | Api _ (GetUserRepos _) => True
  | Api _ (GetRepo _ _) => True
  | Api _ (GetTree _ _ _) => True
  | Api _ (GetRootContents _ _) => True
  | Api _ (GetContents _ _ _ _) => True
  | GetRaw _ _ _ _ => True
  | _ => False
  end.

(** The creation request [api_create_repo] sends for [data]. *)
Definition creation_request (tok name : string) (data : dict) : request :=
  Api tok
    (PostUserRepos name
       (py_or (dict_get "description" data)
              (PStr "Repository created with GitSmart"))
       (truthy (dict_get_default "private" (PBool false) data))).

(** [f"Repository {name} created successfully!"] *)
Definition created_message (name : string) : string :=
  ("Repository " ++ name ++ " created successfully!")%string.

(** The repository is not there, creations are accepted, and every write
    is refused. *)
Definition remote_creates_only : remote :=
  fun _ q =>
    match q with
    | Api _ (PostUserRepos n _ _) =>
        Ok (mkResponse 201 "{name: ...}" (Some (PDict [("name", PStr n)])))
    | _ => Ok not_found_answer
    end.

(** The repository is not there and its creation is refused. *)
Definition remote_refuses_creation : remote :=
  fun _ q =>
    match q with
    | Api _ (PostUserRepos _ _ _) =>
        Ok (mkResponse 422 "{message: name already exists on this account}"
              (Some (PDict [("message",
                             PStr "name already exists on this account")])))
    | _ => Ok not_found_answer
    end.

(** ** Reading the answers of the other services *)

(** The token [login] reads from the form. *)
Definition form_pat (form : query) : string :=
  strip (match opt_or (args_get "pat" form) (Some "") with
         | Some s => s
         | None => ""
         end).

(** The execution request [api_run] sends to [endpoint]. *)
Definition execute_request (language : pyval) (path : string)
    (file_text stdin : pyval) (endpoint : string) : xrequest :=
  PostExecute endpoint language (last_segment EmptyString path) file_text
    (py_or stdin (PStr "")).

(** What the loop of [api_run] makes of the answer of one endpoint: the
    response that ends the loop, or nothing when the loop goes on. *)
Definition endpoint_answer (language : pyval) (path : string)
    (o : outcome response) : option http_response :=
  match o with
  | Ok r =>
      if Z.eqb (status_code r) 200 then
        match run_answer r language path with
        | Ok resp => Some resp
        | Raise _ => None
        end
      else None
  | Raise _ => None
  end.

(** The request [api_run] fetches the file with. *)
Definition run_fetch (gh : GitHubAPI) (owner repo path : string) : xrequest :=
  GitHub (Api (token gh) (GetContents owner repo path None)).

(** The language [api_run] runs [path] in. *)
Definition run_language (language : pyval) (path : string) : pyval :=
  if truthy language then language
  else opt_val (detect_language_from_filename path).

(** [path.lower().endswith((".html", ".css"))] and
    [path.lower().endswith((".jsx", ".tsx"))] *)
Definition previewed (path : string) : bool :=
  endswith (lower path) ".html" || endswith (lower path) ".css".

Definition needs_build (path : string) : bool :=
  endswith (lower path) ".jsx" || endswith (lower path) ".tsx".

(** Whatever [m] returns satisfies [P]. *)
Definition xok_with {A} (P : A -> Prop) (m : XM A) : Prop :=
  forall l, match fst (m l) with Ok a => P a | Raise _ => True end.

(** A JSON answer that is an envelope with a status among [codes]; the
    other responses carry no JSON. *)
Definition json_answer_in (codes : list Z) (resp : flask_response) : Prop :=
  match resp with
  | Json r => answer_in codes r
  | _ => True
  end.

(** ** Concrete remote sides for the other services *)

(** GitHub knows the token [ghp_token] as [alice] and rejects the others. *)
Definition xremote_knows_alice : xremote :=
  fun _ q =>
    match q with
    | GetUser tok =>
        if String.eqb tok "ghp_token"
        then Ok (json_answer (PDict [("login", PStr "alice")]))
        else Ok (mkResponse 401 "{message: Bad credentials}"
                   (Some (PDict [("message", PStr "Bad credentials")])))
    | _ => Ok not_found_answer
    end.

(** Deletions of repositories are accepted. *)
Definition xremote_deletes : xremote :=
  fun _ q =>
    match q with
    | DeleteRepo _ _ _ => Ok (mkResponse 204 "" None)
    | _ => Ok not_found_answer
    end.

(** Every file holds [print(1)]; the first Piston endpoint is down, the
    second runs the code. *)
Definition xremote_second_endpoint : xremote :=
  fun _ q =>
    match q with
    | GitHub (Api _ (GetContents _ _ _ _)) =>
        Ok (json_answer (PDict [("content", PStr "print(1)")]))
    | PostExecute e _ _ _ _ =>
        if String.eqb e "https://piston.rs/execute"
        then Ok (json_answer
                   (PDict [("run", PDict [("stdout", PStr "1");
                                          ("code", PInt 0)])]))
        else Raise "ConnectionError"
    | _ => Ok not_found_answer
    end.

(** Every file holds [<p>hi</p>]; no endpoint is up. *)
Definition xremote_pages : xremote :=
  fun _ q =>
    match q with
    | GitHub (Api _ (GetContents _ _ _ _)) =>
        Ok (json_answer (PDict [("content", PStr "<p>hi</p>")]))
    | PostExecute _ _ _ _ _ => Raise "ConnectionError"
    | _ => Ok not_found_answer
    end.

(** github.com has the archive of [master] only; the API serves no
    zipball. *)
Definition xremote_master_archive : xremote :=
  fun _ q =>
    match q with
    | HeadArchive _ _ b =>
        if String.eqb b "master" then Ok (mkResponse 200 "" None)
        else Ok not_found_answer
    | _ => Ok not_found_answer
    end.

(** The [HEAD] of an archive found it: the answer is a 200. *)
Definition archive_found (o : outcome response) : bool :=
  match o with
  | Ok head => Z.eqb (status_code head) 200
  | Raise _ => false
  end.

(** The zipball request of [api_download], when the session gives a
    client. *)
Definition zipball_requests (sess : session) (owner repo branch : string)
    : xlog :=
  match get_gh sess with
  | Some gh => [GetZipball (token gh) owner repo branch]
  | None => []
  end.

(** ** The upload list, file by file *)

(** [filename.lower().endswith(".zip")] for the secured name of [f]. *)
Definition named_zip (secure_filename : string -> string)
    (f : string * string) : bool :=
  endswith (lower (secure_filename (fst f))) ".zip".

(** What one file of the request adds to the upload list: the members of
    an archive under the names they have in it, any other file under its
    secured name. *)
Definition listed (secure_filename : string -> string)
    (zip_members : string -> outcome (list (string * string)))
    (f : string * string) : list (string * string) :=
  if named_zip secure_filename f then
    match zip_members (snd f) with
    | Ok members => members
    | Raise _ => []
    end
  else [(secure_filename (fst f), snd f)].

(** A reader that knows one archive, of two members. *)
Definition read_one_zip (data : string) : outcome (list (string * string)) :=
  if String.eqb data "PK-site"
  then Ok [("../index.html", "<p>hi</p>"); ("css/site.css", "p {}")]
  else Raise "BadZipFile: File is not a zip file".

(** Lookups find nothing; writes are accepted, but the answer to the write
    of [b.txt] has a body that is no JSON. *)
Definition remote_garbles_b : remote :=
  fun _ q =>
    match q with
    | Api _ (PutContents _ _ p _ _ _) =>
        if String.eqb p "b.txt" then Ok (mkResponse 201 "<html>" None)
        else Ok (mkResponse 201 "{content: ...}"
                   (Some (PDict [("content", PDict [("path", PStr p)])])))
    | _ => Ok not_found_answer
    end.

(** ** How much a computation sends *)

(** [m] sends at most [n] requests, and what it returns satisfies [P]. *)
Definition sends_at_most {A} (n : nat) (P : A -> Prop) (m : M A) : Prop :=
  forall l, exists ev,
    snd (m l) = l ++ ev /\ List.length ev <= n
    /\ match fst (m l) with Ok a => P a | Raise _ => True end.

(** [m] sends at most [n] requests, whatever is answered. *)
Definition requests_at_most {A} (n : nat) (m : M A) : Prop :=
  sends_at_most n (fun _ => True) m.

(** An element of a search answer [api_public_repos] can read: an object
    whose owner, when it has one, is an object. *)
Definition public_item (it : pyval) : Prop :=
  exists d o, it = PDict d /\ dict_get_default "owner" (PDict []) d = PDict o.

(** The search finds two repositories, the second without an owner
    object. *)
Definition xremote_search : xremote :=
  fun _ q =>
    match q with
    | SearchRepositories _ _ =>
        Ok (json_answer
              (PDict [("items",
                       PList [PDict [("name", PStr "linux");
                                     ("owner",
                                      PDict [("login", PStr "torvalds")])];
                              PDict [("name", PStr "orphan");
                                     ("owner", PNone)]])]))
    | _ => Ok not_found_answer
    end.

(** [int] on the decimal numbers the examples use. *)
Definition int_of_example (s : string) : outcome Z :=
  if String.eqb s "5" then Ok 5%Z
  else Raise "ValueError: invalid literal for int()".

(** The repository is not there, and its creation is refused without a
    word. *)
Definition remote_refuses_silently : remote :=
  fun _ q =>
    match q with
    | Api _ (PostUserRepos _ _ _) =>
        Ok (mkResponse 403 "" (Some (PDict [("message", PStr "")])))
    | _ => Ok not_found_answer
    end.

(** The lookup of a repository is refused with an empty body. *)
Definition remote_mute : remote :=
  fun _ q =>
    match q with
    | Api _ (GetRepo _ _) => Ok (mkResponse 502 "" None)
    | _ => Ok not_found_answer
    end.

(** Every contents request is refused with an object whose message is
    empty. *)
Definition remote_blank_errors : remote :=
  fun _ q =>
    match q with
    | Api _ (GetContents _ _ _ _) =>
        Ok (mkResponse 404 "{message: }" (Some (PDict [("message", PStr "")])))
    | _ => Ok not_found_answer
    end.

(** * Properties *)

(** ** Equality of values *)

Lemma py_eqb_eq : forall a b, py_eqb a b = true <-> a = b.
Proof.
  induction a as [| x | x | x | l IH | d IH] using pyval_nested_ind;
    destruct b as [| y | y | y | l2 | d2]; simpl;
    try (split; [discriminate | intros E; discriminate E]).
  - tauto.
  - rewrite Bool.eqb_true_iff. split; congruence.
  - rewrite Z.eqb_eq. split; congruence.
  - rewrite String.eqb_eq. split; congruence.
  - revert l2. induction IH as [| u l Hu _ IHl]; intros [| w l2];
      try (split; [discriminate | intros E; discriminate E]).
    + tauto.
    + rewrite andb_true_iff, Hu, IHl. split.
      * intros [-> E]. now injection E as ->.
      * intros E. injection E as -> ->. tauto.
  - revert d2. induction IH as [| [k1 u] d Hu _ IHd]; intros [| [k2 w] d2];
      try (split; [discriminate | intros E; discriminate E]).
    + tauto.
    + simpl in Hu. rewrite !andb_true_iff, String.eqb_eq, Hu, IHd. split.
      * intros [[-> ->] E]. now injection E as ->.
      * intros E. injection E as -> -> ->. tauto.
Qed.

Lemma py_eqb_refl : forall a, py_eqb a a = true.
Proof. intros a. now apply py_eqb_eq. Qed.

Lemma py_in_In : forall v l, py_in v l = true <-> In v l.
Proof.
  intros v l. unfold py_in. rewrite existsb_exists. split.
  - intros [x [Hx E]]. apply py_eqb_eq in E. now subst.
  - intros H. exists v. split; [assumption | apply py_eqb_refl].
Qed.

Lemma py_in_false : forall v l, py_in v l = false -> ~ In v l.
Proof.
  intros v l E H. apply py_in_In in H. congruence.
Qed.

(** ** One request at a time *)

Section Runs.
Variable http : remote.
Variable b64decode_utf8 : string -> option string.
Variable gh : GitHubAPI.
Variables owner repo path : string.

Lemma fetch_content_run : forall b l,
  truthy b = true ->
  fetch_content http b64decode_utf8 gh owner repo path b l
  = (content_of b64decode_utf8 (http l (fetch_request gh owner repo path b)),
     l ++ [fetch_request gh owner repo path b]).
Proof.
  intros b l Hb.
  unfold fetch_content, get_file_text, bind, send, lift, ret, content_of,
    fetch_request.
  rewrite Hb.
  destruct (http l _) as [r | e]; [| reflexivity].
  destruct (get_file_text_of b64decode_utf8 r); reflexivity.
Qed.

Lemma default_branch_run : forall A (k : pyval -> M A) l,
  (info <- get_repo_info http gh owner repo ;;
   d <- lift (py_get (py_or info (PDict [])) "default_branch" PNone) ;;
   k d) l
  = match default_branch_of (http l (repo_request gh owner repo)) with
    | Ok d => k d (l ++ [repo_request gh owner repo])
    | Raise e => (Raise e, l ++ [repo_request gh owner repo])
    end.
Proof.
  intros A k l.
  unfold get_repo_info, bind, send, lift, default_branch_of, repo_request.
  destruct (http l _) as [r | e]; [| reflexivity].
  destruct (get_repo_info_of r) as [info | e]; [| reflexivity].
  destruct (py_get _ _ _); reflexivity.
Qed.

Lemma raw_step_run : forall b bs l,
  raw_fallback http owner repo path (b :: bs) l
  = match raw_hit (http l (GetRaw owner repo b path)) with
    | Some c => (Ok c, l ++ [GetRaw owner repo b path])
    | None => raw_fallback http owner repo path bs
                (l ++ [GetRaw owner repo b path])
    end.
Proof.
  intros b bs l. simpl.
  unfold bind, try_except, send, ret, raw_hit.
  destruct (http l _) as [rr | e]; [| reflexivity].
  destruct (Z.eqb (status_code rr) 200); reflexivity.
Qed.

End Runs.

(** ** The handler walks the sources in the order of the specification *)

Lemma bind_ret_l : forall A B (a : A) (f : A -> M B) l,
  bind (ret a) f l = f a l.
Proof. reflexivity. Qed.

Lemma bind_assoc : forall A B C (m : M A) (f : A -> M B) (g : B -> M C) l,
  bind (bind m f) g l = bind m (fun x => bind (f x) g) l.
Proof.
  intros A B C m f g l. unfold bind.
  destruct (m l) as [[a | e] l1]; reflexivity.
Qed.

Section Refinement.
Variable http : remote.
Variable b64decode_utf8 : string -> option string.
Variable gh : GitHubAPI.
Variables owner repo path : string.
Variable branch : option string.

Local Abbreviation code :=
  (rest_code http b64decode_utf8 gh owner repo path).
Local Abbreviation walk :=
  (rest_spec http b64decode_utf8 gh owner repo path branch).
Local Abbreviation finish_raw := (finish http owner repo path).
Local Abbreviation answer_raw := (answer http owner repo path).

Lemma try_literals_settled : forall bs tried c l,
  is_none c = false ->
  try_literals http b64decode_utf8 gh owner repo path bs (tried, c) l
  = (Ok (tried, c), l).
Proof.
  induction bs as [| b bs IH]; intros tried c l Hc; simpl.
  - reflexivity.
  - rewrite Hc. simpl. now apply IH.
Qed.

Lemma try_literals_in_order : forall bs tried l,
  try_literals http b64decode_utf8 gh owner repo path bs (tried, PNone) l
  = fmap as_state
      (first_success http b64decode_utf8 gh owner repo path branch
         (map Literal bs) tried) l.
Proof.
  induction bs as [| b bs IH]; intros tried l; simpl.
  - reflexivity.
  - destruct (py_in (PStr b) tried) eqn:Hin; simpl.
    + rewrite IH. unfold fmap, bind, ret. simpl. rewrite Hin. reflexivity.
    + unfold fmap, bind, ret. simpl. rewrite Hin.
      destruct (fetch_content _ _ _ _ _ _ _ l) as [[c | e] l1]; [| reflexivity].
      destruct (is_none c) eqn:Hc.
      * destruct c; try discriminate. rewrite IH. reflexivity.
      * rewrite try_literals_settled by assumption. reflexivity.
Qed.

Lemma first_success_tried : forall order tried l tried' hit l',
  first_success http b64decode_utf8 gh owner repo path branch order tried l
  = (Ok (tried', hit), l') ->
  (forall x, In x tried -> In x tried')
  /\ (hit = None ->
      forall name, In (Literal name) order -> In (PStr name) tried')
  /\ (forall c, hit = Some c -> is_none c = false).
Proof.
  induction order as [| s order IH]; intros tried l tried' hit l' H.
  - simpl in H. injection H as <- <- <-.
    repeat split; [auto | intros _ name [] | discriminate].
  - simpl in H. unfold bind in H.
    destruct (candidate _ _ _ _ _ s l) as [[cand | e] l1] eqn:Hc;
      [| discriminate].
    assert (Hlit : forall name, s = Literal name -> cand = Some (PStr name)).
    { intros name ->. simpl in Hc. unfold ret in Hc. congruence. }
    destruct cand as [b |].
    + destruct (py_in b tried) eqn:Hin.
      * apply IH in H. destruct H as [Hsub [Hn Hs]].
        repeat split; [assumption | | assumption].
        intros Hh name [-> | Hname]; [| now apply Hn].
        specialize (Hlit name eq_refl). injection Hlit as ->.
        apply Hsub. now apply py_in_In.
      * destruct (fetch_content _ _ _ _ _ _ _ l1) as [[c | e] l2];
          [| discriminate].
        destruct (is_none c) eqn:Hnone.
        -- apply IH in H. destruct H as [Hsub [Hn Hs]].
           repeat split; [| | assumption].
           ++ intros x Hx. apply Hsub. apply in_or_app. now left.
           ++ intros Hh name [-> | Hname]; [| now apply Hn].
              specialize (Hlit name eq_refl). injection Hlit as ->.
              apply Hsub. apply in_or_app. right. now left.
        -- unfold ret in H. injection H as <- <- <-. repeat split.
           ++ intros x Hx. apply in_or_app. now left.
           ++ discriminate.
           ++ intros c' E. now injection E as <-.
    + apply IH in H. destruct H as [Hsub [Hn Hs]].
      repeat split; [assumption | | assumption].
      intros Hh name [-> | Hname]; [| now apply Hn].
      specialize (Hlit name eq_refl). discriminate.
Qed.

Lemma raw_fallback_first_200 : forall bs l,
  raw_fallback http owner repo path bs l
  = fmap as_content (first_200 http owner repo path bs) l.
Proof.
  induction bs as [| b bs IH]; intros l.
  - reflexivity.
  - rewrite raw_step_run. unfold fmap, bind. simpl. unfold raw_hit.
    destruct (http l _) as [rr | e].
    + destruct (Z.eqb (status_code rr) 200); [reflexivity |].
      rewrite IH. reflexivity.
    + rewrite IH. reflexivity.
Qed.

Lemma finish_settled : forall tried c l,
  is_none c = false -> finish_raw (tried, c) l = (Ok (found path c), l).
Proof.
  intros tried c l Hc. unfold finish, bind, ret. rewrite Hc. simpl.
  now rewrite Hc.
Qed.

Lemma finish_answer : forall tried hit l,
  (hit = None -> In (PStr "main") tried) ->
  (forall c, hit = Some c -> is_none c = false) ->
  finish_raw (as_state (tried, hit)) l = answer_raw (tried, hit) l.
Proof.
  intros tried [c |] l Hmain Hsome; unfold as_state, answer; simpl.
  - apply finish_settled. now apply Hsome.
  - specialize (Hmain eq_refl).
    unfold finish, bind. simpl.
    replace (match tried with [] => [PStr "main"] | _ => tried end)
      with tried by (destruct tried; [destruct Hmain | reflexivity]).
    rewrite raw_fallback_first_200. unfold fmap, bind, ret.
    destruct (first_200 _ _ _ _ _ l) as [[[t |] | e] l1]; reflexivity.
Qed.

Lemma literals_then_finish : forall tried l,
  code (tried, PNone) l
  = walk [Literal "main"; Literal "master"] tried l.
Proof.
  intros tried l. unfold rest_code, rest_spec.
  unfold bind. rewrite (try_literals_in_order ["main"; "master"]).
  unfold fmap, bind.
  change (map Literal ["main"; "master"])
    with [Literal "main"; Literal "master"].
  destruct (first_success _ _ _ _ _ _ _ _ tried l) as [[[tried' hit] | e] l1]
    eqn:H; [| reflexivity].
  unfold ret. apply first_success_tried in H. destruct H as [_ [Hn Hs]].
  apply finish_answer; [| assumption].
  intros Hh. apply (Hn Hh). now left.
Qed.

Lemma settled_then_finish : forall tried c l,
  is_none c = false -> code (tried, c) l = (Ok (found path c), l).
Proof.
  intros tried c l Hc. unfold rest_code, bind.
  rewrite try_literals_settled by assumption. now apply finish_settled.
Qed.

Lemma rest_code_after_fetch : forall order tried c l,
  order = [Literal "main"; Literal "master"] ->
  code (tried, c) l
  = if is_none c then walk order tried l else (Ok (found path c), l).
Proof.
  intros order tried c l ->. destruct (is_none c) eqn:Hc.
  - destruct c; try discriminate. apply literals_then_finish.
  - now apply settled_then_finish.
Qed.

Lemma rest_spec_step : forall s order tried l,
  walk (s :: order) tried l
  = match candidate http gh owner repo branch s l with
    | (Ok None, l1) => walk order tried l1
    | (Ok (Some b), l1) =>
        if py_in b tried then walk order tried l1
        else
          match fetch_content http b64decode_utf8 gh owner repo path b l1 with
          | (Ok c, l2) =>
              if is_none c then walk order (tried ++ [b]) l2
              else (Ok (found path c), l2)
          | (Raise e, l2) => (Raise e, l2)
          end
    | (Raise e, l1) => (Raise e, l1)
    end.
Proof.
  intros s order tried l. unfold rest_spec. simpl. unfold bind.
  destruct (candidate _ _ _ _ _ s l) as [[[b |] | e] l1]; try reflexivity.
  destruct (py_in b tried); [reflexivity |].
  destruct (fetch_content _ _ _ _ _ _ _ l1) as [[c | e] l2]; [| reflexivity].
  destruct (is_none c); reflexivity.
Qed.

Lemma default_then_rest : forall tried l,
  (st <- try_default http b64decode_utf8 gh owner repo path (tried, PNone) ;;
   code st) l
  = walk [DefaultBranch; Literal "main"; Literal "master"] tried l.
Proof.
  intros tried l. rewrite rest_spec_step.
  unfold try_default, candidate. simpl is_none. cbv iota.
  unfold bind, lift, ret.
  destruct (get_repo_info http gh owner repo l) as [[info | e] l1];
    [| reflexivity].
  destruct (py_get _ _ _) as [d | e]; [| reflexivity].
  destruct (truthy d); simpl.
  - destruct (py_in d tried); simpl.
    + apply literals_then_finish.
    + destruct (fetch_content _ _ _ _ _ _ _ l1) as [[c | e] l2];
        [| reflexivity].
      now apply rest_code_after_fetch.
  - apply literals_then_finish.
Qed.

Lemma resolve_in_order_walk : forall l,
  resolve_in_order http b64decode_utf8 gh owner repo path branch l
  = walk
      resolution_order [] l.
Proof.
  intros l. unfold rest_spec, resolve_in_order, bind.
  destruct (first_success _ _ _ _ _ _ _ _ _ l) as [[[tried hit] | e] l1];
    reflexivity.
Qed.

Lemma get_file_body_walk : forall l,
  get_file_body http b64decode_utf8 gh owner repo path branch l
  = walk
      resolution_order [] l.
Proof.
  intros l.
  change (get_file_body http b64decode_utf8 gh owner repo path branch l)
    with ((st <- try_hint http b64decode_utf8 gh owner repo path branch ;;
           st <- try_default http b64decode_utf8 gh owner repo path st ;;
           code st) l).
  unfold resolution_order. rewrite rest_spec_step.
  unfold try_hint, candidate.
  destruct branch as [b |].
  - simpl truthy. destruct (String.eqb b ""); simpl negb; cbv iota.
    + rewrite bind_ret_l. unfold ret. apply default_then_rest.
    + rewrite bind_assoc. unfold ret at 2. simpl py_in. cbv iota.
      unfold bind at 1.
      destruct (fetch_content _ _ _ _ _ _ _ l) as [[c | e] l1];
        [| reflexivity].
      rewrite bind_ret_l.
      destruct (is_none c) eqn:Hc.
      * destruct c; try discriminate. apply default_then_rest.
      * unfold try_default. rewrite Hc. rewrite bind_ret_l.
        now apply settled_then_finish.
  - rewrite bind_ret_l. unfold ret. apply default_then_rest.
Qed.


End Refinement.

(** ** Reading the log of a run *)

Lemma structured_refs_app : forall a b,
  structured_refs (a ++ b) = structured_refs a ++ structured_refs b.
Proof.
  induction a as [| q a IH]; intros b; simpl; [reflexivity |].
  destruct q as [tok [| | | | | o r p [ref |] | |] |]; simpl; now rewrite ?IH.
Qed.

Lemma raw_refs_app : forall a b, raw_refs (a ++ b) = raw_refs a ++ raw_refs b.
Proof.
  induction a as [| q a IH]; intros b; simpl; [reflexivity |].
  destruct q; simpl; now rewrite ?IH.
Qed.

Lemma structured_refs_raw : forall owner repo path bs,
  structured_refs (map (raw_request owner repo path) bs) = [].
Proof. induction bs; simpl; auto. Qed.

Lemma raw_refs_raw : forall owner repo path bs,
  raw_refs (map (raw_request owner repo path) bs) = bs.
Proof. induction bs; simpl; congruence. Qed.

Lemma filter_py_eqb_absent : forall b l,
  ~ In b l -> filter (py_eqb b) l = [].
Proof.
  induction l as [| x l IH]; intros H; simpl; [reflexivity |].
  destruct (py_eqb b x) eqn:E.
  - apply py_eqb_eq in E. subst. exfalso. apply H. now left.
  - apply IH. intros Hin. apply H. now right.
Qed.

Lemma nodup_attempts_le_1 : forall b l,
  NoDup l -> List.length (filter (py_eqb b) l) <= 1.
Proof.
  induction l as [| x l IH]; intros H; simpl; [lia |].
  inversion H as [| ? ? Hx Hl]; subst.
  destruct (py_eqb b x) eqn:E.
  - apply py_eqb_eq in E. subst. rewrite filter_py_eqb_absent by assumption.
    simpl. lia.
  - now apply IH.
Qed.

Lemma nodup_attempts_1 : forall b l,
  NoDup l -> In b l -> List.length (filter (py_eqb b) l) = 1.
Proof.
  induction l as [| x l IH]; intros H Hin; simpl; [destruct Hin |].
  inversion H as [| ? ? Hx Hl]; subst.
  destruct (py_eqb b x) eqn:E.
  - apply py_eqb_eq in E. subst. rewrite filter_py_eqb_absent by assumption.
    reflexivity.
  - destruct Hin as [-> | Hin]; [| now apply IH].
    rewrite py_eqb_refl in E. discriminate.
Qed.

Section Traces.
Variable http : remote.
Variable b64decode_utf8 : string -> option string.
Variable gh : GitHubAPI.
Variables owner repo path : string.
Variable branch : option string.

Lemma candidate_default_run : forall l,
  candidate http gh owner repo branch DefaultBranch l
  = (match default_branch_of (http l (repo_request gh owner repo)) with
     | Ok d => Ok (if truthy d then Some d else None)
     | Raise e => Raise e
     end, l ++ [repo_request gh owner repo]).
Proof.
  intros l. unfold candidate. rewrite default_branch_run.
  destruct (default_branch_of _); reflexivity.
Qed.

Lemma candidate_trace : forall s l,
  (forall name, s = Literal name -> name <> "") ->
  exists ev,
    snd (candidate http gh owner repo branch s l) = l ++ ev
    /\ structured_refs ev = [] /\ raw_refs ev = []
    /\ forall b, fst (candidate http gh owner repo branch s l) = Ok (Some b) ->
                 truthy b = true.
Proof.
  intros s l Hs. destruct s as [| | name].
  - exists []. simpl. rewrite app_nil_r. repeat split.
    intros b. destruct branch as [h |]; [| discriminate].
    destruct (String.eqb h "") eqn:E; [discriminate |].
    intros H. injection H as <-. simpl. now rewrite E.
  - exists [repo_request gh owner repo]. rewrite candidate_default_run.
    simpl. repeat split.
    intros b. destruct (default_branch_of _) as [d | e]; [| discriminate].
    destruct (truthy d) eqn:E; [| discriminate].
    intros H. now injection H as <-.
  - exists []. simpl. rewrite app_nil_r. repeat split.
    intros b H. injection H as <-. simpl.
    specialize (Hs name eq_refl). apply String.eqb_neq in Hs. now rewrite Hs.
Qed.

Lemma first_success_trace : forall order tried l,
  literals_named order -> NoDup tried ->
  exists ev,
    snd (first_success http b64decode_utf8 gh owner repo path branch
           order tried l) = l ++ ev
    /\ raw_refs ev = []
    /\ NoDup (tried ++ structured_refs ev)
    /\ forall tried' hit,
         fst (first_success http b64decode_utf8 gh owner repo path branch
                order tried l) = Ok (tried', hit) ->
         tried' = tried ++ structured_refs ev.
Proof.
  induction order as [| s order IH]; intros tried l Hlit Hnd.
  - exists []. simpl. rewrite !app_nil_r. repeat split; [assumption |].
    intros tried' hit H. now injection H as <- _.
  - assert (Hlit' : literals_named order).
    { intros name Hn. apply Hlit. now right. }
    destruct (candidate_trace s l) as [ev0 [Hl0 [Hs0 [Hr0 Ht0]]]].
    { intros name ->. apply Hlit. now left. }
    simpl. unfold bind.
    destruct (candidate _ _ _ _ _ s l) as [[cand | e] l1]; simpl in Hl0.
    2:{ exists ev0. subst l1. simpl. rewrite Hs0, app_nil_r.
        repeat split; try assumption. discriminate. }
    assert (Hskip :
      exists ev,
        snd (first_success http b64decode_utf8 gh owner repo path branch
               order tried l1) = l ++ ev
        /\ raw_refs ev = []
        /\ NoDup (tried ++ structured_refs ev)
        /\ forall tried' hit,
             fst (first_success http b64decode_utf8 gh owner repo path branch
                    order tried l1) = Ok (tried', hit) ->
             tried' = tried ++ structured_refs ev).
    { destruct (IH tried l1 Hlit' Hnd) as [ev [Hl [Hr [Hn Ht]]]].
      exists (ev0 ++ ev). subst l1. rewrite app_assoc.
      rewrite raw_refs_app, structured_refs_app, Hs0, Hr0, Hr. simpl.
      repeat split; assumption. }
    destruct cand as [b |]; [| exact Hskip].
    destruct (py_in b tried) eqn:Hin; [exact Hskip |].
    clear Hskip. rewrite fetch_content_run by (now apply Ht0).
    set (q := fetch_request gh owner repo path b).
    assert (Hnd1 : NoDup (tried ++ [b])).
    { apply NoDup_app; [assumption | repeat constructor; intros [] |].
      intros x Hx [<- | []]. now apply (py_in_false _ _ Hin). }
    destruct (content_of _ _) as [c | e].
    + destruct (is_none c).
      * destruct (IH (tried ++ [b]) (l1 ++ [q]) Hlit' Hnd1)
          as [ev [Hl [Hr [Hn Ht]]]].
        exists (ev0 ++ q :: ev). subst l1.
        rewrite raw_refs_app, structured_refs_app, Hs0, Hr0. simpl.
        repeat split; try assumption.
        -- rewrite Hl. now rewrite <- !app_assoc.
        -- rewrite <- app_assoc in Hn. exact Hn.
        -- intros tried' hit H. apply Ht in H. subst tried'.
           now rewrite <- app_assoc.
      * exists (ev0 ++ [q]). subst l1.
        rewrite raw_refs_app, structured_refs_app, Hs0, Hr0. simpl.
        repeat split; try assumption; [now rewrite app_assoc |].
        intros tried' hit H. now injection H as <- _.
    + exists (ev0 ++ [q]). subst l1.
      rewrite raw_refs_app, structured_refs_app, Hs0, Hr0. simpl.
      repeat split; try assumption; [now rewrite app_assoc | discriminate].
Qed.

Lemma first_200_trace : forall names l,
  exists k r,
    first_200 http owner repo path names l
    = (Ok r, l ++ map (raw_request owner repo path) (firstn k names))
    /\ (r = None -> firstn k names = names)
    /\ (forall t, r = Some t ->
          exists pre b rr,
            firstn k names = pre ++ [b]
            /\ http (l ++ map (raw_request owner repo path) pre)
                 (GetRaw owner repo b path) = Ok rr
            /\ status_code rr = 200%Z /\ t = text rr).
Proof.
  induction names as [| b names IH]; intros l.
  - exists 0, None. simpl. unfold ret. rewrite app_nil_r.
    repeat split; discriminate.
  - simpl.
    assert (Hnext :
      exists k r,
        first_200 http owner repo path names (l ++ [GetRaw owner repo b path])
        = (Ok r, l ++ map (raw_request owner repo path) (firstn k (b :: names)))
        /\ (r = None -> firstn k (b :: names) = b :: names)
        /\ (forall t, r = Some t ->
              exists pre b' rr,
                firstn k (b :: names) = pre ++ [b']
                /\ http (l ++ map (raw_request owner repo path) pre)
                     (GetRaw owner repo b' path) = Ok rr
                /\ status_code rr = 200%Z /\ t = text rr)).
    { destruct (IH (l ++ [GetRaw owner repo b path])) as [k [r [Hrun [Hn Hs]]]].
      exists (S k), r. simpl. rewrite Hrun, <- app_assoc. simpl.
      repeat split.
      - intros Hr. now rewrite (Hn Hr).
      - intros t Ht. destruct (Hs t Ht) as [pre [b' [rr [E [Hq [H200 Htx]]]]]].
        exists (b :: pre), b', rr. rewrite E. simpl.
        rewrite <- app_assoc in Hq. simpl in Hq. repeat split; assumption. }
    destruct (http l (GetRaw owner repo b path)) as [rr | e] eqn:Hq;
      [| exact Hnext].
    destruct (Z.eqb (status_code rr) 200) eqn:H200; [| exact Hnext].
    exists 1, (Some (text rr)). simpl. repeat split; [discriminate |].
    intros t Ht. injection Ht as <-. exists [], b, rr. simpl.
    rewrite app_nil_r. apply Z.eqb_eq in H200. repeat split; assumption.
Qed.

Lemma first_200_all_fail : forall names l,
  every_raw_fails http owner repo path ->
  first_200 http owner repo path names l
  = (Ok None, l ++ map (raw_request owner repo path) names).
Proof.
  intros names l Hraw. revert l.
  induction names as [| b names IH]; intros l; simpl.
  - unfold ret. now rewrite app_nil_r.
  - specialize (Hraw l b). unfold raw_hit in Hraw.
    destruct (http l (GetRaw owner repo b path)) as [rr | e].
    + destruct (Z.eqb (status_code rr) 200); [discriminate |].
      rewrite IH, <- app_assoc. reflexivity.
    + rewrite IH, <- app_assoc. reflexivity.
Qed.

Lemma first_200_served : forall b names l,
  raw_serves http owner repo path b -> In b names ->
  exists t, fst (first_200 http owner repo path names l) = Ok (Some t).
Proof.
  intros b names l Hraw. revert l.
  induction names as [| b' names IH]; intros l Hin; [destruct Hin |].
  simpl.
  destruct (http l (GetRaw owner repo b' path)) as [rr | e] eqn:Hq.
  - destruct (Z.eqb (status_code rr) 200) eqn:H200; [now eexists |].
    destruct Hin as [-> | Hin]; [| now apply IH].
    destruct (Hraw l) as [t Ht]. unfold raw_hit in Ht.
    rewrite Hq, H200 in Ht. discriminate.
  - destruct Hin as [-> | Hin]; [| now apply IH].
    destruct (Hraw l) as [t Ht]. unfold raw_hit in Ht.
    rewrite Hq in Ht. discriminate.
Qed.

Lemma first_success_all_fail : forall order tried l,
  every_fetch_fails http b64decode_utf8 gh owner repo path ->
  metadata_answers http gh owner repo ->
  literals_named order ->
  exists tried',
    fst (first_success http b64decode_utf8 gh owner repo path branch
           order tried l) = Ok (tried', None).
Proof.
  intros order tried l Hfail Hmeta. revert tried l.
  induction order as [| s order IH]; intros tried l Hlit.
  - now exists tried.
  - assert (Hlit' : literals_named order).
    { intros name Hn. apply Hlit. now right. }
    destruct (candidate_trace s l) as [ev0 [_ [_ [_ Ht0]]]].
    { intros name ->. apply Hlit. now left. }
    assert (Hc : exists cand,
               fst (candidate http gh owner repo branch s l) = Ok cand).
    { destruct s; try (now eexists).
      rewrite candidate_default_run. destruct (Hmeta l) as [d ->].
      now eexists. }
    destruct Hc as [cand Hc]. simpl. unfold bind.
    destruct (candidate _ _ _ _ _ s l) as [o l1]. simpl in Hc, Ht0. subst o.
    destruct cand as [b |]; [| now apply IH].
    destruct (py_in b tried); [now apply IH |].
    rewrite fetch_content_run by (now apply Ht0).
    rewrite Hfail. simpl. now apply IH.
Qed.

Lemma literals_named_resolution_order : literals_named resolution_order.
Proof.
  intros name [H | [H | [H | [H | []]]]]; try discriminate;
    injection H as <-; discriminate.
Qed.

End Traces.

(** ** The resolution of a file *)

Lemma NoDup_firstn_of : forall (A : Type) k (l : list A),
  NoDup l -> NoDup (firstn k l).
Proof.
  intros A k l H. rewrite <- (firstn_skipn k l) in H.
  now apply NoDup_app_remove_r in H.
Qed.

Lemma In_firstn_of : forall (A : Type) k (l : list A) x,
  In x (firstn k l) -> In x l.
Proof.
  intros A k l x H. rewrite <- (firstn_skipn k l). apply in_or_app. now left.
Qed.

Section Resolution.
Variable http : remote.
Variable b64decode_utf8 : string -> option string.
Variable gh : GitHubAPI.
Variables owner repo path : string.
Variable branch : option string.

(** The walk, then the raw retrievals of a prefix of the names tried. *)
Lemma get_file_body_trace : forall l,
  exists ev k,
    snd (get_file_body http b64decode_utf8 gh owner repo path branch l)
    = l ++ ev ++ map (raw_request owner repo path)
                     (firstn k (structured_refs ev))
    /\ raw_refs ev = []
    /\ NoDup (structured_refs ev)
    /\ snd (first_success http b64decode_utf8 gh owner repo path branch
              resolution_order [] l) = l ++ ev.
Proof.
  intros l. rewrite get_file_body_walk. unfold rest_spec, bind.
  destruct (first_success_trace http b64decode_utf8 gh owner repo path branch
              resolution_order [] l
              (literals_named_resolution_order) (NoDup_nil _))
    as [ev [Hl [Hr [Hn Ht]]]].
  simpl in Hn.
  destruct (first_success _ _ _ _ _ _ _ _ _ l) as [[[tried hit] | e] l1].
  - simpl in Hl. subst l1. specialize (Ht tried hit eq_refl). simpl in Ht.
    subst tried. unfold answer. simpl. destruct hit as [c |].
    + exists ev, 0. simpl. now rewrite app_nil_r.
    + unfold bind.
      destruct (first_200_trace http owner repo path (structured_refs ev)
                  (l ++ ev)) as [k [r [Hrun _]]].
      rewrite Hrun. exists ev, k.
      destruct r; simpl; rewrite <- app_assoc; auto.
  - simpl in Hl. subst l1. exists ev, 0. simpl. now rewrite app_nil_r.
Qed.

Lemma hint_fetched_first : forall b order l,
  branch = Some b -> b <> "" -> literals_named order ->
  exists ev,
    snd (first_success http b64decode_utf8 gh owner repo path branch
           (Hint :: order) [] l)
    = l ++ fetch_request gh owner repo path (PStr b) :: ev.
Proof.
  intros b order l Hb Hne Hlit. simpl. rewrite Hb.
  apply String.eqb_neq in Hne. rewrite Hne. rewrite bind_ret_l. simpl py_in.
  cbv iota. unfold bind.
  rewrite fetch_content_run by (simpl; now rewrite Hne).
  set (q := fetch_request gh owner repo path (PStr b)).
  destruct (content_of _ _) as [c | e]; [| now exists []].
  destruct (is_none c); [| now exists []].
  destruct (first_success_trace http b64decode_utf8 gh owner repo path branch
              order [PStr b] (l ++ [q]) Hlit)
    as [ev [Hl _]].
  { repeat constructor. intros []. }
  exists ev. rewrite <- Hb, Hl, <- app_assoc. reflexivity.
Qed.

(** C4. In every run of the [try] block of [api_get_file], whatever the
    remote side answers and also when a request raises: no branch is fetched
    twice through the API, none is retrieved twice from the raw host, and a
    hint, when one is given, is fetched through the API exactly once,
    whichever default branch the metadata names, hence also when it names
    the hint. *)
Theorem attempted_branches_once : forall l,
  exists ev,
    snd (get_file_body http b64decode_utf8 gh owner repo path branch l)
    = l ++ ev
    /\ NoDup (structured_refs ev)
    /\ NoDup (raw_refs ev)
    /\ (forall b, attempts_of b ev <= 1)
    /\ (forall b, branch = Some b -> b <> "" ->
                  attempts_of (PStr b) ev = 1).
Proof.
  intros l. destruct (get_file_body_trace l) as [ev [k [Hl [Hr [Hn Hw]]]]].
  exists (ev ++ map (raw_request owner repo path)
                    (firstn k (structured_refs ev))).
  assert (Hs : structured_refs
                 (ev ++ map (raw_request owner repo path)
                            (firstn k (structured_refs ev)))
               = structured_refs ev).
  { now rewrite structured_refs_app, structured_refs_raw, app_nil_r. }
  unfold attempts_of. rewrite Hs, raw_refs_app, raw_refs_raw, Hr, app_nil_l.
  repeat split; try assumption.
  - now apply NoDup_firstn_of.
  - intros b. now apply nodup_attempts_le_1.
  - intros b Hb Hne. apply nodup_attempts_1; [assumption |].
    destruct (hint_fetched_first b
                [DefaultBranch; Literal "main"; Literal "master"] l Hb Hne)
      as [ev' Hev'].
    { intros name Hin. apply literals_named_resolution_order. now right. }
    unfold resolution_order in Hw. rewrite Hw in Hev'.
    apply app_inv_head in Hev'. subst ev. now left.
Qed.


End Resolution.

Section MasterOnly.
Variable http : remote.
Variable b64decode_utf8 : string -> option string.
Variable gh : GitHubAPI.
Variables owner repo path : string.

(** C5. No hint is given, the metadata names [main] as the default branch
    and the file is on [master] only.  Then the run is the metadata request,
    one fetch on [main] and one fetch on [master], in that order, and it
    answers 200 with the content the fetch on [master] yielded: [master] is
    attempted exactly once. *)
Theorem master_only_is_found : forall l,
  default_branch_is http gh owner repo "main" ->
  file_only_on http b64decode_utf8 gh owner repo path "master" ->
  exists c,
    get_file_body http b64decode_utf8 gh owner repo path None l
    = (Ok (jsonify (_json_ok [("path", PStr path); ("content", c)]) 200),
       l ++ [repo_request gh owner repo;
             fetch_request gh owner repo path (PStr "main");
             fetch_request gh owner repo path (PStr "master")])
    /\ c <> PNone
    /\ attempts_of (PStr "master")
         [repo_request gh owner repo;
          fetch_request gh owner repo path (PStr "main");
          fetch_request gh owner repo path (PStr "master")] = 1.
Proof.
  intros l Hdefault [Hmaster Hother].
  rewrite get_file_body_walk. unfold resolution_order.
  rewrite rest_spec_step. simpl candidate. unfold ret.
  rewrite rest_spec_step, candidate_default_run, Hdefault. simpl.
  rewrite fetch_content_run by reflexivity.
  rewrite Hother by discriminate. simpl.
  rewrite rest_spec_step. simpl. unfold ret.
  rewrite rest_spec_step. simpl. unfold ret.
  rewrite fetch_content_run by reflexivity.
  destruct (Hmaster ((l ++ [repo_request gh owner repo]) ++
                     [fetch_request gh owner repo path (PStr "main")]))
    as [c [Hc Hne]].
  rewrite Hc. exists c.
  destruct c; try (now contradiction Hne); simpl; rewrite <- !app_assoc;
    repeat split; discriminate.
Qed.
End MasterOnly.

(** The scenario of C5 on a remote side whose default branch is [main] and
    that has the file on [master] only. *)
Lemma master_only_is_found_witness :
  default_branch_is remote_master_only acme "acme" "widgets" "main"
  /\ file_only_on remote_master_only decode_hello acme "acme" "widgets"
       "README.md" "master"
  /\ exists c,
       get_file_body remote_master_only decode_hello acme "acme" "widgets"
         "README.md" None []
       = (Ok (jsonify (_json_ok [("path", PStr "README.md"); ("content", c)])
                200),
          [] ++ [repo_request acme "acme" "widgets";
                 fetch_request acme "acme" "widgets" "README.md" (PStr "main");
                 fetch_request acme "acme" "widgets" "README.md" (PStr "master")])
       /\ c <> PNone
       /\ attempts_of (PStr "master")
            [repo_request acme "acme" "widgets";
             fetch_request acme "acme" "widgets" "README.md" (PStr "main");
             fetch_request acme "acme" "widgets" "README.md" (PStr "master")]
          = 1.
Proof.
  assert (H1 : default_branch_is remote_master_only acme "acme" "widgets"
                 "main").
  { intros l. reflexivity. }
  assert (H2 : file_only_on remote_master_only decode_hello acme "acme"
                 "widgets" "README.md" "master").
  { split.
    - intros l. exists (PStr "hello"). split; [reflexivity | discriminate].
    - intros l b' Hb'. unfold fetch_request, remote_master_only.
      destruct (py_eqb b' (PStr "master")) eqn:E; [| reflexivity].
      apply py_eqb_eq in E. now contradiction Hb'. }
  split; [exact H1 |]. split; [exact H2 |].
  exact (master_only_is_found remote_master_only decode_hello acme
           "acme" "widgets" "README.md" [] H1 H2).
Defined.


(** What that run sends and answers. *)
Example nothing_found_run :
  get_file_body remote_nothing decode_hello acme "acme" "widgets" "README.md"
    (Some "dev") []
  = (Ok (not_found [PStr "dev"; PStr "main"; PStr "master"]),
     [fetch_request acme "acme" "widgets" "README.md" (PStr "dev");
      repo_request acme "acme" "widgets";
      fetch_request acme "acme" "widgets" "README.md" (PStr "main");
      fetch_request acme "acme" "widgets" "README.md" (PStr "master");
      GetRaw "acme" "widgets" (PStr "dev") "README.md";
      GetRaw "acme" "widgets" (PStr "main") "README.md";
      GetRaw "acme" "widgets" (PStr "master") "README.md"]).
Proof. reflexivity. Qed.


(** What that run sends and answers. *)
Example raw_master_run :
  get_file_body remote_raw_master decode_hello acme "acme" "widgets" "README.md"
    None []
  = (Ok (found "README.md" (PStr "hello")),
     [repo_request acme "acme" "widgets";
      fetch_request acme "acme" "widgets" "README.md" (PStr "main");
      fetch_request acme "acme" "widgets" "README.md" (PStr "master");
      GetRaw "acme" "widgets" (PStr "main") "README.md";
      GetRaw "acme" "widgets" (PStr "master") "README.md"]).
Proof. reflexivity. Qed.

(** The hint names the default branch: it is fetched once. *)
Example hint_is_default_run :
  snd (get_file_body remote_master_only decode_hello acme "acme" "widgets"
         "README.md" (Some "main") [])
  = [fetch_request acme "acme" "widgets" "README.md" (PStr "main");
     repo_request acme "acme" "widgets";
     fetch_request acme "acme" "widgets" "README.md" (PStr "master")].
Proof. reflexivity. Qed.

(** C4 where the hint names the default branch. *)
Lemma attempted_branches_once_witness :
  default_branch_is remote_master_only acme "acme" "widgets" "main"
  /\ exists ev,
       snd (get_file_body remote_master_only decode_hello acme "acme" "widgets"
              "README.md" (Some "main") []) = [] ++ ev
       /\ NoDup (structured_refs ev)
       /\ attempts_of (PStr "main") ev = 1.
Proof.
  split; [intros l; reflexivity |].
  destruct (attempted_branches_once remote_master_only decode_hello acme
              "acme" "widgets" "README.md" (Some "main") [])
    as [ev [Hl [Hn [_ [_ Hhint]]]]].
  exists ev. split; [exact Hl |]. split; [exact Hn |].
  apply Hhint; [reflexivity | discriminate].
Defined.

(** ** A 200 without content *)

Lemma no_usable_content_none : forall b64decode_utf8 r,
  no_usable_content r -> get_file_text_of b64decode_utf8 r = Ok PNone.
Proof.
  intros b64 r [H200 [data [Hj Hc]]].
  unfold get_file_text_of, r_json. rewrite H200, Hj. simpl.
  unfold dict_get, dict_get_default.
  destruct Hc as [-> | ->]; simpl; now rewrite andb_false_r.
Qed.

Lemma error_answer_fails : forall b64decode_utf8 r,
  error_answer r -> content_of b64decode_utf8 (Ok r) = Ok PNone.
Proof.
  intros b64 r [Hst [data [Hj Hm]]].
  unfold content_of, get_file_text_of, r_json.
  apply Z.eqb_neq in Hst. rewrite Hst, Hj. simpl.
  unfold dict_get, dict_get_default. simpl.
  unfold dict_get_default in Hm. now rewrite Hm.
Qed.

Lemma failed_answer_fails : forall b64decode_utf8 r,
  failed_answer r -> content_of b64decode_utf8 (Ok r) = Ok PNone.
Proof.
  intros b64 r [H | [[Hst Hj] | H]].
  - now apply error_answer_fails.
  - unfold content_of, get_file_text_of, r_json.
    apply Z.eqb_neq in Hst. rewrite Hst.
    destruct (json r) as [[| | | | | data] |]; try reflexivity.
    now contradiction (Hj data).
  - unfold content_of. now rewrite (no_usable_content_none _ _ H).
Qed.

Lemma failed_answers_every_fetch_fails :
  forall http b64decode_utf8 gh owner repo path,
    (forall l b, exists r,
        http l (fetch_request gh owner repo path b) = Ok r
        /\ failed_answer r) ->
    every_fetch_fails http b64decode_utf8 gh owner repo path.
Proof.
  intros http b64 gh owner repo path H l b.
  destruct (H l b) as [r [-> Hr]]. now apply failed_answer_fails.
Qed.

Section SameAnswers.
Variables http1 http2 : remote.
Variable b64decode_utf8 : string -> option string.
Variable gh : GitHubAPI.
Variables owner repo path : string.
Variable branch : option string.
Hypothesis Hsame : same_but_empty_for_error http1 http2.

Lemma same_fetch_content : forall b l,
  fetch_content http1 b64decode_utf8 gh owner repo path b l
  = fetch_content http2 b64decode_utf8 gh owner repo path b l.
Proof.
  intros b l. unfold fetch_content, get_file_text, bind, send, lift, ret.
  destruct (Hsame l (Api (token gh)
                       (GetContents owner repo path
                          (if truthy b then Some b else None))))
    as [-> | [tok [o [r [p [ref [r1 [r2 [_ [-> [H1 [-> H2]]]]]]]]]]]].
  - reflexivity.
  - rewrite (no_usable_content_none _ _ H1).
    pose proof (error_answer_fails b64decode_utf8 _ H2) as E.
    unfold content_of in E.
    destruct (get_file_text_of b64decode_utf8 r2) as [c | e];
      [| discriminate].
    injection E as E. simpl. now rewrite E.
Qed.

Lemma same_answer_elsewhere : forall l q,
  (forall tok o r p ref, q <> Api tok (GetContents o r p ref)) ->
  http1 l q = http2 l q.
Proof.
  intros l q Hq.
  destruct (Hsame l q) as [E | [tok [o [r [p [ref [r1 [r2 [E _]]]]]]]]].
  - exact E.
  - now contradiction (Hq tok o r p ref).
Qed.

Lemma same_candidate : forall s l,
  candidate http1 gh owner repo branch s l
  = candidate http2 gh owner repo branch s l.
Proof.
  intros [| | name] l; try reflexivity.
  unfold candidate, get_repo_info, bind, send.
  rewrite same_answer_elsewhere by (intros; discriminate). reflexivity.
Qed.

Lemma same_first_success : forall order tried l,
  first_success http1 b64decode_utf8 gh owner repo path branch order tried l
  = first_success http2 b64decode_utf8 gh owner repo path branch order tried l.
Proof.
  induction order as [| s order IH]; intros tried l; [reflexivity |].
  simpl. unfold bind. rewrite same_candidate.
  destruct (candidate http2 _ _ _ _ s l) as [[[b |] | e] l1];
    try reflexivity; [| apply IH].
  destruct (py_in b tried); [apply IH |].
  rewrite same_fetch_content.
  destruct (fetch_content http2 _ _ _ _ _ _ l1) as [[c | e] l2];
    [| reflexivity].
  destruct (is_none c); [apply IH | reflexivity].
Qed.

Lemma same_first_200 : forall names l,
  first_200 http1 owner repo path names l
  = first_200 http2 owner repo path names l.
Proof.
  induction names as [| b names IH]; intros l; [reflexivity |].
  simpl. rewrite same_answer_elsewhere by (intros; discriminate).
  destruct (http2 l _) as [rr | e]; [| apply IH].
  destruct (Z.eqb (status_code rr) 200); [reflexivity | apply IH].
Qed.

End SameAnswers.


(** What the first of the two sends and answers. *)
Example empty_bodies_run :
  get_file_body remote_empty_bodies decode_hello acme "acme" "widgets"
    "README.md" (Some "dev") []
  = (Ok (not_found [PStr "dev"; PStr "main"; PStr "master"]),
     [fetch_request acme "acme" "widgets" "README.md" (PStr "dev");
      repo_request acme "acme" "widgets";
      fetch_request acme "acme" "widgets" "README.md" (PStr "main");
      fetch_request acme "acme" "widgets" "README.md" (PStr "master");
      GetRaw "acme" "widgets" (PStr "dev") "README.md";
      GetRaw "acme" "widgets" (PStr "main") "README.md";
      GetRaw "acme" "widgets" (PStr "master") "README.md"]).
Proof. reflexivity. Qed.

(** ** Uploads *)

Section Uploads.
Variable http : remote.
Variable b64encode : string -> string.
Variable gh : GitHubAPI.
Variables owner repo : string.

Lemma lookup_sha_run : forall path l,
  try_except
    (r_get <- send http (lookup_of gh owner repo path) ;;
     if Z.eqb (status_code r_get) 200 then
       data <- lift (r_json r_get) ;;
       lift (py_get data "sha" PNone)
     else ret PNone)
    (fun _ => ret PNone) l
  = (Ok (sha_value (http l (lookup_of gh owner repo path))),
     l ++ [lookup_of gh owner repo path]).
Proof.
  intros path l. unfold try_except, bind, send, lift, ret, sha_value, r_json.
  destruct (http l _) as [r | e]; [| reflexivity].
  destruct (Z.eqb (status_code r) 200); [| reflexivity].
  destruct (json r) as [[| | | | | d] |]; reflexivity.
Qed.

Lemma put_tail_run : forall r l,
  (if Z.eqb (status_code r) 200 || Z.eqb (status_code r) 201 then
     lift (r_json r)
   else
     try_except
       (data <- lift (r_json r) ;;
        msg <- lift (py_get data "message" (PStr (text r))) ;;
        ret (PDict [("error", msg)]))
       (fun _ => ret (PDict [("error", PStr (text r))]))) l
  = (put_value (Ok r), l).
Proof.
  intros r l. unfold put_value, try_except, bind, lift, ret, r_json.
  destruct (_ || _); [reflexivity |].
  destruct (json r) as [[| | | | | d] |]; reflexivity.
Qed.

Lemma upload_file_run : forall path content message l,
  upload_file http b64encode gh owner repo path content message l
  = (put_value
       (http (l ++ [lookup_of gh owner repo path])
          (write_of b64encode gh owner repo path content message
             (sha_of (http l (lookup_of gh owner repo path))))),
     l ++ [lookup_of gh owner repo path;
           write_of b64encode gh owner repo path content message
             (sha_of (http l (lookup_of gh owner repo path)))]).
Proof.
  intros path content message l. unfold upload_file.
  unfold bind at 1. fold (lookup_of gh owner repo path).
  rewrite lookup_sha_run. unfold bind, send.
  fold (sha_of (http l (lookup_of gh owner repo path))).
  fold (write_of b64encode gh owner repo path content message
          (sha_of (http l (lookup_of gh owner repo path)))).
  rewrite <- app_assoc. simpl app.
  destruct (http _ (write_of _ _ _ _ _ _ _ _)) as [r | e]; [| reflexivity].
  apply put_tail_run.
Qed.

Lemma upload_file_lookup : forall path content message l,
  exists sha,
    snd (upload_file http b64encode gh owner repo path content message l)
    = l ++ [lookup_of gh owner repo path;
            write_of b64encode gh owner repo path content message sha]
    /\ (forall r, http l (lookup_of gh owner repo path) = Ok r ->
                  status_code r <> 200%Z -> sha = None)
    /\ (forall e, http l (lookup_of gh owner repo path) = Raise e ->
                  sha = None)
    /\ (forall r data,
          http l (lookup_of gh owner repo path) = Ok r ->
          status_code r = 200%Z ->
          json r = Some (PDict data) ->
          truthy (dict_get "sha" data) = true ->
          sha = Some (dict_get "sha" data)).
Proof.
  intros path content message l. rewrite upload_file_run.
  exists (sha_of (http l (lookup_of gh owner repo path))).
  split; [reflexivity |]. unfold sha_of, sha_value. repeat split.
  - intros r -> Hst. apply Z.eqb_neq in Hst. now rewrite Hst.
  - intros e ->. reflexivity.
  - intros r data -> Hst Hj Ht. rewrite Hst, Hj. simpl. now rewrite Ht.
Qed.
Lemma delete_file_run : forall path message l,
  exists ev,
    snd (delete_file http gh owner repo path message l)
    = l ++ lookup_of gh owner repo path :: ev
    /\ (ev = []
        \/ exists r data,
             http l (lookup_of gh owner repo path) = Ok r
             /\ status_code r = 200%Z
             /\ json r = Some (PDict data)
             /\ ev = [Api (token gh)
                        (DeleteContents owner repo path message
                           (dict_get "sha" data))]).
Proof.
  intros path message l. unfold delete_file, bind, send, lift, r_json.
  fold (lookup_of gh owner repo path).
  destruct (http l (lookup_of gh owner repo path)) as [r | e] eqn:Hq;
    [| exists []; auto].
  destruct (Z.eqb (status_code r) 200) eqn:Hst; simpl; [| exists []; auto].
  apply Z.eqb_eq in Hst.
  destruct (json r) as [[| | | | | data] |] eqn:Hj; simpl;
    try (exists []; now auto).
  eexists. split.
  2:{ right. exists r, data. split; [reflexivity |].
      split; [assumption |]. split; [assumption | reflexivity]. }
  unfold dict_get.
  destruct (http _ (Api _ (DeleteContents _ _ _ _ _))) as [r2 | e2];
    [| now rewrite <- app_assoc].
  unfold try_except, bind, ret.
  destruct (_ || _); destruct (json r2) as [[| | | | | d2] |];
    simpl; now rewrite <- app_assoc.
Qed.

(** C9. The two operations that send a revision hash look it up first.
    [upload_file] sends the lookup and then the write, nothing else; the
    write carries no hash when the lookup was answered with anything but a
    200 (a 404 for a file that does not exist) or raised, so the file is
    created, and it carries the hash of a 200 that has one.  [delete_file]
    sends the lookup first too, and a deletion only after a 200, with the
    hash that lookup gave. *)
Theorem hash_is_looked_up_first : forall path content message l,
  (exists sha,
      snd (upload_file http b64encode gh owner repo path content message l)
      = l ++ [lookup_of gh owner repo path;
              write_of b64encode gh owner repo path content message sha]
      /\ (forall r, http l (lookup_of gh owner repo path) = Ok r ->
                    status_code r <> 200%Z -> sha = None)
      /\ (forall e, http l (lookup_of gh owner repo path) = Raise e ->
                    sha = None)
      /\ (forall r data,
            http l (lookup_of gh owner repo path) = Ok r ->
            status_code r = 200%Z ->
            json r = Some (PDict data) ->
            truthy (dict_get "sha" data) = true ->
            sha = Some (dict_get "sha" data)))
  /\ (exists ev,
        snd (delete_file http gh owner repo path message l)
        = l ++ lookup_of gh owner repo path :: ev
        /\ (ev = []
            \/ exists r data,
                 http l (lookup_of gh owner repo path) = Ok r
                 /\ status_code r = 200%Z
                 /\ json r = Some (PDict data)
                 /\ ev = [Api (token gh)
                            (DeleteContents owner repo path message
                               (dict_get "sha" data))])).
Proof.
  intros path content message l. split.
  - apply upload_file_lookup.
  - apply delete_file_run.
Qed.

End Uploads.

(** C9 on a file that does not exist yet: the write carries no hash. *)
Lemma hash_is_looked_up_first_witness :
  remote_nothing [] (lookup_of acme "acme" "widgets" "a.txt")
  = Ok not_found_answer
  /\ status_code not_found_answer <> 200%Z
  /\ snd (upload_file remote_nothing plain acme "acme" "widgets" "a.txt" "A"
            "Add a.txt" [])
     = [] ++ [lookup_of acme "acme" "widgets" "a.txt";
              write_of plain acme "acme" "widgets" "a.txt" "A" "Add a.txt" None].
Proof.
  split; [reflexivity |]. split; [discriminate |].
  destruct (proj1 (hash_is_looked_up_first remote_nothing plain acme "acme"
                     "widgets" "a.txt" "A" "Add a.txt" []))
    as [sha [Hl [Hnone _]]].
  rewrite Hl. rewrite (Hnone not_found_answer eq_refl); [reflexivity |].
  discriminate.
Defined.

Lemma writes_app : forall a b, writes (a ++ b) = writes a ++ writes b.
Proof.
  induction a as [| q a IH]; intros b; simpl; [reflexivity |].
  destruct q as [tok [| | | | | | |] |]; simpl; now rewrite ?IH.
Qed.

Section BulkUpload.
Variable http : remote.
Variable b64encode : string -> string.
Variable gh : GitHubAPI.
Variables owner repo : string.

Lemma uploaded_extend : forall final suf item res,
  uploaded http b64encode gh owner repo final item res ->
  uploaded http b64encode gh owner repo (final ++ suf) item res.
Proof.
  intros final suf item res [pre [sha [suf0 [-> Hres]]]].
  exists pre, sha, (suf0 ++ suf). split; [| assumption].
  now rewrite <- app_assoc.
Qed.

Lemma Forall2_uploaded_extend : forall final suf items results,
  Forall2 (uploaded http b64encode gh owner repo final) items results ->
  Forall2 (uploaded http b64encode gh owner repo (final ++ suf)) items results.
Proof.
  intros final suf items results H.
  induction H; constructor; [now apply uploaded_extend | assumption].
Qed.

Lemma bulk_upload_loop_ok : forall items acc l rs l',
  bulk_upload_loop http b64encode gh owner repo items acc l = (Ok rs, l') ->
  exists new ev,
    rs = acc ++ new /\ l' = l ++ ev
    /\ List.length new = List.length items
    /\ Forall2 (uploaded http b64encode gh owner repo l') items new
    /\ writes ev = map (item_write b64encode) items
    /\ Forall lookup_or_write ev.
Proof.
  induction items as [| [path b] items IH]; intros acc l rs l' H.
  - simpl in H. unfold ret in H. injection H as <- <-. exists [], [].
    rewrite !app_nil_r. repeat split; constructor.
  - simpl in H. unfold bind in H. rewrite upload_file_run in H.
    set (q1 := lookup_of gh owner repo path) in *.
    set (q2 := write_of b64encode gh owner repo path b
                 (upload_message path) (sha_of (http l q1))) in *.
    destruct (put_value (http (l ++ [q1]) q2)) as [v | e] eqn:Hv;
      simpl in H; [| discriminate].
    apply IH in H. destruct H as [new [ev [-> [-> [Hlen [Hall [Hw Hlw]]]]]]].
    exists (v :: new), (q1 :: q2 :: ev).
    rewrite <- !app_assoc. simpl. repeat split.
    + now rewrite Hlen.
    + constructor.
      * exists (l ++ [q1]), (sha_of (http l q1)), ev. split.
        -- now rewrite <- app_assoc.
        -- unfold file_result. fold q2. simpl fst. simpl snd.
           unfold write_of in q2. fold q2. now rewrite Hv.
      * rewrite <- app_assoc in Hall. exact Hall.
    + now rewrite Hw.
    + repeat constructor. exact Hlw.
Qed.

Lemma bulk_upload_loop_answers : forall items acc l,
  writes_answered http ->
  exists rs l',
    bulk_upload_loop http b64encode gh owner repo items acc l = (Ok rs, l').
Proof.
  intros items acc l Hans. revert acc l.
  induction items as [| [path b] items IH]; intros acc l.
  - now exists acc, l.
  - simpl. unfold bind. rewrite upload_file_run.
    unfold write_of at 1.
    destruct (Hans (l ++ [lookup_of gh owner repo path]) (token gh) owner repo
                path (upload_message path) (b64encode b)
                (sha_of (http l (lookup_of gh owner repo path))))
      as [v ->].
    apply IH.
Qed.

Lemma upload_each_run : forall items acc l,
  exists new ev,
    upload_each http b64encode gh owner repo items acc l
    = (Ok (acc ++ new), l ++ ev)
    /\ List.length new = List.length items
    /\ Forall2 (uploaded http b64encode gh owner repo (l ++ ev)) items new.
Proof.
  induction items as [| [path b] items IH]; intros acc l.
  - exists [], []. simpl. unfold ret. rewrite !app_nil_r.
    repeat split. constructor.
  - simpl. unfold bind, try_except. rewrite upload_file_run.
    set (q1 := lookup_of gh owner repo path) in *.
    set (q2 := write_of b64encode gh owner repo path b
                 (upload_message path) (sha_of (http l q1))) in *.
    set (v := file_result (http (l ++ [q1]) q2)).
    assert (E : (let (o, l'0) :=
                   match put_value (http (l ++ [q1]) q2) with
                   | Ok a => (Ok a, l ++ [q1; q2])
                   | Raise e => ret (PDict [("error", PStr e)]) (l ++ [q1; q2])
                   end in
                 match o with
                 | Ok a => upload_each http b64encode gh owner repo items
                             (acc ++ [a]) l'0
                 | Raise e => (Raise e, l'0)
                 end)
                = upload_each http b64encode gh owner repo items
                    (acc ++ [v]) (l ++ [q1; q2])).
    { unfold v, file_result. destruct (put_value _); reflexivity. }
    match goal with
    | |- exists new ev, ?lhs = _ /\ _ => change lhs with
          (let (o, l'0) :=
                   match put_value (http (l ++ [q1]) q2) with
                   | Ok a => (Ok a, l ++ [q1; q2])
                   | Raise e => ret (PDict [("error", PStr e)]) (l ++ [q1; q2])
                   end in
                 match o with
                 | Ok a => upload_each http b64encode gh owner repo items
                             (acc ++ [a]) l'0
                 | Raise e => (Raise e, l'0)
                 end)
    end.
    rewrite E.
    destruct (IH (acc ++ [v]) (l ++ [q1; q2])) as [new [ev [Hrun [Hlen Hall]]]].
    exists (v :: new), (q1 :: q2 :: ev). rewrite Hrun.
    rewrite <- !app_assoc. simpl. repeat split.
    + now rewrite Hlen.
    + constructor.
      * exists (l ++ [q1]), (sha_of (http l q1)), ev. split.
        -- now rewrite <- app_assoc.
        -- reflexivity.
      * rewrite <- app_assoc in Hall. exact Hall.
Qed.

(** C7. The [files] array of [api_upload_files] has one entry per element
    of [upload_list], in order, whatever happens to each upload: the entry of
    a file is what the answer to the write of that very file gives, the
    parsed body of a 200 or 201, an [error] entry with the message of any
    other status, or an [error] entry with the text of the exception.  And
    when every write is answered, [bulk_upload] itself returns such a list:
    it sends exactly one write per file, in input order, each with the
    content of its file, and besides the writes only lookups, so that no
    write is skipped after a rejected one and none is undone. *)
Theorem bulk_upload_results : forall items l,
  (exists results,
      fst (upload_results http b64encode gh owner repo items l) = Ok results
      /\ List.length results = List.length items
      /\ Forall2 (uploaded http b64encode gh owner repo
                    (snd (upload_results http b64encode gh owner repo items l)))
           items results)
  /\ (writes_answered http ->
      exists results ev,
        bulk_upload http b64encode gh owner repo items l
        = (Ok results, l ++ ev)
        /\ List.length results = List.length items
        /\ Forall2 (uploaded http b64encode gh owner repo (l ++ ev))
             items results
        /\ writes ev = map (item_write b64encode) items
        /\ Forall lookup_or_write ev).
Proof.
  intros items l. split.
  - unfold upload_results, bind, try_except, bulk_upload.
    destruct (bulk_upload_loop _ _ _ _ _ items [] l) as [[rs | e] l1] eqn:H.
    + apply bulk_upload_loop_ok in H.
      destruct H as [new [ev [-> [-> [Hlen [Hall _]]]]]].
      exists new. simpl. auto.
    + unfold ret.
      destruct (upload_each_run items [] l1) as [new [ev [Hrun [Hlen Hall]]]].
      rewrite Hrun. exists new. simpl. auto.
  - intros Hans. unfold bulk_upload.
    destruct (bulk_upload_loop_answers items [] l Hans) as [rs [l' H]].
    rewrite H. apply bulk_upload_loop_ok in H.
    destruct H as [new [ev [-> [-> [Hlen [Hall [Hw Hlw]]]]]]].
    exists new, ev. simpl. auto.
Qed.
End BulkUpload.

(** The scenario of C7 on three files, the second of which is rejected. *)
Lemma bulk_upload_results_witness :
  writes_answered remote_rejects_b
  /\ exists results ev,
       bulk_upload remote_rejects_b plain acme "acme" "widgets" three_files []
       = (Ok results, [] ++ ev)
       /\ List.length results = List.length three_files
       /\ Forall2 (uploaded remote_rejects_b plain acme "acme" "widgets"
                     ([] ++ ev)) three_files results
       /\ writes ev = map (item_write plain) three_files
       /\ Forall lookup_or_write ev.
Proof.
  assert (H : writes_answered remote_rejects_b).
  { intros l tok o r p m c sha. unfold remote_rejects_b.
    destruct (String.eqb p "b.txt"); eexists; reflexivity. }
  split; [exact H |].
  exact (proj2 (bulk_upload_results remote_rejects_b plain acme "acme"
                  "widgets" three_files []) H).
Defined.

(** The second of three files is rejected: its entry carries the message of
    the rejection, the two others are the answers to their own writes, and
    all three writes were sent. *)
Example rejected_second_run :
  bulk_upload remote_rejects_b plain acme "acme" "widgets" three_files []
  = (Ok [PDict [("content", PDict [("path", PStr "a.txt")])];
         PDict [("error", PStr "Invalid request")];
         PDict [("content", PDict [("path", PStr "c.txt")])]],
     [lookup_of acme "acme" "widgets" "a.txt";
      write_of plain acme "acme" "widgets" "a.txt" "A" "Upload a.txt" None;
      lookup_of acme "acme" "widgets" "b.txt";
      write_of plain acme "acme" "widgets" "b.txt" "B" "Upload b.txt" None;
      lookup_of acme "acme" "widgets" "c.txt";
      write_of plain acme "acme" "widgets" "c.txt" "C" "Upload c.txt" None]).
Proof. reflexivity. Qed.

(** ** /api/create_repo on a repository that exists *)

Section CreateRepo.
Variable http : remote.
Variable b64encode : string -> string.

(** C8. The session holds a token, the name sent is not empty, and the
    lookup of the repository under the user's name is answered 200 with the
    JSON object of the repository (not empty, and without [message]).  Then
    [api_create_repo] sends that lookup and nothing else, so no creation
    call, and answers with success false and the error
    [Repository '<name>' already exists.] under status 200, which no answer
    to a failed creation (they are 400) equals. *)
Theorem existing_repo_is_not_created :
  forall sess data tok name r info l,
    pat sess = Some tok -> tok <> "" ->
    py_strip (py_or (dict_get "name" data) (PStr "")) = Ok name ->
    name <> "" ->
    http l (repo_request (mkGitHubAPI tok) (fmt (username sess)) name) = Ok r ->
    status_code r = 200%Z ->
    json r = Some (PDict info) -> info <> [] ->
    dict_lookup "message" info = None ->
    api_create_repo http b64encode sess data l
    = (Ok (jsonify [("success", PBool false);
                    ("error",
                     PStr ("Repository '" ++ name ++ "' already exists.")%string)]
             200),
       l ++ [repo_request (mkGitHubAPI tok) (fmt (username sess)) name])
    /\ forall msg,
         jsonify [("success", PBool false);
                  ("error",
                   PStr ("Repository '" ++ name ++ "' already exists.")%string)]
           200
         <> json_error msg 400.
Proof.
  intros sess data tok name r info l Hpat Htok Hname Hne Hq Hst Hj Hinfo Hmsg.
  split; [| intros msg; discriminate].
  unfold api_create_repo. rewrite Hpat, Hname.
  change (lift (Ok name)) with (@ret string name). rewrite bind_ret_l.
  apply String.eqb_neq in Hne. rewrite Hne.
  unfold get_gh. rewrite Hpat. apply String.eqb_neq in Htok. rewrite Htok.
  unfold try_except at 1. unfold bind at 1.
  unfold try_except, get_repo_info, bind at 1, send.
  unfold repo_request in Hq. cbn [token] in Hq |- *. rewrite Hq.
  unfold lift, get_repo_info_of, r_json. rewrite Hst, Hj. simpl.
  destruct info as [| kv info]; [now contradiction Hinfo |].
  unfold bind, lift, ret. simpl.
  unfold dict_get_default. rewrite Hmsg. simpl. reflexivity.
Qed.
End CreateRepo.

(** The scenario of C8: the user [alice] asks for [widgets], which exists. *)
Lemma existing_repo_is_not_created_witness :
  api_create_repo remote_has_widgets plain alice [("name", PStr " widgets ")] []
  = (Ok (jsonify [("success", PBool false);
                  ("error", PStr "Repository 'widgets' already exists.")] 200),
     [] ++ [repo_request (mkGitHubAPI "ghp_token") "alice" "widgets"])
  /\ forall msg,
       jsonify [("success", PBool false);
                ("error", PStr "Repository 'widgets' already exists.")] 200
       <> json_error msg 400.
Proof.
  apply (existing_repo_is_not_created remote_has_widgets plain alice
           [("name", PStr " widgets ")] "ghp_token" "widgets"
           (json_answer (PDict [("name", PStr "widgets");
                                ("default_branch", PStr "main")]))
           [("name", PStr "widgets"); ("default_branch", PStr "main")] []);
    try reflexivity; discriminate.
Defined.

(** ** Envelopes and status codes *)

Lemma dict_lookup_set : forall k v d, dict_lookup k (dict_set k v d) = Some v.
Proof.
  induction d as [| [k' v'] d IH]; simpl.
  - now rewrite String.eqb_refl.
  - destruct (String.eqb k k') eqn:E; simpl.
    + now rewrite String.eqb_refl.
    + now rewrite E.
Qed.

Lemma envelope_error : forall msg code, envelope (json_error msg code).
Proof.
  intros msg code. exists [("success", PBool false); ("error", msg)], false.
  repeat split; [discriminate | now exists msg].
Qed.

Lemma envelope_ok : forall payload, envelope (jsonify (_json_ok payload) 200).
Proof.
  intros payload. exists (_json_ok payload), true. unfold _json_ok.
  repeat split; [apply dict_lookup_set | discriminate].
Qed.

Lemma envelope_not_found : forall tried, envelope (not_found tried).
Proof.
  intros tried. eexists _, false.
  repeat split; [discriminate | now eexists].
Qed.

Lemma ok_with_ret : forall A (P : A -> Prop) a, P a -> ok_with P (ret a).
Proof. intros A P a H l. exact H. Qed.

Lemma ok_with_bind : forall A B (P : B -> Prop) (m : M A) (f : A -> M B),
  (forall a, ok_with P (f a)) -> ok_with P (bind m f).
Proof.
  intros A B P m f H l. unfold bind.
  destruct (m l) as [[a | e] l1]; [apply H | exact I].
Qed.

Lemma ok_with_try : forall A (P : A -> Prop) (m : M A) (h : string -> M A),
  ok_with P m -> (forall e, ok_with P (h e)) -> ok_with P (try_except m h).
Proof.
  intros A P m h Hm Hh l. unfold try_except. specialize (Hm l).
  destruct (m l) as [[a | e] l1]; [exact Hm | apply Hh].
Qed.

(** A handler whose [try] block is guarded by [on_exception] answers. *)
Lemma guarded_answers : forall (P : http_response -> Prop) m l,
  ok_with P m -> (forall e, P (json_error (PStr e) 500)) ->
  exists resp, fst (try_except m on_exception l) = Ok resp /\ P resp.
Proof.
  intros P m l Hm He. unfold try_except, on_exception. specialize (Hm l).
  destruct (m l) as [[a | e] l1]; simpl in *.
  - now exists a.
  - eexists. split; [reflexivity | apply He].
Qed.

Ltac status_in := simpl; tauto.

Ltac leaf :=
  first [ split; [apply envelope_error | status_in]
        | split; [apply envelope_ok | status_in]
        | split; [apply envelope_not_found | status_in] ].

Ltac ok_step :=
  lazymatch goal with
  | |- ok_with _ (ret _) => apply ok_with_ret; try leaf
  | |- ok_with _ (bind _ _) => apply ok_with_bind; intros
  | |- ok_with _ (try_except _ _) => apply ok_with_try; [| intros]
  | |- ok_with _ (on_exception _) => apply ok_with_ret; try leaf
  | |- ok_with _ (if ?b then _ else _) => destruct b
  | |- ok_with _ (match ?x with _ => _ end) => destruct x
  end.

Lemma get_file_body_answers :
  forall http b64decode_utf8 gh owner repo path branch,
  ok_with (answer_in [200; 404]%Z)
    (get_file_body http b64decode_utf8 gh owner repo path branch).
Proof.
  intros. unfold get_file_body. repeat ok_step.
Qed.

Lemma api_get_file_answers : forall http b64decode_utf8 sess args l,
  exists resp,
    fst (api_get_file http b64decode_utf8 sess args l) = Ok resp
    /\ answer_in [200; 400; 404; 500]%Z resp.
Proof.
  intros http b64decode_utf8 sess args l. unfold api_get_file.
  destruct (owner_of sess args) as [owner |];
    [| eexists; split; [reflexivity | leaf]].
  destruct (_ || _); [eexists; split; [reflexivity | leaf] |].
  destruct (get_gh sess) as [gh |]; [| eexists; split; [reflexivity | leaf]].
  apply guarded_answers; [| intros; leaf].
  intros l'. pose proof (get_file_body_answers http b64decode_utf8 gh owner
    (strip (args_get_default "repo" "" args))
    (strip (args_get_default "path" "" args))
    (if (strip (args_get_default "branch" "" args) =? "")%string
     then None else Some (strip (args_get_default "branch" "" args))) l') as H.
  destruct (fst _); [| exact I]. destruct H as [He Hs]. split; [exact He |].
  simpl in *. tauto.
Qed.

Lemma api_get_file_missing_field : forall http b64decode_utf8 sess args l,
  get_file_field_missing sess args ->
  api_get_file http b64decode_utf8 sess args l
  = (Ok (json_error (PStr "owner, repo, path required") 400), l).
Proof.
  intros http b64decode_utf8 sess args l H.
  unfold api_get_file, get_file_field_missing in *.
  destruct (owner_of sess args) as [owner |]; [| reflexivity].
  destruct H as [-> | [-> | ->]]; simpl; rewrite ?orb_true_r; reflexivity.
Qed.

Lemma api_list_files_answers : forall http sess args l,
  exists resp,
    fst (api_list_files http sess args l) = Ok resp
    /\ answer_in [200; 400; 500]%Z resp.
Proof.
  intros http sess args l. unfold api_list_files.
  destruct (owner_of sess args) as [owner |];
    [| eexists; split; [reflexivity | leaf]].
  destruct (_ || _); [eexists; split; [reflexivity | leaf] |].
  apply guarded_answers; [| intros; leaf].
  repeat ok_step.
Qed.

Lemma api_list_files_no_session : forall http sess args owner l,
  pat sess = None ->
  owner_of sess args = Some owner -> owner <> "" ->
  strip (args_get_default "repo" "" args) <> "" ->
  api_list_files http sess args l
  = (Ok (jsonify (_json_ok [("files", PList [])]) 200), l).
Proof.
  intros http sess args owner l Hpat Ho Hne Hr. unfold api_list_files.
  rewrite Ho, Hpat. apply String.eqb_neq in Hne, Hr. rewrite Hne, Hr.
  reflexivity.
Qed.

Lemma api_repos_answers : forall http fuel sess l,
  exists o,
    fst (api_repos http fuel sess l) = Ok o
    /\ answer_in_opt [200; 401; 500]%Z o
    /\ (forall resp, o = Some resp -> (snd resp = 401%Z <-> pat sess = None)).
Proof.
  intros http fuel sess l. unfold api_repos, get_gh.
  destruct (pat sess) as [tok |].
  2:{ eexists. split; [reflexivity |]. split; [simpl; leaf |].
      intros resp H. injection H as <-. simpl. tauto. }
  assert (Hno : forall resp : http_response,
             answer_in [200; 500]%Z resp ->
             answer_in [200; 401; 500]%Z resp
             /\ (snd resp = 401%Z <-> Some tok = None)).
  { intros resp [He Hs]. split; [split; [exact He | simpl in *; tauto] |].
    split; [| discriminate]. intros E. simpl in Hs. rewrite E in Hs.
    destruct Hs as [Hs | [Hs | []]]; discriminate. }
  destruct (String.eqb tok "").
  - eexists. split; [reflexivity |].
    destruct (Hno (json_error (PStr "GitHub client unavailable") 500))
      as [H1 H2]; [leaf |].
    split; [exact H1 |]. intros resp H. now injection H as <-.
  - unfold try_except.
    assert (Hm : ok_with (answer_in_opt [200; 500]%Z)
                   (repos <- get_repos http fuel {| token := tok |} ;;
                    match repos with
                    | Some repos0 =>
                        ret (Some (jsonify
                                     (_json_ok
                                        [("repos",
                                          PList (flat_map repo_entry repos0))])
                                     200))
                    | None => ret None
                    end)).
    { apply ok_with_bind. intros [repos |]; apply ok_with_ret; simpl;
        [leaf | exact I]. }
    specialize (Hm l).
    destruct ((repos <- get_repos http fuel {| token := tok |} ;; _) l)
      as [[o | e] l1]; simpl in Hm |- *.
    + exists o. split; [reflexivity |]. destruct o as [resp |]; simpl.
      * destruct (Hno resp Hm) as [H1 H2]. split; [exact H1 |].
        intros resp' H. now injection H as <-.
      * split; [exact I | discriminate].
    + eexists. split; [reflexivity |].
      destruct (Hno (json_error (PStr e) 500)) as [H1 H2]; [leaf |].
      split; [exact H1 |]. intros resp H. now injection H as <-.
Qed.

Lemma api_create_repo_answers : forall http b64encode sess data l resp,
  fst (api_create_repo http b64encode sess data l) = Ok resp ->
  answer_in [200; 400; 401; 500]%Z resp
  /\ (snd resp = 401%Z <-> pat sess = None).
Proof.
  intros http b64encode sess data l resp. unfold api_create_repo.
  destruct (pat sess) as [tok |] eqn:Hpat.
  2:{ intros H. injection H as <-. split; [leaf | simpl; tauto]. }
  intros H.
  assert (Hm : answer_in [200; 400; 500]%Z resp).
  { revert H.
    match goal with
    | |- fst (?m l) = _ -> _ =>
        assert (Hok : ok_with (answer_in [200; 400; 500]%Z) m)
    end.
    { repeat ok_step. }
    specialize (Hok l). intros H. rewrite H in Hok. exact Hok. }
  destruct Hm as [He Hs]. split; [split; [exact He | simpl in *; tauto] |].
  split; [| discriminate]. intros E. simpl in Hs. rewrite E in Hs.
  destruct Hs as [Hs | [Hs | [Hs | []]]]; discriminate.
Qed.

Lemma api_upload_files_answers :
  forall http b64encode secure_filename zip_members sess form files l,
  exists resp,
    fst (api_upload_files http b64encode secure_filename zip_members
           sess form files l) = Ok resp
    /\ answer_in [200; 400; 401; 500]%Z resp
    /\ (snd resp = 401%Z <-> pat sess = None).
Proof.
  intros http b64encode secure_filename zip_members sess form files l.
  unfold api_upload_files.
  destruct (pat sess) as [tok |] eqn:Hpat.
  2:{ eexists. split; [reflexivity |]. split; [leaf | simpl; tauto]. }
  assert (Hno : forall resp : http_response,
             answer_in [200; 400; 500]%Z resp ->
             answer_in [200; 400; 401; 500]%Z resp
             /\ (snd resp = 401%Z <-> Some tok = None)).
  { intros resp [He Hs]. split; [split; [exact He | simpl in *; tauto] |].
    split; [| discriminate]. intros E. simpl in Hs. rewrite E in Hs.
    destruct Hs as [Hs | [Hs | [Hs | []]]]; discriminate. }
  destruct (String.eqb _ "").
  { eexists. split; [reflexivity |]. apply Hno. leaf. }
  destruct (get_gh sess) as [gh |].
  2:{ eexists. split; [reflexivity |]. apply Hno. leaf. }
  destruct (guarded_answers (answer_in [200; 400; 500]%Z)
              (match files with
               | [] => ret (json_error (PStr "No files uploaded") 400)
               | _ :: _ =>
                   upload_list <- lift (build_upload_list secure_filename
                                          zip_members files []) ;;
                   results <- upload_results http b64encode gh
                                (fmt (username sess))
                                (strip
                                   match
                                     opt_or
                                       (opt_or (args_get "repo" form)
                                          (args_get "upload-repo" form))
                                       (Some "")
                                   with
                                   | Some s => s
                                   | None => ""
                                   end) upload_list ;;
                   ret (jsonify
                          (_json_ok
                             [("message", PStr "Files uploaded successfully!");
                              ("files", PList results)]) 200)
               end) l) as [resp [Hr Ha]].
  { repeat ok_step. }
  { intros; leaf. }
  exists resp. split; [exact Hr |]. now apply Hno.
Qed.

Section Statuses.
Variable http : remote.
Variable b64decode_utf8 : string -> option string.
Variable b64encode : string -> string.
Variable secure_filename : string -> string.
Variable zip_members : string -> outcome (list (string * string)).
Variable sess : session.

End Statuses.



(** [api_get_file] has no client then, and says so under status 500. *)
Example get_file_without_session :
  api_get_file remote_nothing decode_hello anonymous
    [("owner", "acme"); ("repo", "widgets"); ("path", "README.md")] []
  = (Ok (PDict [("success", PBool false);
                ("error", PStr "GitHub client unavailable")], 500%Z), []).
Proof. reflexivity. Qed.

(** ** The paging loop of [get_repos] *)

Lemma get_repos_loop_more_fuel : forall http fuel gh page repos l r l',
  get_repos_loop http fuel gh page repos l = (Ok (Some r), l') ->
  get_repos_loop http (S fuel) gh page repos l = (Ok (Some r), l').
Proof.
  intros http fuel.
  induction fuel as [| fuel IH]; intros gh page repos l r l' H.
  - discriminate.
  - simpl in H. unfold bind in H. cbn [get_repos_loop]. unfold bind.
    destruct (send http _ l) as [[rsp | e] l1]; [| exact H].
    destruct (negb _); [exact H |].
    destruct (lift (r_json rsp) l1) as [[batch | e] l2]; [| exact H].
    destruct batch as [| | | | items |]; try exact H.
    destruct (Nat.eqb _ 0); [exact H |].
    destruct (Nat.ltb _ 100); [exact H |].
    now apply IH.
Qed.

(** A first page that is no 200 ends the loop at once. *)
Example no_repos_run :
  get_repos remote_nothing 1 acme []
  = (Ok (Some []), [Api "ghp_token" (GetUserRepos 1)]).
Proof. reflexivity. Qed.

(** * Further properties *)

(** ** Languages by file extension *)

Lemma lower_app : forall a b,
  lower (a ++ b)%string = (lower a ++ lower b)%string.
Proof.
  induction a as [| c a IH]; intros b; simpl; [| rewrite IH]; reflexivity.
Qed.

Lemma lower_char_dot : forall c,
  Ascii.eqb (lower_char c) "." = Ascii.eqb c ".".
Proof.
  intros [[] [] [] [] [] [] [] []]; reflexivity.
Qed.

Lemma lower_char_idem : forall c, lower_char (lower_char c) = lower_char c.
Proof.
  intros [[] [] [] [] [] [] [] []]; reflexivity.
Qed.

Lemma lower_idem : forall s, lower (lower s) = lower s.
Proof.
  induction s as [| c s IH]; simpl; [| rewrite IH, lower_char_idem];
    reflexivity.
Qed.

Lemma has_dot_lower : forall s, has_dot (lower s) = has_dot s.
Proof.
  induction s as [| c s IH]; simpl; [| rewrite IH, lower_char_dot];
    reflexivity.
Qed.

Lemma has_dot_app : forall a b,
  has_dot (a ++ b)%string = has_dot a || has_dot b.
Proof.
  induction a as [| c a IH]; intros b; simpl; [reflexivity |].
  now rewrite IH, orb_assoc.
Qed.

Lemma string_app_assoc : forall a b c : string,
  ((a ++ b) ++ c)%string = (a ++ b ++ c)%string.
Proof.
  induction a as [| x a IH]; intros; simpl; [| rewrite IH]; reflexivity.
Qed.

Lemma string_app_nil_r : forall a : string, (a ++ "")%string = a.
Proof. induction a as [| x a IH]; simpl; [| rewrite IH]; reflexivity. Qed.

Lemma after_last_dot_plain : forall s cur,
  has_dot s = false -> after_last_dot cur s = (cur ++ s)%string.
Proof.
  induction s as [| c s IH]; intros cur H; simpl in *.
  - now rewrite string_app_nil_r.
  - apply orb_false_iff in H. destruct H as [Hc Hs]. rewrite Hc.
    rewrite (IH _ Hs). now rewrite string_app_assoc.
Qed.

Lemma after_last_dot_app : forall a cur ext,
  has_dot ext = false ->
  after_last_dot cur (a ++ "." ++ ext)%string = ext.
Proof.
  induction a as [| c a IH]; intros cur ext H; simpl.
  - now rewrite after_last_dot_plain.
  - destruct (Ascii.eqb c "."); now apply IH.
Qed.

(** X1. The language is read off what follows the last dot of the name,
    lower-cased, and off nothing else: a name without a dot has no language,
    and [stem.ext] has the language the table gives for [ext], whatever the
    stem holds (other dots, slashes, upper case). *)
Theorem language_by_last_extension : forall name,
  (has_dot name = false -> detect_language_from_filename name = None)
  /\ (forall stem ext,
        name = (stem ++ "." ++ ext)%string -> has_dot ext = false ->
        detect_language_from_filename name = mapping_get (lower ext) mapping).
Proof.
  intros name. split.
  - intros H. unfold detect_language_from_filename. now rewrite H.
  - intros stem ext -> H. unfold detect_language_from_filename.
    rewrite has_dot_app. simpl has_dot. rewrite orb_true_r.
    rewrite lower_app.
    change (lower ("." ++ ext)) with ("." ++ lower ext)%string.
    rewrite after_last_dot_app; [reflexivity |]. now rewrite has_dot_lower.
Qed.

Example language_of_archive :
  detect_language_from_filename "src/Main.test.PY" = Some "python"
  /\ detect_language_from_filename "backup.py.tar" = None
  /\ detect_language_from_filename "Makefile" = None.
Proof. repeat split. Qed.

(** X2. Detection does not see the case of ASCII letters. *)
Theorem language_ignores_case : forall name,
  detect_language_from_filename (lower name)
  = detect_language_from_filename name.
Proof.
  intros name. unfold detect_language_from_filename.
  now rewrite has_dot_lower, lower_idem.
Qed.

(** ** The pages of [get_repos] *)

Lemma get_repos_loop_pages : forall http gh (full : list (list pyval)) short,
  Forall (fun b => 100 <= List.length b) full ->
  List.length short < 100 ->
  forall fuel page repos l,
  (forall i b, nth_error full i = Some b ->
               page_lists http gh (page + Z.of_nat i) b) ->
  page_lists http gh (page + Z.of_nat (List.length full)) short ->
  List.length full < fuel ->
  get_repos_loop http fuel gh page repos l
  = (Ok (Some (repos ++ List.concat full ++ short)),
     l ++ map (fun i => page_request gh (page + Z.of_nat i))
            (seq 0 (S (List.length full)))).
Proof.
  intros http gh full short Hfull Hshort.
  induction Hfull as [| b full Hb Hfull IH];
    intros fuel page repos l Hpages Hlast Hfuel.
  - destruct fuel as [| fuel]; [lia |]. simpl in Hlast.
    rewrite Z.add_0_r in Hlast. destruct (Hlast l) as [r [Hq [Hst Hj]]].
    cbn [get_repos_loop List.length seq map List.concat app].
    rewrite Z.add_0_r. unfold bind, send, lift, r_json, ret.
    fold (page_request gh page). rewrite Hq, Hst, Hj.
    change (negb (200 =? 200)%Z) with false. cbv iota.
    destruct (Nat.eqb (List.length short) 0) eqn:E0.
    + apply Nat.eqb_eq in E0. destruct short; [| discriminate].
      now rewrite app_nil_r.
    + apply Nat.ltb_lt in Hshort. now rewrite Hshort.
  - destruct fuel as [| fuel]; [simpl in Hfuel; lia |].
    destruct (Hpages 0 b eq_refl l) as [r [Hq [Hst Hj]]].
    rewrite Z.add_0_r in Hq.
    cbn [get_repos_loop]. unfold bind at 1. unfold send.
    fold (page_request gh page). rewrite Hq.
    rewrite Hst. change (negb (200 =? 200)%Z) with false. cbv iota.
    unfold bind at 1, lift, r_json. rewrite Hj.
    assert (E0 : Nat.eqb (List.length b) 0 = false)
      by (apply Nat.eqb_neq; lia).
    assert (E1 : Nat.ltb (List.length b) 100 = false)
      by (apply Nat.ltb_ge; lia).
    rewrite E0, E1.
    rewrite (IH fuel (page + 1)%Z).
    + f_equal.
      * cbn [List.concat]. now rewrite !app_assoc.
      * rewrite <- app_assoc. f_equal. cbn [List.length].
        change (seq 0 (S (S (List.length full))))
          with (0 :: seq 1 (S (List.length full))).
        cbn [map app]. rewrite Z.add_0_r. f_equal.
        rewrite <- seq_shift, map_map. apply map_ext. intros i.
        f_equal. lia.
    + intros i b' Hi. specialize (Hpages (S i) b' Hi).
      now replace (page + 1 + Z.of_nat i)%Z with (page + Z.of_nat (S i))%Z
        by lia.
    + cbn [List.length] in Hlast.
      now replace (page + 1 + Z.of_nat (List.length full))%Z
        with (page + Z.of_nat (S (List.length full)))%Z by lia.
    + simpl in Hfuel. lia.
Qed.

(** X3. [get_repos] asks for the pages 1, 2, ... in turn and stops at the
    first page of fewer than a hundred entries: when the pages before it are
    full, the loop ends after one request per page, on any fuel above the
    number of full pages, with the entries of all pages in page order. *)
Theorem get_repos_concatenates_pages :
  forall http gh (full : list (list pyval)) (short : list pyval) fuel l,
  Forall (fun b => 100 <= List.length b) full ->
  List.length short < 100 ->
  (forall i b, nth_error full i = Some b ->
               page_lists http gh (Z.of_nat (S i)) b) ->
  page_lists http gh (Z.of_nat (S (List.length full))) short ->
  List.length full < fuel ->
  get_repos http fuel gh l
  = (Ok (Some (List.concat full ++ short)),
     l ++ map (fun i => page_request gh (Z.of_nat i))
            (seq 1 (S (List.length full)))).
Proof.
  intros http gh full short fuel l Hfull Hshort Hpages Hlast Hfuel.
  unfold get_repos.
  rewrite (get_repos_loop_pages http gh full short Hfull Hshort).
  - f_equal. f_equal. rewrite <- seq_shift, map_map. apply map_ext.
    intros i. f_equal. lia.
  - intros i b Hi. specialize (Hpages i b Hi).
    now replace (1 + Z.of_nat i)%Z with (Z.of_nat (S i)) by lia.
  - now replace (1 + Z.of_nat (List.length full))%Z
      with (Z.of_nat (S (List.length full))) by lia.
  - exact Hfuel.
Qed.

Lemma get_repos_concatenates_pages_witness :
  get_repos remote_two_pages 2 acme []
  = (Ok (Some (List.concat [repeat (PDict [("name", PStr "r")]) 100]
               ++ [PDict [("name", PStr "last")]])),
     [] ++ map (fun i => page_request acme (Z.of_nat i)) (seq 1 2)).
Proof.
  apply (get_repos_concatenates_pages remote_two_pages acme
           [repeat (PDict [("name", PStr "r")]) 100]
           [PDict [("name", PStr "last")]] 2 []).
  - constructor; [| constructor]. rewrite repeat_length. lia.
  - simpl. lia.
  - intros [| i] b Hi.
    + injection Hi as <-. intros l. eexists. split; [reflexivity |].
      split; reflexivity.
    + destruct i; discriminate.
  - intros l. eexists. split; [reflexivity |]. split; reflexivity.
  - simpl. lia.
Defined.

Lemma get_gh_some : forall sess p,
  pat sess = Some p -> p <> "" -> get_gh sess = Some (mkGitHubAPI p).
Proof.
  intros sess p Hp Hne. unfold get_gh. rewrite Hp.
  apply String.eqb_neq in Hne. now rewrite Hne.
Qed.

(** X4. A first page that is no 200 (a token GitHub rejects, an outage) is
    not reported: [api_repos] answers 200 with an empty list of repositories
    after that one request. *)
Theorem api_repos_hides_a_failed_listing : forall http fuel sess p l r,
  pat sess = Some p -> p <> "" ->
  http l (Api p (GetUserRepos 1)) = Ok r -> status_code r <> 200%Z ->
  api_repos http (S fuel) sess l
  = (Ok (Some (jsonify (_json_ok [("repos", PList [])]) 200)),
     l ++ [Api p (GetUserRepos 1)]).
Proof.
  intros http fuel sess p l r Hp Hne Hq Hst. unfold api_repos.
  rewrite (get_gh_some sess p Hp Hne), Hp.
  unfold try_except, bind, get_repos. cbn [get_repos_loop token].
  unfold bind, send. rewrite Hq. apply Z.eqb_neq in Hst. rewrite Hst.
  reflexivity.
Qed.

Lemma api_repos_hides_a_failed_listing_witness :
  api_repos remote_nothing 1 alice []
  = (Ok (Some (jsonify (_json_ok [("repos", PList [])]) 200)),
     [] ++ [Api "ghp_token" (GetUserRepos 1)]).
Proof.
  apply (api_repos_hides_a_failed_listing remote_nothing 0 alice "ghp_token"
           [] not_found_answer); try reflexivity; discriminate.
Defined.

(** ** Listing the files of a repository *)

Lemma listing_run : forall http q l,
  try_except
    (r <- send http q ;;
     if Z.eqb (status_code r) 200
     then (j <- lift (r_json r) ;; ret (Some j))
     else ret None)
    (fun _ => ret None) l
  = (Ok (listing_of (http l q)), l ++ [q]).
Proof.
  intros http q l. unfold try_except, bind, send, lift, ret, listing_of, r_json.
  destruct (http l q) as [r | e]; [| reflexivity].
  destruct (Z.eqb (status_code r) 200); [| reflexivity].
  destruct (json r); reflexivity.
Qed.

Lemma listed_branch_default : forall r0,
  status_code r0 <> 200%Z -> status_code r0 <> 201%Z ->
  listed_branch r0 = Ok (PStr "main").
Proof.
  intros r0 H200 H201. unfold listed_branch, get_repo_info_of.
  apply Z.eqb_neq in H200, H201. now rewrite H200, H201.
Qed.

Lemma list_repo_files_run : forall http gh owner repo l r0 d,
  http l (repo_request gh owner repo) = Ok r0 ->
  listed_branch r0 = Ok d ->
  list_repo_files http gh owner repo l
  = match listing_of (http (l ++ [repo_request gh owner repo])
                        (tree_request gh owner repo d)) with
    | Some tree =>
        (Ok tree,
         l ++ [repo_request gh owner repo; tree_request gh owner repo d])
    | None =>
        (Ok (match listing_of
                     (http (l ++ [repo_request gh owner repo;
                                  tree_request gh owner repo d])
                        (root_request gh owner repo)) with
             | Some contents => contents
             | None => PList []
             end),
         (l ++ [repo_request gh owner repo; tree_request gh owner repo d])
         ++ [root_request gh owner repo])
    end.
Proof.
  intros http gh owner repo l r0 d Hq Hd.
  unfold list_repo_files, get_repo_info.
  unfold bind at 1. unfold bind at 1. unfold send at 1.
  fold (repo_request gh owner repo). rewrite Hq. unfold lift at 1.
  unfold listed_branch in Hd.
  destruct (get_repo_info_of r0) as [ri | e]; [| discriminate].
  unfold bind at 1. unfold lift at 1. rewrite Hd.
  unfold bind at 1. fold (tree_request gh owner repo d).
  rewrite listing_run.
  replace (l ++ [repo_request gh owner repo; tree_request gh owner repo d])
    with ((l ++ [repo_request gh owner repo])
          ++ [tree_request gh owner repo d])
    by now rewrite <- app_assoc.
  destruct (listing_of _) as [tree |]; [reflexivity |].
  unfold bind at 1. fold (root_request gh owner repo).
  rewrite listing_run.
  destruct (listing_of _); reflexivity.
Qed.

(** X5. [list_repo_files] asks for the metadata, then for the tree of the
    branch it names, which is [main] when the metadata request was refused,
    and for the root listing only when the tree request gave no 200 with
    JSON.  Once the metadata is read nothing raises, and with neither
    listing the result is the empty list. *)
Theorem list_repo_files_falls_back : forall http gh owner repo l r0,
  http l (repo_request gh owner repo) = Ok r0 ->
  (status_code r0 <> 200%Z -> status_code r0 <> 201%Z ->
   listed_branch r0 = Ok (PStr "main"))
  /\ forall d, listed_branch r0 = Ok d ->
       let l1 := l ++ [repo_request gh owner repo;
                       tree_request gh owner repo d] in
       list_repo_files http gh owner repo l
       = match listing_of (http (l ++ [repo_request gh owner repo])
                             (tree_request gh owner repo d)) with
         | Some tree => (Ok tree, l1)
         | None =>
             (Ok (match listing_of (http l1 (root_request gh owner repo)) with
                  | Some contents => contents
                  | None => PList []
                  end),
              l1 ++ [root_request gh owner repo])
         end.
Proof.
  intros http gh owner repo l r0 Hq. split.
  - apply listed_branch_default.
  - intros d Hd l1. subst l1.
    exact (list_repo_files_run http gh owner repo l r0 d Hq Hd).
Qed.

Lemma list_repo_files_falls_back_witness :
  listed_branch not_found_answer = Ok (PStr "main")
  /\ list_repo_files remote_nothing acme "acme" "widgets" []
     = (Ok (PList []),
        [repo_request acme "acme" "widgets";
         tree_request acme "acme" "widgets" (PStr "main");
         root_request acme "acme" "widgets"]).
Proof.
  destruct (list_repo_files_falls_back remote_nothing acme "acme" "widgets"
              [] not_found_answer eq_refl) as [Hmain Hrun].
  split.
  - apply Hmain; discriminate.
  - apply (Hrun (PStr "main")). apply Hmain; discriminate.
Defined.

(** X6. A repository of which GitHub serves nothing lists as an empty one:
    when every API request is answered, none with a 200 or a 201,
    [api_list_files] answers 200 with no files. *)
Theorem api_list_files_hides_a_failed_listing :
  forall http sess args owner p l,
  owner_of sess args = Some owner -> owner <> "" ->
  strip (args_get_default "repo" "" args) <> "" ->
  pat sess = Some p -> p <> "" ->
  (forall l' c, exists r,
      http l' (Api p c) = Ok r
      /\ status_code r <> 200%Z /\ status_code r <> 201%Z) ->
  fst (api_list_files http sess args l)
  = Ok (jsonify (_json_ok [("files", PList [])]) 200).
Proof.
  intros http sess args owner p l Ho Hone Hrepo Hp Hpne Hfail.
  unfold api_list_files. rewrite Ho.
  apply String.eqb_neq in Hone, Hrepo. rewrite Hone, Hrepo. cbn [orb].
  rewrite Hp, (get_gh_some sess p Hp Hpne).
  set (gh := mkGitHubAPI p). set (repo := strip _).
  destruct (Hfail l (GetRepo owner repo)) as [r0 [Hq0 [H200 H201]]].
  assert (Hrun := list_repo_files_run http gh owner repo l r0 _ Hq0
                    (listed_branch_default r0 H200 H201)).
  assert (Hnone : forall l' c, listing_of (http l' (Api p c)) = None).
  { intros l' c. destruct (Hfail l' c) as [r [Hq [H2 _]]]. rewrite Hq.
    simpl. apply Z.eqb_neq in H2. now rewrite H2. }
  unfold tree_request, root_request in Hrun. cbn [token gh] in Hrun.
  rewrite !Hnone in Hrun.
  unfold try_except at 1. unfold bind at 1. unfold try_except at 1.
  rewrite Hrun. reflexivity.
Qed.

Lemma api_list_files_hides_a_failed_listing_witness :
  fst (api_list_files remote_nothing alice [("repo", "widgets")] [])
  = Ok (jsonify (_json_ok [("files", PList [])]) 200).
Proof.
  apply (api_list_files_hides_a_failed_listing remote_nothing alice
           [("repo", "widgets")] "alice" "ghp_token" []);
    try reflexivity; try discriminate.
  intros l' c. exists not_found_answer.
  split; [reflexivity |]. split; discriminate.
Defined.

Lemma has_slash_app : forall a b,
  has_slash (a ++ b)%string = has_slash a || has_slash b.
Proof.
  induction a as [| c a IH]; intros b; simpl; [reflexivity |].
  now rewrite IH, orb_assoc.
Qed.

Lemma last_segment_spec : forall s cur,
  has_slash cur = false ->
  has_slash (last_segment cur s) = false
  /\ ((cur ++ s)%string = last_segment cur s
      \/ exists dir,
           (cur ++ s)%string = (dir ++ "/" ++ last_segment cur s)%string).
Proof.
  induction s as [| c s IH]; intros cur Hcur; simpl.
  - split; [assumption |]. left. apply string_app_nil_r.
  - destruct (Ascii.eqb c "/") eqn:Ec.
    + apply Ascii.eqb_eq in Ec. subst c.
      destruct (IH EmptyString eq_refl) as [Hn Hp]. split; [assumption |].
      right. simpl in Hp. destruct Hp as [Hp | [dir Hp]].
      * exists cur. now rewrite <- Hp.
      * exists (cur ++ "/" ++ dir)%string. rewrite !string_app_assoc.
        simpl. simpl in Hp. now rewrite <- Hp.
    + destruct (IH (cur ++ String c EmptyString)%string) as [Hn Hp].
      { rewrite has_slash_app, Hcur. simpl. now rewrite Ec. }
      split; [assumption |].
      rewrite string_app_assoc in Hp. exact Hp.
Qed.

Lemma tree_entry_files : forall owner repo branch item e,
  tree_entry owner repo branch item = Ok e ->
  List.length e <= 1 /\ Forall tree_file e.
Proof.
  intros owner repo branch item e H. unfold tree_entry in H.
  destruct item as [| | | | | d]; try discriminate.
  destruct (negb (truthy (dict_get "path" d))) eqn:Ht.
  - injection H as <-. split; [simpl; lia | constructor].
  - destruct (dict_get "path" d) as [| | | ps | |] eqn:Hp; try discriminate.
    injection H as <-. split; [simpl; lia |].
    constructor; [| constructor].
    destruct (last_segment_spec ps EmptyString eq_refl) as [Hn Hseg].
    simpl in Hseg.
    assert (Hne : ps <> "").
    { intros ->. discriminate. }
    destruct (py_eqb (dict_get "type" d) (PStr "blob")).
    + eexists _, _, ps. split; [reflexivity |].
      split; [reflexivity |]. split; [reflexivity |].
      split; [exact Hne |]. split; [exact Hn |]. split; [exact Hseg |].
      left. split; [reflexivity | eexists; reflexivity].
    + eexists _, _, ps. split; [reflexivity |].
      split; [reflexivity |]. split; [reflexivity |].
      split; [exact Hne |]. split; [exact Hn |]. split; [exact Hseg |].
      right. split; reflexivity.
Qed.

Lemma tree_entries_files : forall owner repo branch items acc out,
  tree_entries owner repo branch items acc = Ok out ->
  Forall tree_file acc ->
  List.length out <= List.length acc + List.length items
  /\ Forall tree_file out.
Proof.
  intros owner repo branch items.
  induction items as [| item items IH]; intros acc out H Hacc; simpl in H.
  - injection H as <-. split; [lia | assumption].
  - destruct (tree_entry owner repo branch item) as [e | e] eqn:He;
      [| discriminate].
    destruct (tree_entry_files _ _ _ _ _ He) as [Hlen Hfiles].
    destruct (IH _ _ H) as [Hl Hf].
    + apply Forall_app. now split.
    + split; [| assumption]. rewrite length_app in Hl. simpl. lia.
Qed.

(** X7. The entries [api_list_files] makes from a tree: at most one per
    item of the tree, each with a path that is not empty, with the last
    segment of that path for a name (so no name holds a slash), and with a
    download URL exactly when its type is [file]. *)
Theorem tree_entries_are_files : forall owner repo branch items out,
  tree_entries owner repo branch items [] = Ok out ->
  List.length out <= List.length items /\ Forall tree_file out.
Proof.
  intros owner repo branch items out H.
  apply (tree_entries_files owner repo branch items [] out H).
  constructor.
Qed.

Lemma tree_entries_are_files_witness :
  exists out,
    tree_entries "acme" "widgets" "main" sample_tree [] = Ok out
    /\ List.length out <= List.length sample_tree /\ Forall tree_file out.
Proof.
  eexists. split; [reflexivity |].
  apply (tree_entries_are_files "acme" "widgets" "main" sample_tree).
  reflexivity.
Defined.

(** ** Deleting a file, adding the workflow *)

Lemma file_exists_run : forall http gh owner repo path l,
  file_exists http gh owner repo path l
  = (match http l (lookup_of gh owner repo path) with
     | Ok r => Ok (Z.eqb (status_code r) 200)
     | Raise e => Raise e
     end, l ++ [lookup_of gh owner repo path]).
Proof.
  intros. unfold file_exists, bind, send, ret, lookup_of.
  destruct (http l _); reflexivity.
Qed.

Section DeleteFile.
Variable http : remote.
Variable sess : session.
Variable data : dict.
Variables p repo path : string.
Hypothesis Hpat : pat sess = Some p.
Hypothesis Hp : p <> "".
Hypothesis Hrepo :
  py_strip (py_or (dict_get "repo" data) (PStr "")) = Ok repo.
Hypothesis Hpath :
  py_strip (py_or (dict_get "path" data) (PStr "")) = Ok path.
Hypothesis Hrepo_given : repo <> "".
Hypothesis Hpath_given : path <> "".

Local Abbreviation gh := (mkGitHubAPI p).
Local Abbreviation owner := (fmt (username sess)).
Local Abbreviation lookup := (lookup_of gh owner repo path).

Lemma api_delete_file_run : forall l,
  api_delete_file http sess data l
  = try_except
      (res <- delete_file http gh owner repo path "Delete via GitSmart" ;;
       if is_error res then ret (json_error (error_of res) 400)
       else
         ret (jsonify
                (_json_ok [("message", PStr (deleted_message path repo))])
                200))
      on_exception l.
Proof.
  intros l. unfold api_delete_file. rewrite Hpat.
  unfold bind at 1. unfold lift at 1. rewrite Hrepo.
  unfold bind at 1. unfold lift at 1. rewrite Hpath.
  apply String.eqb_neq in Hrepo_given, Hpath_given.
  rewrite Hrepo_given, Hpath_given. cbn [orb].
  now rewrite (get_gh_some sess p Hpat Hp).
Qed.

(** X8. [api_delete_file] on a session with a token and with both fields
    given.  The file is deleted in the repository of the session's user.
    A lookup that is no 200 gives 400 [File not found] and no deletion is
    sent.  After a 200 the deletion carries the hash of the lookup; when it
    is answered 200 or 204 without a body that reports an error the answer
    is the 200 with the message; when it is refused, the answer is the 400
    with the message of the refusal (the body text when the body is no JSON
    object), unless that message is empty: a refusal without a message is
    answered like a deletion that was done. *)
Theorem api_delete_file_outcomes : forall l,
  (forall r, http l lookup = Ok r -> status_code r <> 200%Z ->
     api_delete_file http sess data l
     = (Ok (json_error (PStr "File not found") 400), l ++ [lookup]))
  /\ (forall r found r2,
        http l lookup = Ok r -> status_code r = 200%Z ->
        json r = Some (PDict found) ->
        let deletion :=
          Api p (DeleteContents owner repo path "Delete via GitSmart"
                   (dict_get "sha" found)) in
        http (l ++ [lookup]) deletion = Ok r2 ->
        ((status_code r2 = 200%Z \/ status_code r2 = 204%Z) ->
         (forall j, json r2 = Some j -> is_error j = false) ->
         api_delete_file http sess data l
         = (Ok (jsonify
                  (_json_ok [("message", PStr (deleted_message path repo))])
                  200),
            l ++ [lookup; deletion]))
        /\ (forall msg,
              status_code r2 <> 200%Z -> status_code r2 <> 204%Z ->
              msg = match json r2 with
                    | Some (PDict body) =>
                        dict_get_default "message" (PStr (text r2)) body
                    | _ => PStr (text r2)
                    end ->
              api_delete_file http sess data l
              = (Ok (if truthy msg then json_error msg 400
                     else jsonify
                            (_json_ok
                               [("message",
                                 PStr (deleted_message path repo))]) 200),
                 l ++ [lookup; deletion]))).
Proof.
  intros l. split.
  - intros r Hq Hst. rewrite api_delete_file_run.
    unfold try_except, bind, delete_file, send. unfold bind. fold lookup.
    rewrite Hq. apply Z.eqb_neq in Hst. rewrite Hst. reflexivity.
  - intros r found r2 Hq Hst Hj deletion Hq2.
    assert (Hrun : forall k : pyval -> M http_response,
               bind (delete_file http gh owner repo path
                       "Delete via GitSmart") k l
               = bind (if Z.eqb (status_code r2) 200
                          || Z.eqb (status_code r2) 204
                       then try_except (lift (r_json r2))
                              (fun _ => ret (PDict [("ok", PBool true)]))
                       else
                         try_except
                           (data <- lift (r_json r2) ;;
                            msg <- lift (py_get data "message"
                                           (PStr (text r2))) ;;
                            ret (PDict [("error", msg)]))
                           (fun _ => ret (PDict [("error", PStr (text r2))])))
                   k (l ++ [lookup; deletion])).
    { intros k. unfold delete_file. unfold bind at 1 2. unfold send at 1.
      fold lookup. rewrite Hq, Hst. cbn [Z.eqb Pos.eqb negb].
      unfold bind at 1 2. unfold lift at 1, r_json at 1. rewrite Hj.
      unfold bind at 1 2. unfold lift at 1. cbn [py_get].
      unfold bind at 1 2. unfold send at 1. cbn [token].
      fold (dict_get "sha" found). fold deletion. rewrite Hq2.
      rewrite <- app_assoc. reflexivity. }
    split.
    + intros Hok Hbody. rewrite api_delete_file_run.
      unfold try_except at 1. rewrite Hrun.
      assert (E : Z.eqb (status_code r2) 200 || Z.eqb (status_code r2) 204
                  = true).
      { destruct Hok as [-> | ->]; reflexivity. }
      rewrite E. unfold bind, try_except, lift, r_json.
      destruct (json r2) as [j |] eqn:Hj2.
      * now rewrite (Hbody j eq_refl).
      * reflexivity.
    + intros msg H200 H204 ->. rewrite api_delete_file_run.
      unfold try_except at 1. rewrite Hrun.
      apply Z.eqb_neq in H200, H204. rewrite H200, H204. cbn [orb].
      unfold bind, try_except, lift, r_json, ret.
      destruct (json r2) as [[| | | | | body] |];
        cbn [py_get is_error error_of dict_get dict_get_default dict_lookup
             String.eqb Ascii.eqb Bool.eqb];
        now destruct (truthy _).
Qed.

End DeleteFile.

Lemma api_delete_file_outcomes_witness :
  api_delete_file remote_nothing alice
    [("repo", PStr "widgets"); ("path", PStr " notes.txt ")] []
  = (Ok (json_error (PStr "File not found") 400),
     [] ++ [lookup_of acme "alice" "widgets" "notes.txt"]).
Proof.
  assert (Hp : "ghp_token" <> "") by discriminate.
  assert (Hrepo : "widgets" <> "") by discriminate.
  assert (Hpath : "notes.txt" <> "") by discriminate.
  apply (proj1 (api_delete_file_outcomes remote_nothing alice
                  [("repo", PStr "widgets"); ("path", PStr " notes.txt ")]
                  "ghp_token" "widgets" "notes.txt"
                  eq_refl Hp eq_refl eq_refl Hrepo Hpath []) not_found_answer).
  - reflexivity.
  - discriminate.
Defined.

(** A file that is there is deleted with the hash of the lookup. *)
Example delete_file_run_example :
  api_delete_file remote_has_files alice
    [("repo", PStr "widgets"); ("path", PStr "notes.txt")] []
  = (Ok (jsonify
           (_json_ok [("message",
                       PStr "File notes.txt deleted from widgets")]) 200),
     [lookup_of acme "alice" "widgets" "notes.txt";
      Api "ghp_token"
        (DeleteContents "alice" "widgets" "notes.txt" "Delete via GitSmart"
           (PStr "abc123"))]).
Proof. reflexivity. Qed.

Section AddCicd.
Variable http : remote.
Variable b64encode : string -> string.
Variable sess : session.
Variable data : dict.
Variables p repo : string.
Hypothesis Hpat : pat sess = Some p.
Hypothesis Hp : p <> "".
Hypothesis Hrepo :
  py_strip (py_or (dict_get "repo" data) (PStr "")) = Ok repo.
Hypothesis Hrepo_given : repo <> "".

Local Abbreviation gh := (mkGitHubAPI p).
Local Abbreviation owner := (fmt (username sess)).
Local Abbreviation lookup := (lookup_of gh owner repo workflow_path).

(** X9. [api_add_cicd] on a session with a token and a repository name.
    When the lookup of the workflow file is a 200, nothing is written and
    the answer says it is already present.  When it is not, the file is
    uploaded by a second lookup and one write, and the answer is
    [CI/CD workflow added] whatever the write was answered, a refusal
    included, as long as the upload does not raise. *)
Theorem api_add_cicd_outcomes : forall l r,
  http l lookup = Ok r ->
  (status_code r = 200%Z ->
   api_add_cicd http b64encode sess data l
   = (Ok (jsonify
            (_json_ok [("message", PStr "CI/CD workflow already present")])
            200),
      l ++ [lookup]))
  /\ (status_code r <> 200%Z -> writes_answered http ->
      exists content sha,
        api_add_cicd http b64encode sess data l
        = (Ok (jsonify (_json_ok [("message", PStr "CI/CD workflow added")])
                 200),
           l ++ [lookup; lookup;
                 write_of b64encode gh owner repo workflow_path content
                   "Add CI workflow" sha])).
Proof.
  intros l r Hq.
  assert (Hrun : api_add_cicd http b64encode sess data l
                 = try_except
                     (present <- file_exists http gh owner repo
                                   workflow_path ;;
                      if present then
                        ret (jsonify
                               (_json_ok
                                  [("message",
                                    PStr "CI/CD workflow already present")])
                               200)
                      else
                        _ <- ensure_cicd http b64encode gh owner repo ;;
                        ret (jsonify
                               (_json_ok
                                  [("message", PStr "CI/CD workflow added")])
                               200))
                     on_exception l).
  { unfold api_add_cicd. rewrite Hpat.
    unfold bind at 1. unfold lift at 1. rewrite Hrepo.
    apply String.eqb_neq in Hrepo_given. rewrite Hrepo_given.
    now rewrite (get_gh_some sess p Hpat Hp). }
  rewrite Hrun. clear Hrun. split.
  - intros Hst. unfold try_except at 1. unfold bind at 1.
    rewrite file_exists_run, Hq, Hst. reflexivity.
  - intros Hst Hw. unfold try_except at 1. unfold bind at 1.
    rewrite file_exists_run, Hq. apply Z.eqb_neq in Hst. rewrite Hst.
    unfold ensure_cicd. unfold bind at 1. rewrite upload_file_run.
    fold workflow_path. fold lookup.
    match goal with
    | |- context [put_value (http ?l2 (write_of _ _ _ _ _ ?c ?m ?s))] =>
        exists c, s; destruct (Hw l2 p owner repo workflow_path m
                                 (b64encode c) s) as [v Hv]
    end.
    unfold write_of in *. cbn [token] in *. rewrite Hv.
    rewrite <- app_assoc. reflexivity.
Qed.

End AddCicd.

Lemma api_add_cicd_outcomes_witness :
  exists content sha,
    api_add_cicd remote_nothing plain alice [("repo", PStr "widgets")] []
    = (Ok (jsonify (_json_ok [("message", PStr "CI/CD workflow added")]) 200),
       [] ++ [lookup_of acme "alice" "widgets" workflow_path;
              lookup_of acme "alice" "widgets" workflow_path;
              write_of plain acme "alice" "widgets" workflow_path content
                "Add CI workflow" sha]).
Proof.
  assert (Hp : "ghp_token" <> "") by discriminate.
  assert (Hrepo : "widgets" <> "") by discriminate.
  apply (proj2 (api_add_cicd_outcomes remote_nothing plain alice
                  [("repo", PStr "widgets")] "ghp_token" "widgets"
                  eq_refl Hp eq_refl Hrepo [] not_found_answer eq_refl)).
  - discriminate.
  - intros l tok o r pth m c sha. eexists. reflexivity.
Defined.

(** ** What the handlers send *)

Lemma sends_only_ret : forall A P (a : A), sends_only P (ret a).
Proof.
  intros A P a l. exists [].
  split; [now rewrite app_nil_r | constructor].
Qed.

Lemma sends_only_lift : forall A P (o : outcome A), sends_only P (lift o).
Proof.
  intros A P o l. exists [].
  split; [now rewrite app_nil_r | constructor].
Qed.

Lemma sends_only_send : forall (P : request -> Prop) http q,
  P q -> sends_only P (send http q).
Proof.
  intros P http q H l. exists [q]. split; [reflexivity |].
  constructor; [assumption | constructor].
Qed.

Lemma sends_only_bind : forall A B P (m : M A) (f : A -> M B),
  sends_only P m -> (forall a, sends_only P (f a)) -> sends_only P (bind m f).
Proof.
  intros A B P m f Hm Hf l. unfold bind. destruct (Hm l) as [ev [E H]].
  destruct (m l) as [[a | e] l1]; simpl in E; subst l1.
  - destruct (Hf a (l ++ ev)) as [ev2 [E2 H2]]. exists (ev ++ ev2).
    split; [now rewrite E2, app_assoc | now apply Forall_app].
  - now exists ev.
Qed.

Lemma sends_only_try : forall A P (m : M A) (h : string -> M A),
  sends_only P m -> (forall e, sends_only P (h e)) ->
  sends_only P (try_except m h).
Proof.
  intros A P m h Hm Hh l. unfold try_except. destruct (Hm l) as [ev [E H]].
  destruct (m l) as [[a | e] l1]; simpl in E; subst l1.
  - now exists ev.
  - destruct (Hh e (l ++ ev)) as [ev2 [E2 H2]]. exists (ev ++ ev2).
    split; [now rewrite E2, app_assoc | now apply Forall_app].
Qed.

Ltac sends_step :=
  lazymatch goal with
  | |- sends_only _ (ret _) => apply sends_only_ret
  | |- sends_only _ (lift _) => apply sends_only_lift
  | |- sends_only _ (on_exception _) => apply sends_only_ret
  | |- sends_only _ (send _ _) => apply sends_only_send; exact I
  | |- sends_only _ (bind _ _) => apply sends_only_bind; [| intros]
  | |- sends_only _ (try_except _ _) => apply sends_only_try; [| intros]
  | |- sends_only _ (if ?b then _ else _) => destruct b
  | |- sends_only _ (match ?x with _ => _ end) => destruct x
  | |- sends_only _ (let '(_, _) := ?x in _) => destruct x
  end.

Lemma get_file_text_reads : forall http b64 gh owner repo path ref,
  sends_only reads (get_file_text http b64 gh owner repo path ref).
Proof. intros. unfold get_file_text. repeat sends_step. Qed.

Lemma fetch_content_reads : forall http b64 gh owner repo path b,
  sends_only reads (fetch_content http b64 gh owner repo path b).
Proof.
  intros. unfold fetch_content. sends_step; [apply get_file_text_reads |].
  sends_step.
Qed.

Lemma get_repo_info_reads : forall http gh owner repo,
  sends_only reads (get_repo_info http gh owner repo).
Proof. intros. unfold get_repo_info. repeat sends_step. Qed.

Lemma try_literals_reads : forall http b64 gh owner repo path bs st,
  sends_only reads (try_literals http b64 gh owner repo path bs st).
Proof.
  intros http b64 gh owner repo path bs.
  induction bs as [| b bs IH]; intros [tried content]; simpl.
  - apply sends_only_ret.
  - destruct (_ && _); [| apply IH].
    sends_step; [apply fetch_content_reads | apply IH].
Qed.

Lemma raw_fallback_reads : forall http owner repo path bs,
  sends_only reads (raw_fallback http owner repo path bs).
Proof.
  intros http owner repo path bs. induction bs as [| b bs IH]; simpl.
  - apply sends_only_ret.
  - sends_step; [repeat sends_step |]. destruct a; [sends_step | apply IH].
Qed.

Lemma get_file_body_reads : forall http b64 gh owner repo path branch,
  sends_only reads (get_file_body http b64 gh owner repo path branch).
Proof.
  intros. unfold get_file_body.
  sends_step.
  { unfold try_hint. destruct branch as [b |]; [| sends_step].
    destruct (truthy (PStr b)); [| sends_step].
    sends_step; [apply fetch_content_reads | sends_step]. }
  sends_step.
  { unfold try_default. destruct a as [tried content].
    destruct (is_none content); [| sends_step].
    sends_step; [apply get_repo_info_reads |].
    sends_step; [sends_step |].
    destruct (_ && _); [| sends_step].
    sends_step; [apply fetch_content_reads | sends_step]. }
  sends_step; [apply try_literals_reads |].
  destruct a1 as [tried content].
  sends_step.
  { destruct (is_none content); [apply raw_fallback_reads | sends_step]. }
  repeat sends_step.
Qed.

Lemma list_repo_files_reads : forall http gh owner repo,
  sends_only reads (list_repo_files http gh owner repo).
Proof.
  intros. unfold list_repo_files.
  sends_step; [apply get_repo_info_reads |].
  repeat sends_step.
Qed.

Lemma get_repos_loop_reads : forall http fuel gh page repos,
  sends_only reads (get_repos_loop http fuel gh page repos).
Proof.
  intros http fuel gh. induction fuel as [| fuel IH]; intros page repos; simpl.
  - apply sends_only_ret.
  - sends_step; [sends_step |].
    destruct (negb _); [sends_step |].
    sends_step; [sends_step |].
    destruct a0 as [| | | | items |]; try apply sends_only_ret.
    destruct (Nat.eqb _ 0); [sends_step |].
    destruct (Nat.ltb _ 100); [sends_step | apply IH].
Qed.

(** X10. The handlers that fetch and list send nothing but reads.  A run of
    [api_get_file], of [api_list_files] or of [api_repos] extends the log by
    [GET] requests only (contents, metadata, trees, pages, raw files): no
    write, no deletion and no creation, whatever the remote side answers. *)
Theorem read_handlers_only_read :
  forall http b64decode_utf8 fuel sess args,
    sends_only reads (api_get_file http b64decode_utf8 sess args)
    /\ sends_only reads (api_list_files http sess args)
    /\ sends_only reads (api_repos http fuel sess).
Proof.
  intros http b64 fuel sess args. split; [| split].
  - unfold api_get_file.
    destruct (owner_of sess args); [| sends_step].
    destruct (_ || _); [sends_step |].
    destruct (get_gh sess); [| sends_step].
    sends_step; [apply get_file_body_reads | sends_step].
  - unfold api_list_files.
    destruct (owner_of sess args); [| sends_step].
    destruct (_ || _); [sends_step |].
    sends_step; [| sends_step].
    sends_step; [| repeat sends_step].
    destruct (match pat sess with Some _ => get_gh sess | None => None end);
      [| sends_step].
    sends_step; [apply list_repo_files_reads | sends_step].
  - unfold api_repos.
    destruct (pat sess); [| sends_step].
    destruct (get_gh sess); [| sends_step].
    sends_step; [| sends_step].
    sends_step; [apply get_repos_loop_reads |].
    repeat sends_step.
Qed.

(** ** Creating a repository that is not there *)

Lemma upload_file_writes : forall http b64encode gh owner repo path c m,
  sends_only lookup_or_write
    (upload_file http b64encode gh owner repo path c m).
Proof. intros. unfold upload_file. repeat sends_step. Qed.

Lemma file_exists_looks_up : forall http gh owner repo path,
  sends_only lookup_or_write (file_exists http gh owner repo path).
Proof. intros. unfold file_exists. repeat sends_step. Qed.

Lemma provision_writes : forall http b64encode gh user name license_choice,
  sends_only lookup_or_write
    (try_except (provision http b64encode gh user name license_choice)
                (fun _ => ret tt)).
Proof.
  intros. unfold provision, ensure_readme, ensure_license, ensure_cicd.
  sends_step; [| sends_step].
  sends_step; [apply file_exists_looks_up |].
  sends_step; [destruct a; [sends_step | apply upload_file_writes] |].
  sends_step; [apply file_exists_looks_up |].
  sends_step; [destruct a1; [sends_step | apply upload_file_writes] |].
  sends_step; [apply file_exists_looks_up |].
  sends_step; [destruct a3; [sends_step | apply upload_file_writes] |].
  sends_step.
Qed.

Lemma swallowed : forall (m : M unit) l,
  fst (try_except m (fun _ => ret tt) l) = Ok tt.
Proof.
  intros m l. unfold try_except. destruct (m l) as [[[] | e] l1]; reflexivity.
Qed.

Section CreateMissing.
Variable http : remote.
Variable b64encode : string -> string.
Variable sess : session.
Variable data : dict.
Variables p name : string.
Hypothesis Hpat : pat sess = Some p.
Hypothesis Hp : p <> "".
Hypothesis Hname :
  py_strip (py_or (dict_get "name" data) (PStr "")) = Ok name.
Hypothesis Hname_given : name <> "".

Local Abbreviation gh := (mkGitHubAPI p).
Local Abbreviation user := (fmt (username sess)).
Local Abbreviation lookup := (repo_request gh user name).
Local Abbreviation creation := (creation_request p name data).

Variable l : log.
Variable r0 : response.
Hypothesis Hlookup : http l lookup = Ok r0.
Hypothesis H200 : status_code r0 <> 200%Z.
Hypothesis H201 : status_code r0 <> 201%Z.
Hypothesis Htext : text r0 <> "".

Lemma api_create_repo_missing_run :
  api_create_repo http b64encode sess data l
  = try_except
      (res <- create_repo http gh user name
                (py_or (dict_get "description" data)
                       (PStr "Repository created with GitSmart"))
                (py_or (py_or (dict_get "license" data)
                              (dict_get "repo-license" data)) (PStr "mit"))
                (truthy (dict_get_default "private" (PBool false) data)) ;;
       if negb (truthy res) || is_error res then
         ret (json_error
                (match res with
                 | PDict d => dict_get "error" d
                 | _ => PStr "Failed to create repo"
                 end) 400)
       else
         _ <- try_except
                (provision http b64encode gh user name
                   (py_or (py_or (dict_get "license" data)
                                 (dict_get "repo-license" data)) (PStr "mit")))
                (fun _ => ret tt) ;;
         ret (jsonify (_json_ok [("message", PStr (created_message name))])
                200))
      on_exception (l ++ [lookup]).
Proof.
  unfold api_create_repo. rewrite Hpat.
  unfold bind at 1. unfold lift at 1. rewrite Hname.
  assert (E := Hname_given). apply String.eqb_neq in E. rewrite E. clear E.
  rewrite (get_gh_some sess p Hpat Hp).
  unfold try_except at 1 3. unfold bind at 1.
  unfold try_except at 1. unfold get_repo_info, bind at 1, send at 1.
  fold lookup. rewrite Hlookup. unfold lift at 1, get_repo_info_of.
  assert (E1 := H200). assert (E2 := H201).
  apply Z.eqb_neq in E1, E2. rewrite E1, E2. cbn [orb].
  unfold bind at 1. cbn [truthy]. unfold bind at 1, lift at 1.
  cbn [py_get dict_get_default dict_lookup String.eqb Ascii.eqb Bool.eqb].
  unfold ret at 1. cbn [truthy].
  assert (E3 := Htext). apply String.eqb_neq in E3. rewrite E3. cbn [negb].
  reflexivity.
Qed.

(** X11. A creation GitHub refuses.  The repository is looked up under the
    session's user and is not there (the lookup is no 200 or 201); the one
    creation request carries the stripped name, the description or its
    default, and for [private] the truth value of the field as it was sent,
    so that any string that is not empty asks for a private repository.
    When GitHub refuses it with a message, the answer is the 400 with that
    message and nothing is sent after the creation request. *)
Theorem refused_creation_is_reported : forall r1 body msg,
  http (l ++ [lookup]) creation = Ok r1 ->
  status_code r1 <> 200%Z -> status_code r1 <> 201%Z ->
  json r1 = Some (PDict body) ->
  dict_get_default "message" (PStr (text r1)) body = msg ->
  truthy msg = true ->
  api_create_repo http b64encode sess data l
  = (Ok (json_error msg 400), l ++ [lookup; creation]).
Proof.
  intros r1 body msg Hq S200 S201 Hj Hmsg Ht.
  rewrite api_create_repo_missing_run.
  unfold try_except at 1. unfold bind at 1. unfold create_repo.
  unfold bind at 1. unfold send at 1. cbn [token].
  fold creation. rewrite Hq.
  apply Z.eqb_neq in S200, S201. rewrite S200, S201. cbn [orb].
  unfold bind, lift, r_json. rewrite Hj. cbn [py_get]. rewrite Hmsg.
  unfold ret.
  cbn [is_error truthy negb dict_get dict_get_default dict_lookup
       String.eqb Ascii.eqb Bool.eqb orb].
  rewrite Ht. rewrite <- app_assoc. reflexivity.
Qed.

Lemma provisioning_answer : forall res l1,
  truthy res = true -> is_error res = false ->
  exists ev,
    (if negb (truthy res) || is_error res then
       ret (json_error
              (match res with
               | PDict d => dict_get "error" d
               | _ => PStr "Failed to create repo"
               end) 400)
     else
       _ <- try_except
              (provision http b64encode gh user name
                 (py_or (py_or (dict_get "license" data)
                               (dict_get "repo-license" data)) (PStr "mit")))
              (fun _ => ret tt) ;;
       ret (jsonify (_json_ok [("message", PStr (created_message name))])
              200)) l1
    = (Ok (jsonify (_json_ok [("message", PStr (created_message name))]) 200),
       l1 ++ ev)
    /\ Forall lookup_or_write ev.
Proof.
  intros res l1 Ht He. rewrite Ht, He. cbn [negb orb]. unfold bind at 1.
  match goal with
  | |- context [try_except ?m ?h l1] =>
      destruct (provision_writes http b64encode gh user name
                  (py_or (py_or (dict_get "license" data)
                                (dict_get "repo-license" data)) (PStr "mit"))
                  l1) as [ev [Hev Hall]];
      pose proof (swallowed m l1) as Hok;
      destruct (try_except m h l1) as [o l2]
  end.
  simpl in Hev, Hok. subst o l2. exists ev. split; [| exact Hall].
  reflexivity.
Qed.

(** X12. A creation GitHub accepts is reported as a success whatever
    becomes of the files added afterwards.  After the lookup and the
    creation request, the handler sends only lookups and writes of
    contents, and it answers 200 [created successfully] whether these are
    answered, refused or raise. *)
Theorem created_whatever_provisioning_does : forall r1 res,
  http (l ++ [lookup]) creation = Ok r1 ->
  status_code r1 = 200%Z \/ status_code r1 = 201%Z ->
  json r1 = Some res -> truthy res = true -> is_error res = false ->
  exists ev,
    api_create_repo http b64encode sess data l
    = (Ok (jsonify (_json_ok [("message", PStr (created_message name))]) 200),
       l ++ lookup :: creation :: ev)
    /\ Forall lookup_or_write ev.
Proof.
  intros r1 res Hq Hst Hj Ht He.
  rewrite api_create_repo_missing_run.
  unfold try_except at 1. unfold bind at 1. unfold create_repo.
  unfold bind at 1. unfold send at 1. cbn [token].
  fold creation. rewrite Hq.
  assert (E : Z.eqb (status_code r1) 200 || Z.eqb (status_code r1) 201 = true).
  { destruct Hst as [-> | ->]; reflexivity. }
  rewrite E. unfold lift at 1, r_json. rewrite Hj.
  destruct (provisioning_answer res ((l ++ [lookup]) ++ [creation]) Ht He)
    as [ev [Hrun Hall]].
  rewrite Hrun. exists ev. split; [| exact Hall].
  now rewrite <- !app_assoc.
Qed.

(** X13. A refusal without a message passes for a creation.  When GitHub
    refuses the creation with a JSON object whose message is empty (or
    null, or missing next to an empty body), the error entry the client
    makes of it is not taken for an error: the handler goes on to add the
    files and answers 200 [created successfully]. *)
Theorem refusal_without_message_passes_for_created : forall r1 body,
  http (l ++ [lookup]) creation = Ok r1 ->
  status_code r1 <> 200%Z -> status_code r1 <> 201%Z ->
  json r1 = Some (PDict body) ->
  truthy (dict_get_default "message" (PStr (text r1)) body) = false ->
  exists ev,
    api_create_repo http b64encode sess data l
    = (Ok (jsonify (_json_ok [("message", PStr (created_message name))]) 200),
       l ++ lookup :: creation :: ev)
    /\ Forall lookup_or_write ev.
Proof.
  intros r1 body Hq S200 S201 Hj Ht.
  rewrite api_create_repo_missing_run.
  unfold try_except at 1. unfold bind at 1. unfold create_repo.
  unfold bind at 1. unfold send at 1. cbn [token].
  fold creation. rewrite Hq.
  apply Z.eqb_neq in S200, S201. rewrite S200, S201. cbn [orb].
  unfold bind at 1. unfold lift at 1, r_json. rewrite Hj.
  unfold bind at 1. unfold lift at 1. cbn [py_get]. unfold ret at 1.
  destruct (provisioning_answer
              (PDict [("error",
                       dict_get_default "message" (PStr (text r1)) body)])
              ((l ++ [lookup]) ++ [creation]) eq_refl)
    as [ev [Hrun Hall]].
  { cbn [is_error dict_get dict_get_default dict_lookup String.eqb Ascii.eqb
         Bool.eqb]. exact Ht. }
  rewrite Hrun. exists ev. split; [| exact Hall].
  now rewrite <- !app_assoc.
Qed.

End CreateMissing.

Lemma refused_creation_is_reported_witness :
  api_create_repo remote_refuses_creation plain alice
    [("name", PStr "widgets"); ("private", PStr "false")] []
  = (Ok (json_error (PStr "name already exists on this account") 400),
     [] ++ [repo_request acme "alice" "widgets";
            Api "ghp_token"
              (PostUserRepos "widgets"
                 (PStr "Repository created with GitSmart") true)]).
Proof.
  assert (Hp : "ghp_token" <> "") by discriminate.
  assert (Hname : "widgets" <> "") by discriminate.
  assert (H200 : status_code not_found_answer <> 200%Z) by discriminate.
  assert (H201 : status_code not_found_answer <> 201%Z) by discriminate.
  assert (Htext : text not_found_answer <> "") by discriminate.
  apply (refused_creation_is_reported remote_refuses_creation plain alice
           [("name", PStr "widgets"); ("private", PStr "false")]
           "ghp_token" "widgets" eq_refl Hp eq_refl Hname []
           not_found_answer eq_refl H200 H201 Htext
           (mkResponse 422 "{message: name already exists on this account}"
              (Some (PDict [("message",
                             PStr "name already exists on this account")])))
           [("message", PStr "name already exists on this account")]);
    try reflexivity; discriminate.
Defined.

Lemma created_whatever_provisioning_does_witness :
  exists ev,
    api_create_repo remote_creates_only plain alice
      [("name", PStr "widgets")] []
    = (Ok (jsonify
             (_json_ok [("message", PStr (created_message "widgets"))]) 200),
       [] ++ repo_request acme "alice" "widgets"
          :: creation_request "ghp_token" "widgets" [("name", PStr "widgets")]
          :: ev)
    /\ Forall lookup_or_write ev.
Proof.
  assert (Hp : "ghp_token" <> "") by discriminate.
  assert (Hname : "widgets" <> "") by discriminate.
  assert (H200 : status_code not_found_answer <> 200%Z) by discriminate.
  assert (H201 : status_code not_found_answer <> 201%Z) by discriminate.
  assert (Htext : text not_found_answer <> "") by discriminate.
  apply (created_whatever_provisioning_does remote_creates_only plain alice
           [("name", PStr "widgets")]
           "ghp_token" "widgets" eq_refl Hp eq_refl Hname []
           not_found_answer eq_refl H200 H201 Htext
           (mkResponse 201 "{name: ...}"
              (Some (PDict [("name", PStr "widgets")])))
           (PDict [("name", PStr "widgets")]));
    try reflexivity. now right.
Defined.

Lemma refusal_without_message_passes_for_created_witness :
  exists ev,
    api_create_repo remote_refuses_silently plain alice
      [("name", PStr "widgets")] []
    = (Ok (jsonify
             (_json_ok [("message", PStr (created_message "widgets"))]) 200),
       [] ++ repo_request acme "alice" "widgets"
          :: creation_request "ghp_token" "widgets" [("name", PStr "widgets")]
          :: ev)
    /\ Forall lookup_or_write ev.
Proof.
  assert (Hp : "ghp_token" <> "") by discriminate.
  assert (Hname : "widgets" <> "") by discriminate.
  assert (H200 : status_code not_found_answer <> 200%Z) by discriminate.
  assert (H201 : status_code not_found_answer <> 201%Z) by discriminate.
  assert (Htext : text not_found_answer <> "") by discriminate.
  apply (refusal_without_message_passes_for_created remote_refuses_silently
           plain alice [("name", PStr "widgets")]
           "ghp_token" "widgets" eq_refl Hp eq_refl Hname []
           not_found_answer eq_refl H200 H201 Htext
           (mkResponse 403 "" (Some (PDict [("message", PStr "")])))
           [("message", PStr "")]);
    try reflexivity; discriminate.
Defined.

(** ** The upload list *)

(** X14. The upload list when every archive of the request can be read.
    Each file named [.zip] is replaced, in its place, by the members of the
    archive under the names they have in it, which [secure_filename] never
    sees; every other file is listed under its secured name, whatever its
    extension; the order of the request is kept. *)
Theorem upload_list_of_request :
  forall secure_filename zip_members files upload_list,
  (forall f, In f files -> named_zip secure_filename f = true ->
             exists members, zip_members (snd f) = Ok members) ->
  build_upload_list secure_filename zip_members files upload_list
  = Ok (upload_list ++ flat_map (listed secure_filename zip_members) files).
Proof.
  intros secure_filename zip_members files.
  induction files as [| [fname data] files IH]; intros upload_list H.
  - simpl. now rewrite app_nil_r.
  - cbn [build_upload_list flat_map]. unfold listed at 1.
    unfold named_zip in *. cbn [fst snd].
    destruct (endswith (lower (secure_filename fname)) ".zip") eqn:Ez.
    + destruct (H (fname, data) (or_introl eq_refl) Ez) as [members Hm].
      cbn [snd] in Hm. unfold extract_zip. rewrite Hm.
      destruct members as [| m ms].
      * rewrite IH by (intros f Hf; apply H; now right).
        now rewrite app_nil_r.
      * rewrite IH by (intros f Hf; apply H; now right).
        now rewrite <- app_assoc.
    + rewrite IH by (intros f Hf; apply H; now right).
      now rewrite <- app_assoc.
Qed.

Lemma upload_list_of_request_witness :
  build_upload_list plain read_one_zip
    [("a.exe", "A"); ("Site.ZIP", "PK-site"); ("notes", "B")] []
  = Ok ([] ++ flat_map (listed plain read_one_zip)
                [("a.exe", "A"); ("Site.ZIP", "PK-site"); ("notes", "B")]).
Proof.
  apply (upload_list_of_request plain read_one_zip
           [("a.exe", "A"); ("Site.ZIP", "PK-site"); ("notes", "B")] []).
  intros f [<- | [<- | [<- | []]]] Hz; try discriminate.
  eexists. reflexivity.
Defined.

Lemma build_upload_list_bad_zip :
  forall secure_filename zip_members files upload_list f e,
  In f files -> named_zip secure_filename f = true ->
  zip_members (snd f) = Raise e ->
  exists e', build_upload_list secure_filename zip_members files upload_list
             = Raise e'.
Proof.
  intros secure_filename zip_members files.
  induction files as [| [fname data] files IH];
    intros upload_list f e Hin Hz He; [contradiction |].
  cbn [build_upload_list]. unfold extract_zip.
  destruct Hin as [<- | Hin].
  - unfold named_zip in Hz. cbn [fst snd] in Hz, He. rewrite Hz, He.
    now exists e.
  - destruct (endswith _ ".zip").
    + destruct (zip_members data) as [[| m ms] | e0].
      * eapply IH; eassumption.
      * eapply IH; eassumption.
      * now exists e0.
    + eapply IH; eassumption.
Qed.

(** X15. One archive that cannot be read fails the whole upload.  On a
    session with a token and a repository name, a request that holds a file
    named [.zip] which [zipfile] cannot open is answered with the 500, and
    nothing is sent: the files listed before the archive are not uploaded
    either. *)
Theorem unreadable_archive_fails_the_upload :
  forall http b64encode secure_filename zip_members sess form files p f e l,
  pat sess = Some p -> p <> "" ->
  strip (match opt_or (opt_or (args_get "repo" form)
                         (args_get "upload-repo" form)) (Some "")
         with Some s => s | None => "" end) <> "" ->
  In f files -> named_zip secure_filename f = true ->
  zip_members (snd f) = Raise e ->
  exists e',
    api_upload_files http b64encode secure_filename zip_members sess form
      files l
    = (Ok (json_error (PStr e') 500), l).
Proof.
  intros http b64encode secure_filename zip_members sess form files p f e l
    Hpat Hp Hrepo Hin Hz He.
  destruct (build_upload_list_bad_zip secure_filename zip_members files []
              f e Hin Hz He) as [e' Hraise].
  exists e'. unfold api_upload_files. rewrite Hpat.
  apply String.eqb_neq in Hrepo. rewrite Hrepo.
  rewrite (get_gh_some sess p Hpat Hp).
  destruct files as [| f0 files]; [contradiction |].
  unfold try_except, bind, lift. rewrite Hraise. reflexivity.
Qed.

Lemma unreadable_archive_fails_the_upload_witness :
  exists e',
    api_upload_files remote_nothing plain plain read_one_zip alice
      [("repo", "widgets")] [("a.txt", "A"); ("broken.zip", "oops")] []
    = (Ok (json_error (PStr e') 500), []).
Proof.
  assert (Hp : "ghp_token" <> "") by discriminate.
  assert (Hrepo : strip (match opt_or (opt_or (args_get "repo"
                                                 [("repo", "widgets")])
                                         (args_get "upload-repo"
                                            [("repo", "widgets")]))
                                 (Some "")
                         with Some s => s | None => "" end) <> "")
    by discriminate.
  apply (unreadable_archive_fails_the_upload remote_nothing plain plain
           read_one_zip alice [("repo", "widgets")]
           [("a.txt", "A"); ("broken.zip", "oops")] "ghp_token"
           ("broken.zip", "oops") "BadZipFile: File is not a zip file" []
           eq_refl Hp Hrepo).
  - right. now left.
  - reflexivity.
  - reflexivity.
Defined.

(** ** Logging in *)

Section Login.
Variable xhttp : xremote.


End Login.

(** The token GitHub knows logs in; another one does not. *)
Example login_run :
  login xremote_knows_alice "POST" [("pat", " ghp_token ")] []
  = (Ok (RedirectTo "/dashboard",
         [("pat", PStr "ghp_token"); ("username", PStr "alice")]),
     [GetUser "ghp_token"])
  /\ login xremote_knows_alice "POST" [("pat", "ghp_other")] []
     = (Ok (Render "login.html"
              [("error", PStr "Invalid PAT or missing repo scopes")], []),
        [GetUser "ghp_other"])
  /\ login xremote_knows_alice "POST" [("pat", "   ")] []
     = (Ok (Render "login.html" [("error", PStr "Enter your GitHub PAT")],
            []), []).
Proof. repeat split. Qed.

(** ** Deleting a repository *)

Section DeleteRepository.
Variable xhttp : xremote.
Variable sess : session.
Variable data : dict.
Variables p repo : string.
Hypothesis Hpat : pat sess = Some p.
Hypothesis Hp : p <> "".
Hypothesis Hrepo :
  py_strip (py_or (dict_get "repo" data) (PStr "")) = Ok repo.
Hypothesis Hrepo_given : repo <> "".

Local Abbreviation deletion := (DeleteRepo p (fmt (username sess)) repo).

(** X17. [api_delete_repo] on a session with a token and a repository
    name sends one request: the deletion of that repository under the user
    of the session, whatever else the form holds.  A 204 is answered with
    the 200 and its message; any other status with the 400 and GitHub's
    message, or the body text when the body is no JSON object, unless that
    message is empty, in which case the answer is the 200 of a deletion
    that was done; and an exception of the transport with the 500. *)
Theorem api_delete_repo_outcomes : forall xl,
  snd (api_delete_repo xhttp sess data xl) = xl ++ [deletion]
  /\ (forall r, xhttp xl deletion = Ok r -> status_code r = 204%Z ->
        fst (api_delete_repo xhttp sess data xl)
        = Ok (jsonify
                (_json_ok [("message", PStr (repo_deleted_message repo))])
                200))
  /\ (forall r msg,
        xhttp xl deletion = Ok r -> status_code r <> 204%Z ->
        msg = match json r with
              | Some (PDict body) =>
                  dict_get_default "message" (PStr (text r)) body
              | _ => PStr (text r)
              end ->
        fst (api_delete_repo xhttp sess data xl)
        = Ok (if truthy msg then json_error msg 400
              else jsonify
                     (_json_ok
                        [("message", PStr (repo_deleted_message repo))])
                     200))
  /\ (forall e, xhttp xl deletion = Raise e ->
        fst (api_delete_repo xhttp sess data xl)
        = Ok (json_error (PStr e) 500)).
Proof.
  intros xl.
  assert (Hrun : api_delete_repo xhttp sess data xl
                 = (match xhttp xl deletion with
                    | Ok r =>
                        let msg := match json r with
                                   | Some (PDict body) =>
                                       dict_get_default "message"
                                         (PStr (text r)) body
                                   | _ => PStr (text r)
                                   end in
                        if Z.eqb (status_code r) 204 || negb (truthy msg)
                        then
                          Ok (jsonify
                                (_json_ok
                                   [("message",
                                     PStr (repo_deleted_message repo))]) 200)
                        else Ok (json_error msg 400)
                    | Raise e => Ok (json_error (PStr e) 500)
                    end, xl ++ [deletion])).
  { unfold api_delete_repo. rewrite Hpat.
    unfold xbind at 1. unfold xlift at 1. rewrite Hrepo.
    apply String.eqb_neq in Hrepo_given. rewrite Hrepo_given.
    rewrite (get_gh_some sess p Hpat Hp).
    unfold xtry at 1. unfold xbind at 1. unfold delete_repo.
    unfold xbind at 1. unfold xsend. cbn [token].
    destruct (xhttp xl deletion) as [r | e]; [| reflexivity].
    destruct (Z.eqb (status_code r) 204); [reflexivity |].
    unfold xtry, xbind, xlift, xret, r_json. cbn [orb].
    destruct (json r) as [[| | | | | body] |];
      cbn [py_get is_error error_of dict_get dict_get_default dict_lookup
           String.eqb Ascii.eqb Bool.eqb];
      now destruct (truthy _). }
  rewrite Hrun. clear Hrun. cbn [fst snd].
  split; [reflexivity |]. split; [| split].
  - intros r -> Hst. now rewrite Hst.
  - intros r msg -> Hst ->. apply Z.eqb_neq in Hst.
    cbv zeta. rewrite Hst. cbn [orb]. now destruct (truthy _).
  - intros e ->. reflexivity.
Qed.

End DeleteRepository.

Lemma api_delete_repo_outcomes_witness :
  snd (api_delete_repo xremote_deletes alice
         [("repo", PStr "widgets"); ("owner", PStr "bob")] [])
  = [] ++ [DeleteRepo "ghp_token" "alice" "widgets"]
  /\ fst (api_delete_repo xremote_deletes alice
            [("repo", PStr "widgets"); ("owner", PStr "bob")] [])
     = Ok (jsonify
             (_json_ok [("message", PStr (repo_deleted_message "widgets"))])
             200).
Proof.
  assert (Hp : "ghp_token" <> "") by discriminate.
  assert (Hrepo : "widgets" <> "") by discriminate.
  destruct (api_delete_repo_outcomes xremote_deletes alice
              [("repo", PStr "widgets"); ("owner", PStr "bob")]
              "ghp_token" "widgets" eq_refl Hp eq_refl Hrepo [])
    as [Hlog [Hok _]].
  split; [exact Hlog |].
  apply (Hok (mkResponse 204 "" None)); reflexivity.
Defined.

(** ** Running a file *)

Lemma github_send : forall xhttp q xl,
  github xhttp (fun http => send http q) xl = xsend xhttp (GitHub q) xl.
Proof.
  intros. unfold github, github_remote, send, xsend. simpl.
  now rewrite app_nil_r.
Qed.

Lemma github_get_file_text : forall xhttp b64 gh owner repo path xl,
  github xhttp
    (fun http => get_file_text http b64 gh owner repo path PNone) xl
  = (match xhttp xl (run_fetch gh owner repo path) with
     | Ok r => get_file_text_of b64 r
     | Raise e => Raise e
     end, xl ++ [run_fetch gh owner repo path]).
Proof.
  intros. unfold github, github_remote, get_file_text, bind, send, lift,
    run_fetch.
  simpl. rewrite app_nil_r.
  destruct (xhttp xl _); reflexivity.
Qed.

Section Run.
Variable xhttp : xremote.
Variable b64decode_utf8 : string -> option string.

Lemma run_on_step : forall e rest lang path ft stdin xl,
  run_on xhttp (e :: rest) lang path ft stdin xl
  = match endpoint_answer lang path
            (xhttp xl (execute_request lang path ft stdin e)) with
    | Some resp => (Ok resp, xl ++ [execute_request lang path ft stdin e])
    | None =>
        run_on xhttp rest lang path ft stdin
          (xl ++ [execute_request lang path ft stdin e])
    end.
Proof.
  intros. cbn [run_on]. unfold xbind at 1. unfold xtry, xbind, xsend.
  fold (execute_request lang path ft stdin e). unfold endpoint_answer.
  destruct (xhttp xl _) as [r | err]; [| reflexivity].
  destruct (Z.eqb (status_code r) 200); [| reflexivity].
  unfold xlift. destruct (run_answer r lang path); reflexivity.
Qed.

Lemma run_on_trace : forall endpoints lang path ft stdin xl,
  exists k resp,
    run_on xhttp endpoints lang path ft stdin xl
    = (Ok resp,
       xl ++ map (execute_request lang path ft stdin) (firstn k endpoints)).
Proof.
  intros endpoints lang path ft stdin.
  induction endpoints as [| e rest IH]; intros xl.
  - exists 0, (json_error (PStr "Execution service failed") 502).
    simpl. now rewrite app_nil_r.
  - rewrite run_on_step. destruct (endpoint_answer _ _ _) as [resp |].
    + exists 1, resp. reflexivity.
    + destruct (IH (xl ++ [execute_request lang path ft stdin e]))
        as [k [resp Hk]].
      exists (S k), resp. rewrite Hk. now rewrite <- app_assoc.
Qed.

(** X18. The loop of [api_run] over the endpoints.  The endpoints are
    asked in the order of the list, each at most once, with the same
    request; an endpoint that raises, answers with another status than 200,
    or sends a 200 that cannot be read, lets the loop go on.  So after
    endpoints [pre] that all fail, the loop answers 502 when none is left,
    and otherwise turns to the next one, whose readable 200 is the
    answer. *)
Theorem execution_falls_through : forall pre rest lang path ft stdin xl,
  (forall l e, In e pre ->
     endpoint_answer lang path (xhttp l (execute_request lang path ft stdin e))
     = None) ->
  run_on xhttp (pre ++ rest) lang path ft stdin xl
  = match rest with
    | [] =>
        (Ok (json_error (PStr "Execution service failed") 502),
         xl ++ map (execute_request lang path ft stdin) pre)
    | e :: post =>
        let sent := xl ++ map (execute_request lang path ft stdin) pre in
        match endpoint_answer lang path
                (xhttp sent (execute_request lang path ft stdin e)) with
        | Some resp =>
            (Ok resp, sent ++ [execute_request lang path ft stdin e])
        | None =>
            run_on xhttp post lang path ft stdin
              (sent ++ [execute_request lang path ft stdin e])
        end
    end.
Proof.
  intros pre rest lang path ft stdin.
  induction pre as [| e0 pre IH]; intros xl Hfail.
  - cbn [app map]. rewrite app_nil_r. destruct rest as [| e post].
    + reflexivity.
    + apply run_on_step.
  - cbn [app]. rewrite run_on_step.
    rewrite (Hfail xl e0 (or_introl eq_refl)).
    rewrite IH by (intros l e He; apply Hfail; now right).
    cbn [map]. destruct rest as [| e post].
    + now rewrite <- app_assoc.
    + cbv zeta. now rewrite <- !app_assoc.
Qed.


(** X20. A page is shown, not run.  With the fields given and the file
    fetched, a path that ends in [.html] or [.css], in any case of the
    letters, is answered with the 200 that carries the text as a preview,
    and one that ends in [.jsx] or [.tsx] with a 400; in both cases the
    fetch is the only request, whatever language the request names. *)
Theorem pages_are_previewed :
  forall sess owner o gh repo path stdin language xl r c,
  opt_or owner (username sess) = Some o -> get_gh sess = Some gh ->
  o <> "" -> repo <> "" -> path <> "" ->
  xhttp xl (run_fetch gh o repo path) = Ok r ->
  get_file_text_of b64decode_utf8 r = Ok c ->
  is_error c = false -> c <> PNone ->
  (previewed path = true ->
   api_run xhttp b64decode_utf8 sess owner repo path stdin language xl
   = (Ok (jsonify (_json_ok [("preview", PBool true); ("content", c);
                             ("path", PStr path)]) 200),
      xl ++ [run_fetch gh o repo path]))
  /\ (previewed path = false -> needs_build path = true ->
      api_run xhttp b64decode_utf8 sess owner repo path stdin language xl
      = (Ok (json_error (PStr jsx_refusal) 400),
         xl ++ [run_fetch gh o repo path])).
Proof.
  intros sess owner o gh repo path stdin language xl r c
    Ho Hgh Hone Hrepo Hpath Hq Hc He Hn.
  assert (Hrun :
    api_run xhttp b64decode_utf8 sess owner repo path stdin language xl
    = (if previewed path then
         xret (jsonify (_json_ok [("preview", PBool true); ("content", c);
                                  ("path", PStr path)]) 200)
       else if needs_build path then
         xret (json_error (PStr jsx_refusal) 400)
       else
         if negb (truthy (run_language language path)) then
           xret (json_error (PStr "Could not detect language") 400)
         else run_on xhttp PISTON_ENDPOINTS (run_language language path) path
                c stdin) (xl ++ [run_fetch gh o repo path])).
  { unfold api_run. rewrite Ho, Hgh.
    apply String.eqb_neq in Hone, Hrepo, Hpath.
    rewrite Hone, Hrepo, Hpath. cbn [orb].
    unfold xtry at 1. unfold xbind at 1. rewrite github_get_file_text.
    rewrite Hq, Hc, He.
    assert (En : is_none c = false)
      by (destruct c; try reflexivity; now contradiction Hn).
    rewrite En. fold (previewed path). fold (needs_build path).
    fold (run_language language path).
    destruct (previewed path); [reflexivity |].
    destruct (needs_build path); [reflexivity |].
    destruct (negb _); [reflexivity |].
    destruct (run_on_trace PISTON_ENDPOINTS (run_language language path) path
                c stdin (xl ++ [run_fetch gh o repo path])) as [k [resp Hk]].
    now rewrite Hk. }
  rewrite Hrun. split.
  - intros ->. reflexivity.
  - intros -> ->. reflexivity.
Qed.

End Run.

Lemma execution_falls_through_witness :
  run_on xremote_second_endpoint
    (["https://emkc.org/api/v2/piston/execute"]
     ++ ["https://piston.rs/execute"])
    (PStr "python") "src/app.py" (PStr "print(1)") PNone []
  = (Ok (jsonify
           (_json_ok [("stdout", PStr "1"); ("stderr", PStr "");
                      ("exit_code", PInt 0); ("language", PStr "python");
                      ("file", PStr "src/app.py")]) 200),
     [PostExecute "https://emkc.org/api/v2/piston/execute" (PStr "python")
        "app.py" (PStr "print(1)") (PStr "");
      PostExecute "https://piston.rs/execute" (PStr "python")
        "app.py" (PStr "print(1)") (PStr "")]).
Proof.
  rewrite (execution_falls_through xremote_second_endpoint
             ["https://emkc.org/api/v2/piston/execute"]
             ["https://piston.rs/execute"]
             (PStr "python") "src/app.py" (PStr "print(1)") PNone []).
  - reflexivity.
  - intros l e [<- | []]. reflexivity.
Defined.

Lemma pages_are_previewed_witness :
  api_run xremote_pages decode_hello alice None "widgets" "docs/Index.HTML"
    PNone (PStr "python") []
  = (Ok (jsonify (_json_ok [("preview", PBool true);
                            ("content", PStr "<p>hi</p>");
                            ("path", PStr "docs/Index.HTML")]) 200),
     [] ++ [run_fetch acme "alice" "widgets" "docs/Index.HTML"]).
Proof.
  assert (Ho : "alice" <> "") by discriminate.
  assert (Hrepo : "widgets" <> "") by discriminate.
  assert (Hpath : "docs/Index.HTML" <> "") by discriminate.
  assert (Hc : PStr "<p>hi</p>" <> PNone) by discriminate.
  apply (proj1 (pages_are_previewed xremote_pages decode_hello alice None
                  "alice" acme "widgets" "docs/Index.HTML" PNone
                  (PStr "python") []
                  (json_answer (PDict [("content", PStr "<p>hi</p>")]))
                  (PStr "<p>hi</p>")
                  eq_refl eq_refl Ho Hrepo Hpath eq_refl eq_refl eq_refl Hc)).
  reflexivity.
Defined.

(** A Python file is run on the second endpoint when the first is down. *)
Example api_run_example :
  api_run xremote_second_endpoint decode_hello alice None "widgets"
    "src/app.py" PNone PNone []
  = (Ok (jsonify
           (_json_ok [("stdout", PStr "1"); ("stderr", PStr "");
                      ("exit_code", PInt 0); ("language", PStr "python");
                      ("file", PStr "src/app.py")]) 200),
     [run_fetch acme "alice" "widgets" "src/app.py";
      PostExecute "https://emkc.org/api/v2/piston/execute" (PStr "python")
        "app.py" (PStr "print(1)") (PStr "");
      PostExecute "https://piston.rs/execute" (PStr "python")
        "app.py" (PStr "print(1)") (PStr "")]).
Proof. reflexivity. Qed.

(** ** Downloading an archive *)

Section Download.
Variable xhttp : xremote.

Lemma find_archive_step : forall owner repo b bs xl,
  find_archive xhttp owner repo (b :: bs) xl
  = if archive_found (xhttp xl (HeadArchive owner repo b))
    then (Ok (RedirectTo (archive_url owner repo b)),
          xl ++ [HeadArchive owner repo b])
    else find_archive xhttp owner repo bs (xl ++ [HeadArchive owner repo b]).
Proof.
  intros. cbn [find_archive]. unfold xbind at 1. unfold xtry, xbind, xsend.
  unfold archive_found.
  destruct (xhttp xl _) as [head | e]; [| reflexivity].
  unfold xret. destruct (Z.eqb (status_code head) 200); reflexivity.
Qed.

Lemma find_archive_trace : forall owner repo bs xl,
  exists resp k,
    find_archive xhttp owner repo bs xl
    = (Ok resp, xl ++ map (HeadArchive owner repo) (firstn k bs))
    /\ ((k = List.length bs
         /\ resp = Json (json_error (PStr "Could not find branch zip") 404))
        \/ exists b,
             nth_error bs (k - 1) = Some b /\ 1 <= k
             /\ resp = RedirectTo (archive_url owner repo b)
             /\ archive_found
                  (xhttp (xl ++ map (HeadArchive owner repo)
                                  (firstn (k - 1) bs))
                     (HeadArchive owner repo b)) = true).
Proof.
  intros owner repo bs. induction bs as [| b bs IH]; intros xl.
  - eexists _, 0. split; [simpl; unfold xret; now rewrite app_nil_r |].
    left. split; reflexivity.
  - rewrite find_archive_step.
    destruct (archive_found (xhttp xl (HeadArchive owner repo b))) eqn:Hb.
    + eexists _, 1. split; [reflexivity |]. right. exists b.
      split; [reflexivity |]. split; [lia |]. split; [reflexivity |].
      simpl. now rewrite app_nil_r.
    + destruct (IH (xl ++ [HeadArchive owner repo b])) as [resp [k [Hk Hc]]].
      exists resp, (S k). split.
      { rewrite Hk. cbn [firstn map]. now rewrite <- app_assoc. }
      destruct Hc as [[-> ->] | [b' [Hn [Hk1 [-> Hf]]]]].
      * left. split; reflexivity.
      * right. exists b'. split; [| split; [lia |]].
        { destruct k as [| k]; [lia |]. simpl in Hn |- *.
          now rewrite Nat.sub_0_r in Hn. }
        split; [reflexivity |].
        destruct k as [| k]; [lia |].
        replace (S (S k) - 1) with (S k) by lia.
        replace (S k - 1) with k in Hf by lia.
        cbn [firstn map]. rewrite <- app_assoc in Hf. exact Hf.
Qed.


End Download.

(** Without a session, the branch [main] is asked for twice before
    [master] is found. *)
Example api_download_run :
  api_download xremote_master_archive anonymous "acme" "widgets" [] []
  = (Ok (RedirectTo
           "https://github.com/acme/widgets/archive/refs/heads/master.zip"),
     [HeadArchive "acme" "widgets" "main";
      HeadArchive "acme" "widgets" "main";
      HeadArchive "acme" "widgets" "master"]).
Proof. reflexivity. Qed.

(** ** Envelopes and status codes of the other handlers *)

Lemma ok_with_weaken : forall A (P Q : A -> Prop) (m : M A),
  (forall a, P a -> Q a) -> ok_with P m -> ok_with Q m.
Proof.
  intros A P Q m H Hm l. specialize (Hm l).
  destruct (fst (m l)); [now apply H | exact I].
Qed.

Lemma xok_with_weaken : forall A (P Q : A -> Prop) (m : XM A),
  (forall a, P a -> Q a) -> xok_with P m -> xok_with Q m.
Proof.
  intros A P Q m H Hm l. specialize (Hm l).
  destruct (fst (m l)); [now apply H | exact I].
Qed.

Lemma xok_with_ret : forall A (P : A -> Prop) a, P a -> xok_with P (xret a).
Proof. intros A P a H l. exact H. Qed.

Lemma xok_with_bind : forall A B (P : B -> Prop) (m : XM A) (f : A -> XM B),
  (forall a, xok_with P (f a)) -> xok_with P (xbind m f).
Proof.
  intros A B P m f H l. unfold xbind.
  destruct (m l) as [[a | e] l1]; [apply H | exact I].
Qed.

Lemma xok_with_try : forall A (P : A -> Prop) (m : XM A) (h : string -> XM A),
  xok_with P m -> (forall e, xok_with P (h e)) -> xok_with P (xtry m h).
Proof.
  intros A P m h Hm Hh l. unfold xtry. specialize (Hm l).
  destruct (m l) as [[a | e] l1]; [exact Hm | apply Hh].
Qed.

Lemma xguarded_answers : forall (P : http_response -> Prop) m l,
  xok_with P m -> (forall e, P (json_error (PStr e) 500)) ->
  exists resp, fst (xtry m x_on_exception l) = Ok resp /\ P resp.
Proof.
  intros P m l Hm He. unfold xtry, x_on_exception. specialize (Hm l).
  destruct (m l) as [[a | e] l1]; simpl in *.
  - now exists a.
  - eexists. split; [reflexivity | apply He].
Qed.

Ltac xok_step :=
  lazymatch goal with
  | |- xok_with _ (xret _) => apply xok_with_ret; try leaf
  | |- xok_with _ (xbind _ _) => apply xok_with_bind; intros
  | |- xok_with _ (xtry _ _) => apply xok_with_try; [| intros]
  | |- xok_with _ (x_on_exception _) => apply xok_with_ret; try leaf
  | |- xok_with _ (if ?b then _ else _) => destruct b
  | |- xok_with _ (match ?x with _ => _ end) => destruct x
  end.

Lemma run_answer_envelope : forall r language path resp,
  run_answer r language path = Ok resp -> envelope resp /\ snd resp = 200%Z.
Proof.
  intros r language path resp H. unfold run_answer in H.
  destruct (r_json r) as [j | e]; [| discriminate].
  destruct (py_get j "run" (PDict [])) as [run0 | e]; [| discriminate].
  destruct (py_or run0 j) as [| | | | | run]; try discriminate.
  injection H as <-. split; [apply envelope_ok | reflexivity].
Qed.

Lemma run_on_answers : forall xhttp endpoints language path file_text stdin,
  xok_with (answer_in [200; 502]%Z)
    (run_on xhttp endpoints language path file_text stdin).
Proof.
  intros xhttp endpoints language path file_text stdin.
  induction endpoints as [| e rest IH]; intros xl.
  - simpl. leaf.
  - rewrite run_on_step.
    destruct (endpoint_answer _ _ _) as [resp |] eqn:Ha; [| apply IH].
    unfold endpoint_answer in Ha.
    destruct (xhttp xl _) as [r | err]; [| discriminate].
    destruct (Z.eqb (status_code r) 200); [| discriminate].
    destruct (run_answer r language path) as [a | err] eqn:Hr;
      [| discriminate].
    injection Ha as <-. destruct (run_answer_envelope _ _ _ _ Hr) as [He Hs].
    simpl. split; [exact He |]. rewrite Hs. simpl. tauto.
Qed.

Lemma api_run_answers :
  forall xhttp b64decode_utf8 sess owner repo path stdin language xl,
  exists resp,
    fst (api_run xhttp b64decode_utf8 sess owner repo path stdin language xl)
    = Ok resp
    /\ answer_in [200; 400; 404; 500; 502]%Z resp.
Proof.
  intros. unfold api_run.
  destruct (opt_or owner (username sess)) as [o |];
    [| eexists; split; [reflexivity | leaf]].
  destruct (_ || _); [eexists; split; [reflexivity | leaf] |].
  destruct (get_gh sess) as [gh |]; [| eexists; split; [reflexivity | leaf]].
  apply xguarded_answers; [| intros; leaf].
  xok_step. repeat (xok_step; try leaf).
  apply (xok_with_weaken _ (answer_in [200; 502]%Z));
    [| apply run_on_answers].
  intros resp [He Hin]. split; [exact He |]. simpl in *. tauto.
Qed.

Lemma api_public_repos_answers : forall xhttp py_int args,
  xok_with (answer_in [200; 500]%Z) (api_public_repos xhttp py_int args).
Proof.
  intros. unfold api_public_repos. repeat xok_step.
Qed.

Lemma find_archive_answers : forall xhttp owner repo bs,
  xok_with (json_answer_in [404; 500]%Z) (find_archive xhttp owner repo bs).
Proof.
  intros xhttp owner repo bs. induction bs as [| b bs IH]; intros xl.
  - simpl. leaf.
  - rewrite find_archive_step. destruct (archive_found _); [exact I | apply IH].
Qed.

Lemma api_download_answers : forall xhttp sess owner repo args xl,
  exists resp,
    fst (api_download xhttp sess owner repo args xl) = Ok resp
    /\ json_answer_in [404; 500]%Z resp.
Proof.
  intros. unfold api_download, xtry.
  match goal with
  | |- context [xbind ?m ?f xl] =>
      assert (H : xok_with (json_answer_in [404; 500]%Z) (xbind m f))
  end.
  { xok_step. destruct a as [d |]; [| apply find_archive_answers].
    destruct (String.eqb d ""); [apply find_archive_answers |].
    apply xok_with_ret. exact I. }
  specialize (H xl).
  match goal with
  | |- context [xbind ?m ?f xl] => destruct (xbind m f xl) as [[a | e] l1]
  end.
  - exists a. split; [reflexivity | exact H].
  - eexists. split; [reflexivity |]. simpl. leaf.
Qed.

Lemma api_delete_repo_answers : forall xhttp sess data,
  xok_with (fun resp => answer_in [200; 400; 401; 500]%Z resp
                        /\ (snd resp = 401%Z <-> pat sess = None))
    (api_delete_repo xhttp sess data).
Proof.
  intros. unfold api_delete_repo. destruct (pat sess) as [p |].
  - apply (xok_with_weaken _ (answer_in [200; 400; 500]%Z)).
    { intros a [He Hin]. split; [split; [exact He | simpl in *; tauto] |].
      split; [| discriminate]. intros H. simpl in Hin. rewrite H in Hin.
      destruct Hin as [Hin | [Hin | [Hin | []]]]; discriminate. }
    repeat xok_step.
  - apply xok_with_ret. split; [leaf | now split].
Qed.

Lemma api_delete_file_answers : forall http sess data,
  ok_with (fun resp => answer_in [200; 400; 401; 500]%Z resp
                       /\ (snd resp = 401%Z <-> pat sess = None))
    (api_delete_file http sess data).
Proof.
  intros. unfold api_delete_file. destruct (pat sess) as [p |].
  - apply (ok_with_weaken _ (answer_in [200; 400; 500]%Z)).
    { intros a [He Hin]. split; [split; [exact He | simpl in *; tauto] |].
      split; [| discriminate]. intros H. simpl in Hin. rewrite H in Hin.
      destruct Hin as [Hin | [Hin | [Hin | []]]]; discriminate. }
    repeat ok_step.
  - apply ok_with_ret. split; [leaf | now split].
Qed.

Lemma api_add_cicd_answers : forall http b64encode sess data,
  ok_with (fun resp => answer_in [200; 400; 401; 500]%Z resp
                       /\ (snd resp = 401%Z <-> pat sess = None))
    (api_add_cicd http b64encode sess data).
Proof.
  intros. unfold api_add_cicd. destruct (pat sess) as [p |].
  - apply (ok_with_weaken _ (answer_in [200; 400; 500]%Z)).
    { intros a [He Hin]. split; [split; [exact He | simpl in *; tauto] |].
      split; [| discriminate]. intros H. simpl in Hin. rewrite H in Hin.
      destruct Hin as [Hin | [Hin | [Hin | []]]]; discriminate. }
    repeat ok_step.
  - apply ok_with_ret. split; [leaf | now split].
Qed.


(** ** The session *)

(** X23. Logging out, by [/logout] or by the [logout] action of
    [/api/settings], leaves a session no handler takes for a user: there is
    no client, [index] shows the login page, [dashboard] redirects to it,
    and [api_whoami] and [api_repos] answer 401 without sending anything. *)
Theorem logging_out_clears_the_session : forall sess data s',
  s' = snd (logout sess)
  \/ (dict_get "action" data = PStr "logout"
      /\ s' = snd (api_settings "POST" sess data)) ->
  get_gh s' = None
  /\ index s' = Render "login.html" []
  /\ dashboard s' = RedirectTo "/"
  /\ api_whoami s' = json_error (PStr "Not authenticated") 401
  /\ forall http fuel l,
       api_repos http fuel s' l
       = (Ok (Some (json_error (PStr "Unauthorized") 401)), l).
Proof.
  intros sess data s' H.
  assert (Hs : s' = cleared).
  { destruct H as [-> | [Ha ->]]; [reflexivity |].
    unfold api_settings. rewrite Ha. reflexivity. }
  subst s'. repeat split.
Qed.

Lemma logging_out_clears_the_session_witness :
  get_gh (snd (api_settings "POST" alice [("action", PStr "logout")])) = None
  /\ index (snd (api_settings "POST" alice [("action", PStr "logout")]))
     = Render "login.html" []
  /\ dashboard (snd (api_settings "POST" alice [("action", PStr "logout")]))
     = RedirectTo "/"
  /\ api_whoami (snd (api_settings "POST" alice [("action", PStr "logout")]))
     = json_error (PStr "Not authenticated") 401
  /\ forall http fuel l,
       api_repos http fuel
         (snd (api_settings "POST" alice [("action", PStr "logout")])) l
       = (Ok (Some (json_error (PStr "Unauthorized") 401)), l).
Proof.
  apply (logging_out_clears_the_session alice [("action", PStr "logout")]).
  right. split; reflexivity.
Defined.

(** ** [_json_ok] *)

Lemma dict_lookup_set_other : forall k k' v d,
  k' <> k -> dict_lookup k' (dict_set k v d) = dict_lookup k' d.
Proof.
  intros k k' v d Hne. apply String.eqb_neq in Hne.
  induction d as [| [k0 v0] d IH]; simpl.
  - now rewrite Hne.
  - destruct (String.eqb k k0) eqn:E; simpl.
    + apply String.eqb_eq in E. subst k0. now rewrite Hne.
    + now rewrite IH.
Qed.

(** X24. [_json_ok] sets [success] to true, over a [success] the payload
    may bring, and leaves every other entry of the payload as it is. *)
Theorem json_ok_keeps_the_payload : forall payload k,
  dict_lookup "success" (_json_ok payload) = Some (PBool true)
  /\ (k <> "success" ->
      dict_lookup k (_json_ok payload) = dict_lookup k payload).
Proof.
  intros payload k. unfold _json_ok. split.
  - apply dict_lookup_set.
  - apply dict_lookup_set_other.
Qed.

(** ** The names a failed resolution has tried *)

Section TriedNames.
Variable http : remote.
Variable b64decode_utf8 : string -> option string.
Variable gh : GitHubAPI.
Variables owner repo path : string.

Lemma try_literals_covers : forall bs tried0 c0 l tried l',
  try_literals http b64decode_utf8 gh owner repo path bs (tried0, c0) l
  = (Ok (tried, PNone), l') ->
  (forall x, In x tried0 -> In x tried)
  /\ (forall b, In b bs -> In (PStr b) tried).
Proof.
  induction bs as [| b bs IH]; intros tried0 c0 l tried l' H.
  - simpl in H. injection H as <- _ _. split; [auto | intros b []].
  - cbn [try_literals] in H.
    destruct (is_none c0) eqn:Hc0.
    + destruct (py_in (PStr b) tried0) eqn:Hin; cbn [negb andb] in H.
      * destruct (IH _ _ _ _ _ H) as [Hmono Hcov]. split; [exact Hmono |].
        intros b' [<- | Hb']; [| now apply Hcov].
        apply Hmono. now apply py_in_In.
      * unfold bind in H.
        destruct (fetch_content _ _ _ _ _ _ _ l) as [[c | e] l1];
          [| discriminate].
        destruct (IH _ _ _ _ _ H) as [Hmono Hcov]. split.
        -- intros x Hx. apply Hmono, in_or_app. now left.
        -- intros b' [<- | Hb']; [| now apply Hcov].
           apply Hmono, in_or_app. right. now left.
    + cbn [andb] in H. rewrite try_literals_settled in H by assumption.
      injection H as _ Hc _. subst c0. discriminate.
Qed.

(** X25. A resolution that finds nothing has tried [main] and [master].
    When the loop over the two literal names ends without content, both
    are in the list of the names tried, whatever the hint and the default
    branch were; so the list the raw retrievals walk is never empty, the
    default [["main"]] the handler has for that case is never taken, and
    every 404 of [get_file_body] lists both names. *)
Theorem not_found_names_main_and_master :
  (forall st l tried l',
      try_literals http b64decode_utf8 gh owner repo path ["main"; "master"]
        st l = (Ok (tried, PNone), l') ->
      In (PStr "main") tried /\ In (PStr "master") tried)
  /\ (forall branch l tried l',
        get_file_body http b64decode_utf8 gh owner repo path branch l
        = (Ok (not_found tried), l') ->
        In (PStr "main") tried /\ In (PStr "master") tried).
Proof.
  assert (Hloop : forall st l tried l',
    try_literals http b64decode_utf8 gh owner repo path ["main"; "master"]
      st l = (Ok (tried, PNone), l') ->
    In (PStr "main") tried /\ In (PStr "master") tried).
  { intros [tried0 c0] l tried l' H.
    destruct (try_literals_covers _ _ _ _ _ _ H) as [_ Hcov].
    split; apply Hcov; simpl; auto. }
  split; [exact Hloop |].
  intros branch l tried l' H. unfold get_file_body in H.
  unfold bind at 1 in H.
  destruct (try_hint _ _ _ _ _ _ _ l) as [[st1 | e] l1]; [| discriminate].
  unfold bind at 1 in H.
  destruct (try_default _ _ _ _ _ _ st1 l1) as [[st2 | e] l2];
    [| discriminate].
  unfold bind at 1 in H.
  destruct (try_literals _ _ _ _ _ _ _ st2 l2) as [[[tried' c] | e] l3] eqn:Hl;
    [| discriminate].
  unfold bind at 1 in H.
  destruct (is_none c) eqn:Hc.
  - destruct c; try discriminate.
    destruct (raw_fallback _ _ _ _ _ l3) as [[c' | e] l4]; [| discriminate].
    destruct (is_none c'); unfold ret, not_found, jsonify in H.
    + injection H as <- _. exact (Hloop _ _ _ _ Hl).
    + discriminate.
  - unfold ret at 1 in H. rewrite Hc in H. discriminate.
Qed.

End TriedNames.

(** ** An upload that raises *)

Section RepeatedUpload.
Variable http : remote.
Variable b64encode : string -> string.
Variable gh : GitHubAPI.
Variables owner repo : string.

Lemma bulk_upload_loop_raises : forall items acc l e l1,
  bulk_upload_loop http b64encode gh owner repo items acc l = (Raise e, l1) ->
  exists k ev,
    1 <= k <= List.length items /\ l1 = l ++ ev
    /\ writes ev = map (item_write b64encode) (firstn k items).
Proof.
  induction items as [| [path b] items IH]; intros acc l e l1 H.
  - discriminate.
  - simpl in H. unfold bind in H. rewrite upload_file_run in H.
    set (q1 := lookup_of gh owner repo path) in *.
    set (q2 := write_of b64encode gh owner repo path b
                 (upload_message path) (sha_of (http l q1))) in *.
    destruct (put_value (http (l ++ [q1]) q2)) as [v | e0].
    + apply IH in H. destruct H as [k [ev [Hk [-> Hw]]]].
      exists (S k), (q1 :: q2 :: ev). split; [simpl; lia |].
      split; [now rewrite <- app_assoc |].
      cbn [firstn map]. simpl. now rewrite Hw.
    + injection H as _ <-. exists 1, [q1; q2].
      split; [simpl; lia |]. split; reflexivity.
Qed.

Lemma upload_each_writes : forall items acc l,
  exists new ev,
    upload_each http b64encode gh owner repo items acc l
    = (Ok (acc ++ new), l ++ ev)
    /\ List.length new = List.length items
    /\ writes ev = map (item_write b64encode) items.
Proof.
  induction items as [| [path b] items IH]; intros acc l.
  - exists [], []. simpl. unfold ret. rewrite !app_nil_r. now repeat split.
  - simpl. unfold bind, try_except. rewrite upload_file_run.
    set (q1 := lookup_of gh owner repo path) in *.
    set (q2 := write_of b64encode gh owner repo path b
                 (upload_message path) (sha_of (http l q1))) in *.
    destruct (IH (acc ++ [file_result (http (l ++ [q1]) q2)])
                (l ++ [q1; q2])) as [new [ev [Hrun [Hlen Hw]]]].
    exists (file_result (http (l ++ [q1]) q2) :: new), (q1 :: q2 :: ev).
    split; [| split; [simpl; now rewrite Hlen | simpl; now rewrite Hw]].
    unfold file_result in *.
    destruct (put_value (http (l ++ [q1]) q2)); unfold ret;
      rewrite Hrun, <- !app_assoc; reflexivity.
Qed.

(** X26. An upload that raises is started over.  When [bulk_upload] raises
    at some file (the answer to its write was accepted but cannot be read,
    or the write itself raised), the handler falls back to the loop that
    uploads file by file, and that loop begins with the first file: the
    writes of the run are those of the files up to the one that raised,
    followed by those of all files, so the former are written twice.  The
    [files] array has one entry per file all the same. *)
Theorem failed_bulk_upload_is_repeated : forall items l e l1,
  bulk_upload http b64encode gh owner repo items l = (Raise e, l1) ->
  exists k results ev,
    1 <= k <= List.length items
    /\ upload_results http b64encode gh owner repo items l
       = (Ok results, l ++ ev)
    /\ List.length results = List.length items
    /\ writes ev
       = map (item_write b64encode) (firstn k items)
         ++ map (item_write b64encode) items.
Proof.
  intros items l e l1 H. unfold upload_results, try_except, bind.
  rewrite H. unfold ret at 1. unfold bulk_upload in H.
  apply bulk_upload_loop_raises in H. destruct H as [k [ev1 [Hk [-> Hw1]]]].
  destruct (upload_each_writes items [] (l ++ ev1))
    as [new [ev2 [Hrun [Hlen Hw2]]]].
  exists k, new, (ev1 ++ ev2). split; [exact Hk |].
  split; [rewrite Hrun; now rewrite <- app_assoc |].
  split; [exact Hlen |]. now rewrite writes_app, Hw1, Hw2.
Qed.

End RepeatedUpload.

Lemma failed_bulk_upload_is_repeated_witness :
  exists k results ev,
    1 <= k <= List.length three_files
    /\ upload_results remote_garbles_b plain acme "alice" "widgets"
         three_files []
       = (Ok results, [] ++ ev)
    /\ List.length results = List.length three_files
    /\ writes ev
       = map (item_write plain) (firstn k three_files)
         ++ map (item_write plain) three_files.
Proof.
  apply (failed_bulk_upload_is_repeated remote_garbles_b plain acme "alice"
           "widgets" three_files [] "JSONDecodeError"
           [lookup_of acme "alice" "widgets" "a.txt";
            write_of plain acme "alice" "widgets" "a.txt" "A"
              (upload_message "a.txt") None;
            lookup_of acme "alice" "widgets" "b.txt";
            write_of plain acme "alice" "widgets" "b.txt" "B"
              (upload_message "b.txt") None]).
  reflexivity.
Defined.

(** The writes of that run: [a.txt] and [b.txt], then all three files. *)
Example repeated_upload_run :
  writes (snd (upload_results remote_garbles_b plain acme "alice" "widgets"
                 three_files []))
  = [("a.txt", "A"); ("b.txt", "B");
     ("a.txt", "A"); ("b.txt", "B"); ("c.txt", "C")].
Proof. reflexivity. Qed.

(** ** How many requests a handler sends *)

Lemma sends_at_most_ret : forall A (P : A -> Prop) (a : A) n,
  P a -> sends_at_most n P (ret a).
Proof.
  intros A P a n H l. exists []. rewrite app_nil_r.
  split; [reflexivity |]. split; [simpl; lia | exact H].
Qed.

Lemma sends_at_most_lift : forall A (P : A -> Prop) (o : outcome A) n,
  (forall a, o = Ok a -> P a) -> sends_at_most n P (lift o).
Proof.
  intros A P o n H l. exists []. rewrite app_nil_r.
  split; [reflexivity |]. split; [simpl; lia |].
  unfold lift. simpl. destruct o; [now apply H | exact I].
Qed.

Lemma sends_at_most_send : forall http q n,
  1 <= n -> sends_at_most n (fun _ => True) (send http q).
Proof.
  intros http q n Hn l. exists [q]. split; [reflexivity |].
  split; [simpl; lia |]. unfold send. simpl. now destruct (http l q).
Qed.

Lemma sends_at_most_bind :
  forall A B (P : A -> Prop) (Q : B -> Prop) (m : M A) (f : A -> M B) n1 n2 n,
  sends_at_most n1 P m -> (forall a, P a -> sends_at_most n2 Q (f a)) ->
  n1 + n2 <= n -> sends_at_most n Q (bind m f).
Proof.
  intros A B P Q m f n1 n2 n Hm Hf Hn l. unfold bind.
  destruct (Hm l) as [ev [E [Hlen Hp]]].
  destruct (m l) as [[a | e] l1]; simpl in E, Hp; subst l1.
  - destruct (Hf a Hp (l ++ ev)) as [ev2 [E2 [Hlen2 Hq]]].
    exists (ev ++ ev2). split; [now rewrite E2, app_assoc |].
    split; [rewrite length_app; lia | exact Hq].
  - exists ev. split; [reflexivity |]. split; [lia | exact I].
Qed.

Lemma sends_at_most_try :
  forall A (P : A -> Prop) (m : M A) (h : string -> M A) n1 n2 n,
  sends_at_most n1 P m -> (forall e, sends_at_most n2 P (h e)) ->
  n1 + n2 <= n -> sends_at_most n P (try_except m h).
Proof.
  intros A P m h n1 n2 n Hm Hh Hn l. unfold try_except.
  destruct (Hm l) as [ev [E [Hlen Hp]]].
  destruct (m l) as [[a | e] l1]; simpl in E, Hp; subst l1.
  - exists ev. split; [reflexivity |]. split; [lia | exact Hp].
  - destruct (Hh e (l ++ ev)) as [ev2 [E2 [Hlen2 Hq]]].
    exists (ev ++ ev2). split; [now rewrite E2, app_assoc |].
    split; [rewrite length_app; lia | exact Hq].
Qed.

Lemma sends_at_most_weaken :
  forall A (P Q : A -> Prop) (m : M A) n n',
  sends_at_most n P m -> (forall a, P a -> Q a) -> n <= n' ->
  sends_at_most n' Q m.
Proof.
  intros A P Q m n n' Hm H Hn l. destruct (Hm l) as [ev [E [Hlen Hp]]].
  exists ev. split; [exact E |]. split; [lia |].
  destruct (fst (m l)); [now apply H | exact I].
Qed.

(** A handler that sends nothing in its [except] clause. *)
Lemma sends_at_most_guarded : forall (m : M http_response) n,
  sends_at_most n (fun _ => True) m ->
  sends_at_most n (fun _ => True) (try_except m on_exception).
Proof.
  intros m n Hm.
  apply (sends_at_most_try _ _ _ _ n 0 n); [exact Hm | | lia].
  intros e. now apply sends_at_most_ret.
Qed.

Section RequestBounds.
Variable http : remote.
Variable b64decode_utf8 : string -> option string.
Variable b64encode : string -> string.
Variable gh : GitHubAPI.
Variables owner repo path : string.

Lemma get_file_text_once : forall ref,
  sends_at_most 1 (fun _ => True)
    (get_file_text http b64decode_utf8 gh owner repo path ref).
Proof.
  intros ref. unfold get_file_text.
  apply (sends_at_most_bind _ _ (fun _ => True) _ _ _ 1 0 1);
    [now apply sends_at_most_send | | lia].
  intros r _. now apply sends_at_most_lift.
Qed.

Lemma fetch_content_once : forall b (P : pyval -> Prop),
  (forall c, P c) ->
  sends_at_most 1 P (fetch_content http b64decode_utf8 gh owner repo path b).
Proof.
  intros b P HP. unfold fetch_content.
  apply (sends_at_most_bind _ _ (fun _ => True) _ _ _ 1 0 1);
    [apply get_file_text_once | | lia].
  intros c _. apply sends_at_most_ret. apply HP.
Qed.

Lemma get_repo_info_once :
  sends_at_most 1 (fun _ => True) (get_repo_info http gh owner repo).
Proof.
  unfold get_repo_info.
  apply (sends_at_most_bind _ _ (fun _ => True) _ _ _ 1 0 1);
    [now apply sends_at_most_send | | lia].
  intros r _. now apply sends_at_most_lift.
Qed.

Lemma try_hint_bound : forall branch,
  sends_at_most 1 (fun st => List.length (fst st) <= 1)
    (try_hint http b64decode_utf8 gh owner repo path branch).
Proof.
  intros branch. unfold try_hint.
  destruct branch as [b |]; [| apply sends_at_most_ret; simpl; lia].
  destruct (truthy (PStr b)); [| apply sends_at_most_ret; simpl; lia].
  apply (sends_at_most_bind _ _ (fun _ => True) _ _ _ 1 0 1);
    [now apply fetch_content_once | | lia].
  intros c _. apply sends_at_most_ret. simpl. lia.
Qed.

Lemma try_default_bound : forall st k,
  List.length (fst st) <= k ->
  sends_at_most 2 (fun st' => List.length (fst st') <= S k)
    (try_default http b64decode_utf8 gh owner repo path st).
Proof.
  intros [tried content] k Hk. simpl in Hk. unfold try_default.
  destruct (is_none content); [| apply sends_at_most_ret; simpl; lia].
  apply (sends_at_most_bind _ _ (fun _ => True) _ _ _ 1 1 2);
    [apply get_repo_info_once | | lia].
  intros info _.
  apply (sends_at_most_bind _ _ (fun _ => True) _ _ _ 0 1 1);
    [now apply sends_at_most_lift | | lia].
  intros d _.
  destruct (_ && _); [| apply sends_at_most_ret; simpl; lia].
  apply (sends_at_most_bind _ _ (fun _ => True) _ _ _ 1 0 1);
    [now apply fetch_content_once | | lia].
  intros c _. apply sends_at_most_ret. simpl. rewrite length_app. simpl. lia.
Qed.

Lemma try_literals_bound : forall bs st k,
  List.length (fst st) <= k ->
  sends_at_most (List.length bs)
    (fun st' => List.length (fst st') <= k + List.length bs)
    (try_literals http b64decode_utf8 gh owner repo path bs st).
Proof.
  induction bs as [| b bs IH]; intros [tried content] k Hk; simpl in Hk.
  - apply sends_at_most_ret. simpl. lia.
  - cbn [try_literals List.length]. destruct (_ && _).
    + apply (sends_at_most_bind _ _ (fun _ => True) _ _ _ 1
               (List.length bs) _);
        [now apply fetch_content_once | | lia].
      intros c _.
      apply (sends_at_most_weaken _ _ _ _ _ _
               (IH (tried ++ [PStr b], c) (S k)
                   ltac:(simpl; rewrite length_app; simpl; lia)));
        [intros a Ha; lia | lia].
    + apply (sends_at_most_weaken _ _ _ _ _ _ (IH (tried, content) k Hk));
        [intros a Ha; lia | lia].
Qed.

Lemma raw_fallback_bound : forall bs,
  sends_at_most (List.length bs) (fun _ => True)
    (raw_fallback http owner repo path bs).
Proof.
  induction bs as [| b bs IH]; cbn [raw_fallback List.length].
  - now apply sends_at_most_ret.
  - apply (sends_at_most_bind _ _ (fun _ => True) _ _ _ 1
             (List.length bs) _); [| | lia].
    + apply (sends_at_most_try _ _ _ _ 1 0 1); [| | lia].
      * apply (sends_at_most_bind _ _ (fun _ => True) _ _ _ 1 0 1);
          [now apply sends_at_most_send | | lia].
        intros rr _. now apply sends_at_most_ret.
      * intros e. now apply sends_at_most_ret.
    + intros [content |] _; [now apply sends_at_most_ret | exact IH].
Qed.

Lemma get_file_body_bound : forall branch,
  sends_at_most 9 (fun _ => True)
    (get_file_body http b64decode_utf8 gh owner repo path branch).
Proof.
  intros branch. unfold get_file_body.
  apply (sends_at_most_bind _ _ _ _ _ _ 1 8 9 (try_hint_bound branch));
    [| lia].
  intros st1 H1.
  apply (sends_at_most_bind _ _ _ _ _ _ 2 6 8 (try_default_bound st1 1 H1));
    [| lia].
  intros st2 H2.
  apply (sends_at_most_bind _ _ _ _ _ _ 2 4 6
           (try_literals_bound ["main"; "master"] st2 2 H2)); [| lia].
  intros [tried content] H3. simpl in H3.
  apply (sends_at_most_bind _ _ (fun _ => True) _ _ _ 4 0 4); [| | lia].
  - destruct (is_none content); [| now apply sends_at_most_ret].
    apply (sends_at_most_weaken _ (fun _ => True) (fun _ => True) _ _ 4
             (raw_fallback_bound _)); [auto |].
    destruct tried; simpl in *; lia.
  - intros c _. destruct (is_none c); now apply sends_at_most_ret.
Qed.

Lemma listing_bound : forall q,
  sends_at_most 1 (fun _ => True)
    (try_except
       (r <- send http q ;;
        if Z.eqb (status_code r) 200
        then (j <- lift (r_json r) ;; ret (Some j))
        else ret None)
       (fun _ => ret None)).
Proof.
  intros q. intros l. rewrite listing_run. exists [q].
  split; [reflexivity |]. split; [simpl; lia | exact I].
Qed.

Lemma list_repo_files_bound :
  sends_at_most 3 (fun _ => True) (list_repo_files http gh owner repo).
Proof.
  unfold list_repo_files.
  apply (sends_at_most_bind _ _ (fun _ => True) _ _ _ 1 2 3);
    [apply get_repo_info_once | | lia].
  intros ri _.
  apply (sends_at_most_bind _ _ (fun _ => True) _ _ _ 0 2 2);
    [now apply sends_at_most_lift | | lia].
  intros d _.
  apply (sends_at_most_bind _ _ (fun _ => True) _ _ _ 1 1 2);
    [apply listing_bound | | lia].
  intros [j |] _; [now apply sends_at_most_ret |].
  apply (sends_at_most_bind _ _ (fun _ => True) _ _ _ 1 0 1);
    [apply listing_bound | | lia].
  intros [j |] _; now apply sends_at_most_ret.
Qed.

Lemma upload_file_twice : forall p content message,
  sends_at_most 2 (fun _ => True)
    (upload_file http b64encode gh owner repo p content message).
Proof.
  intros p content message l. rewrite upload_file_run.
  eexists [_; _]. split; [reflexivity |]. split; [simpl; lia |].
  simpl. now destruct (put_value _).
Qed.

Lemma file_exists_once : forall p,
  sends_at_most 1 (fun _ => True) (file_exists http gh owner repo p).
Proof.
  intros p l. rewrite file_exists_run. eexists [_].
  split; [reflexivity |]. split; [simpl; lia |].
  simpl. now destruct (http l _).
Qed.

Lemma delete_file_twice : forall message,
  sends_at_most 2 (fun _ => True)
    (delete_file http gh owner repo path message).
Proof.
  intros message l.
  destruct (delete_file_run http gh owner repo path message l)
    as [ev [E Hev]].
  exists (lookup_of gh owner repo path :: ev). split; [exact E |].
  split.
  - destruct Hev as [-> | [r [data [_ [_ [_ ->]]]]]]; simpl; lia.
  - now destruct (fst _).
Qed.

End RequestBounds.

Lemma provision_bound : forall http b64encode gh user name license_choice,
  sends_at_most 9 (fun _ => True)
    (provision http b64encode gh user name license_choice).
Proof.
  intros. unfold provision, ensure_readme, ensure_license, ensure_cicd.
  apply (sends_at_most_bind _ _ (fun _ => True) _ _ _ 1 8 9);
    [apply file_exists_once | | lia].
  intros has1 _.
  apply (sends_at_most_bind _ _ (fun _ => True) _ _ _ 2 6 8); [| | lia].
  { destruct has1; [now apply sends_at_most_ret | apply upload_file_twice]. }
  intros _ _.
  apply (sends_at_most_bind _ _ (fun _ => True) _ _ _ 1 5 6);
    [apply file_exists_once | | lia].
  intros has2 _.
  apply (sends_at_most_bind _ _ (fun _ => True) _ _ _ 2 3 5); [| | lia].
  { destruct has2; [now apply sends_at_most_ret | apply upload_file_twice]. }
  intros _ _.
  apply (sends_at_most_bind _ _ (fun _ => True) _ _ _ 1 2 3);
    [apply file_exists_once | | lia].
  intros has3 _.
  apply (sends_at_most_bind _ _ (fun _ => True) _ _ _ 2 0 2); [| | lia].
  { destruct has3; [now apply sends_at_most_ret | apply upload_file_twice]. }
  intros _ _. now apply sends_at_most_ret.
Qed.

(** X27. The number of requests of a run is bounded, whatever the remote
    side answers.  [api_get_file] sends at most nine: four structured
    fetches (hint, default branch, [main], [master]), the metadata request,
    and a raw retrieval for each of at most four names tried.
    [api_list_files] sends at most three, [api_delete_file] two,
    [api_add_cicd] three, and [api_create_repo] eleven: the lookup, the
    creation, and a lookup and an upload of two requests for each of the
    three files it adds. *)
Theorem requests_are_bounded :
  forall http b64decode_utf8 b64encode sess args data,
    requests_at_most 9 (api_get_file http b64decode_utf8 sess args)
    /\ requests_at_most 3 (api_list_files http sess args)
    /\ requests_at_most 2 (api_delete_file http sess data)
    /\ requests_at_most 3 (api_add_cicd http b64encode sess data)
    /\ requests_at_most 11 (api_create_repo http b64encode sess data).
Proof.
  intros http b64decode_utf8 b64encode sess args data.
  unfold requests_at_most. split; [| split; [| split; [| split]]].
  - unfold api_get_file.
    destruct (owner_of sess args); [| now apply sends_at_most_ret].
    destruct (_ || _); [now apply sends_at_most_ret |].
    destruct (get_gh sess); [| now apply sends_at_most_ret].
    apply sends_at_most_guarded, get_file_body_bound.
  - unfold api_list_files.
    destruct (owner_of sess args); [| now apply sends_at_most_ret].
    destruct (_ || _); [now apply sends_at_most_ret |].
    apply sends_at_most_guarded.
    apply (sends_at_most_bind _ _ (fun _ => True) _ _ _ 3 0 3); [| | lia].
    + destruct (match pat sess with Some _ => get_gh sess | None => None end);
        [| now apply sends_at_most_ret].
      apply (sends_at_most_try _ _ _ _ 3 0 3);
        [apply list_repo_files_bound | | lia].
      intros e. now apply sends_at_most_ret.
    + intros files_resp _.
      apply (sends_at_most_bind _ _ (fun _ => True) _ _ _ 0 0 0);
        [now apply sends_at_most_lift | | lia].
      intros c _. now apply sends_at_most_ret.
  - unfold api_delete_file.
    destruct (pat sess); [| now apply sends_at_most_ret].
    apply (sends_at_most_bind _ _ (fun _ => True) _ _ _ 0 2 2);
      [now apply sends_at_most_lift | | lia].
    intros repo _.
    apply (sends_at_most_bind _ _ (fun _ => True) _ _ _ 0 2 2);
      [now apply sends_at_most_lift | | lia].
    intros path _.
    destruct (_ || _); [now apply sends_at_most_ret |].
    destruct (get_gh sess); [| now apply sends_at_most_ret].
    apply sends_at_most_guarded.
    apply (sends_at_most_bind _ _ (fun _ => True) _ _ _ 2 0 2);
      [apply delete_file_twice | | lia].
    intros res _. destruct (is_error res); now apply sends_at_most_ret.
  - unfold api_add_cicd.
    destruct (pat sess); [| now apply sends_at_most_ret].
    apply (sends_at_most_bind _ _ (fun _ => True) _ _ _ 0 3 3);
      [now apply sends_at_most_lift | | lia].
    intros repo _.
    destruct (String.eqb repo ""); [now apply sends_at_most_ret |].
    destruct (get_gh sess); [| now apply sends_at_most_ret].
    apply sends_at_most_guarded.
    apply (sends_at_most_bind _ _ (fun _ => True) _ _ _ 1 2 3);
      [apply file_exists_once | | lia].
    intros present _. destruct present; [now apply sends_at_most_ret |].
    apply (sends_at_most_bind _ _ (fun _ => True) _ _ _ 2 0 2);
      [apply upload_file_twice | | lia].
    intros _ _. now apply sends_at_most_ret.
  - unfold api_create_repo.
    destruct (pat sess); [| now apply sends_at_most_ret].
    apply (sends_at_most_bind _ _ (fun _ => True) _ _ _ 0 11 11);
      [now apply sends_at_most_lift | | lia].
    intros name _.
    destruct (String.eqb name ""); [now apply sends_at_most_ret |].
    destruct (get_gh sess) as [gh |]; [| now apply sends_at_most_ret].
    apply sends_at_most_guarded.
    apply (sends_at_most_bind _ _ (fun _ => True) _ _ _ 1 10 11); [| | lia].
    { apply (sends_at_most_try _ _ _ _ 1 0 1);
        [apply get_repo_info_once | | lia].
      intros e. now apply sends_at_most_ret. }
    intros info _.
    apply (sends_at_most_bind _ _ (fun _ => True) _ _ _ 0 10 10); [| | lia].
    { destruct (truthy info); [| now apply sends_at_most_ret].
      apply (sends_at_most_bind _ _ (fun _ => True) _ _ _ 0 0 0);
        [now apply sends_at_most_lift | | lia].
      intros m _. now apply sends_at_most_ret. }
    intros found _. destruct found; [now apply sends_at_most_ret |].
    apply (sends_at_most_bind _ _ (fun _ => True) _ _ _ 1 9 10); [| | lia].
    { unfold create_repo.
      apply (sends_at_most_bind _ _ (fun _ => True) _ _ _ 1 0 1);
        [now apply sends_at_most_send | | lia].
      intros r _. destruct (_ || _); [now apply sends_at_most_lift |].
      apply (sends_at_most_bind _ _ (fun _ => True) _ _ _ 0 0 0);
        [now apply sends_at_most_lift | | lia].
      intros d _.
      apply (sends_at_most_bind _ _ (fun _ => True) _ _ _ 0 0 0);
        [now apply sends_at_most_lift | | lia].
      intros msg _. now apply sends_at_most_ret. }
    intros res _. destruct (_ || _); [now apply sends_at_most_ret |].
    apply (sends_at_most_bind _ _ (fun _ => True) _ _ _ 9 0 9); [| | lia].
    { apply (sends_at_most_try _ _ _ _ 9 0 9);
        [apply provision_bound | | lia].
      intros e. now apply sends_at_most_ret. }
    intros _ _. now apply sends_at_most_ret.
Qed.

(** ** The public listing *)

Lemma public_entry_item : forall it,
  (exists e, public_entry it = Ok e) <-> public_item it.
Proof.
  intros it. unfold public_entry, public_item. split.
  - intros [e H]. destruct it as [| | | | | d]; try discriminate.
    destruct (dict_get_default "owner" (PDict []) d) as [| | | | | o] eqn:Ho;
      try discriminate.
    now exists d, o.
  - intros [d [o [-> Ho]]]. rewrite Ho. now eexists.
Qed.

Lemma public_entries_run : forall items acc,
  (Forall public_item items ->
   exists new,
     public_entries items acc = Ok (acc ++ new)
     /\ Forall2 (fun it e => public_entry it = Ok e) items new)
  /\ (~ Forall public_item items ->
      exists e, public_entries items acc = Raise e).
Proof.
  induction items as [| it items IH]; intros acc.
  - split.
    + intros _. exists []. rewrite app_nil_r.
      split; [reflexivity | constructor].
    + intros H. contradiction H. constructor.
  - cbn [public_entries].
    destruct (public_entry it) as [e | err] eqn:He.
    + destruct (IH (acc ++ [e])) as [Hok Hbad]. split.
      * intros H. inversion H as [| ? ? _ Hrest]; subst.
        destruct (Hok Hrest) as [new [Hrun Hall]].
        exists (e :: new). rewrite Hrun, <- app_assoc.
        split; [reflexivity | now constructor].
      * intros H. apply Hbad. intros Hrest. apply H.
        constructor; [| exact Hrest].
        apply public_entry_item. now exists e.
    + split.
      * intros H. inversion H as [| ? ? Hit _]; subst.
        apply public_entry_item in Hit. destruct Hit as [e He'].
        rewrite He in He'. discriminate.
      * intros _. now exists err.
Qed.

(** X28. The public listing needs every owner to be an object.  When the
    search is answered 200 with a list of items, [api_public_repos] answers
    200 with one entry per item, in order, if every item is an object whose
    owner (when it has one) is an object; a single item that is not, one
    with a null owner say, turns the whole answer into a 500. *)
Theorem public_listing_needs_object_owners :
  forall xhttp py_int args n xl r body items,
  per_page_of py_int args = Ok n ->
  xhttp xl (SearchRepositories (args_get_default "q" "stars:>20000" args) n)
  = Ok r ->
  status_code r = 200%Z -> json r = Some (PDict body) ->
  dict_get_default "items" (PList []) body = PList items ->
  (Forall public_item items ->
   exists repos,
     fst (api_public_repos xhttp py_int args xl)
     = Ok (jsonify (_json_ok [("repos", PList repos)]) 200)
     /\ Forall2 (fun it e => public_entry it = Ok e) items repos)
  /\ (~ Forall public_item items ->
      exists e,
        fst (api_public_repos xhttp py_int args xl)
        = Ok (json_error (PStr e) 500)).
Proof.
  intros xhttp py_int args n xl r body items Hn Hq Hst Hj Hitems.
  assert (Hrun : fst (api_public_repos xhttp py_int args xl)
                 = match public_entries items [] with
                   | Ok repos =>
                       Ok (jsonify (_json_ok [("repos", PList repos)]) 200)
                   | Raise e => Ok (json_error (PStr e) 500)
                   end).
  { unfold api_public_repos. unfold xbind at 1. unfold xlift at 1.
    rewrite Hn. unfold xtry, xbind, xsend. rewrite Hq, Hst.
    cbn [Z.eqb Pos.eqb]. unfold xlift, r_json. rewrite Hj. cbn [py_get].
    rewrite Hitems. cbn [public_repos_of].
    destruct (public_entries items []); reflexivity. }
  rewrite Hrun. destruct (public_entries_run items []) as [Hok Hbad]. split.
  - intros H. destruct (Hok H) as [new [-> Hall]]. now exists new.
  - intros H. destruct (Hbad H) as [e ->]. now exists e.
Qed.

Lemma public_listing_needs_object_owners_witness :
  exists e,
    fst (api_public_repos xremote_search int_of_example [("per_page", "5")]
           [])
    = Ok (json_error (PStr e) 500).
Proof.
  apply (proj2 (public_listing_needs_object_owners xremote_search
                  int_of_example [("per_page", "5")] 5 []
                  (json_answer
                     (PDict [("items",
                              PList [PDict [("name", PStr "linux");
                                            ("owner",
                                             PDict [("login",
                                                     PStr "torvalds")])];
                                     PDict [("name", PStr "orphan");
                                            ("owner", PNone)]])]))
                  _ _ eq_refl eq_refl eq_refl eq_refl eq_refl)).
  intros H. inversion H as [| ? ? _ H2]; subst.
  inversion H2 as [| ? ? [d [o [Hd Ho]]] _]; subst.
  injection Hd as <-. discriminate.
Defined.

(** ** Refusals without a message *)

(** X29. A lookup refused with an empty body reads as a repository that
    exists.  When the lookup of the repository is answered with a status
    other than 200 and 201 and an empty body, [api_create_repo] answers
    that the repository already exists and sends no creation request. *)
Theorem mute_lookup_reads_as_existing :
  forall http b64encode sess data p name l r0,
  pat sess = Some p -> p <> "" ->
  py_strip (py_or (dict_get "name" data) (PStr "")) = Ok name ->
  name <> "" ->
  http l (repo_request (mkGitHubAPI p) (fmt (username sess)) name) = Ok r0 ->
  status_code r0 <> 200%Z -> status_code r0 <> 201%Z -> text r0 = "" ->
  api_create_repo http b64encode sess data l
  = (Ok (json_error
           (PStr ("Repository '" ++ name ++ "' already exists.")%string) 200),
     l ++ [repo_request (mkGitHubAPI p) (fmt (username sess)) name]).
Proof.
  intros http b64encode sess data p name l r0
    Hpat Hp Hname Hgiven Hq H200 H201 Htext.
  unfold api_create_repo. rewrite Hpat.
  unfold bind at 1. unfold lift at 1. rewrite Hname.
  apply String.eqb_neq in Hgiven. rewrite Hgiven.
  rewrite (get_gh_some sess p Hpat Hp).
  unfold try_except at 1. unfold bind at 1.
  unfold try_except at 1. unfold get_repo_info, bind at 1, send at 1.
  fold (repo_request (mkGitHubAPI p) (fmt (username sess)) name).
  rewrite Hq. unfold lift at 1, get_repo_info_of.
  apply Z.eqb_neq in H200, H201. rewrite H200, H201, Htext. reflexivity.
Qed.

Lemma mute_lookup_reads_as_existing_witness :
  api_create_repo remote_mute plain alice [("name", PStr "widgets")] []
  = (Ok (json_error
           (PStr ("Repository '" ++ "widgets" ++ "' already exists.")%string)
           200),
     [] ++ [repo_request (mkGitHubAPI "ghp_token") (fmt (username alice))
              "widgets"]).
Proof.
  assert (Hp : "ghp_token" <> "") by discriminate.
  assert (Hname : "widgets" <> "") by discriminate.
  apply (mute_lookup_reads_as_existing remote_mute plain alice
           [("name", PStr "widgets")] "ghp_token" "widgets" []
           (mkResponse 502 "" None) eq_refl Hp eq_refl Hname eq_refl);
    try reflexivity; discriminate.
Defined.

(** X30. An error without a message is served as the file.  When the
    structured fetch for the hint is refused with a JSON object whose
    message is empty (or null), [get_file_text] returns an error entry that
    [api_get_file] does not take for an error: the resolution stops after
    that one request and answers 200 with the error entry as the content of
    the file. *)
Theorem blank_error_is_served_as_content :
  forall http b64decode_utf8 gh owner repo path b l r body msg,
  b <> "" ->
  http l (fetch_request gh owner repo path (PStr b)) = Ok r ->
  status_code r <> 200%Z -> json r = Some (PDict body) ->
  dict_get_default "message" (PStr (text r)) body = msg ->
  truthy msg = false ->
  get_file_body http b64decode_utf8 gh owner repo path (Some b) l
  = (Ok (found path (PDict [("error", msg)])),
     l ++ [fetch_request gh owner repo path (PStr b)]).
Proof.
  intros http b64decode_utf8 gh owner repo path b l r body msg
    Hb Hq Hst Hj Hmsg Ht.
  assert (Htb : truthy (PStr b) = true).
  { simpl. apply String.eqb_neq in Hb. now rewrite Hb. }
  unfold get_file_body. unfold bind at 1. unfold try_hint. rewrite Htb.
  unfold bind at 1. rewrite fetch_content_run by exact Htb.
  rewrite Hq. unfold content_of, get_file_text_of, r_json.
  apply Z.eqb_neq in Hst. rewrite Hst, Hj, Hmsg.
  cbn [is_error dict_get dict_get_default dict_lookup String.eqb Ascii.eqb
       Bool.eqb]. rewrite Ht.
  unfold ret at 1. unfold bind at 1. cbn [try_default is_none].
  unfold ret at 1. unfold bind at 1.
  rewrite try_literals_settled by reflexivity.
  unfold bind, ret, found. cbn [is_none]. reflexivity.
Qed.

Lemma blank_error_is_served_as_content_witness :
  get_file_body remote_blank_errors decode_hello acme "acme" "widgets"
    "README.md" (Some "dev") []
  = (Ok (found "README.md" (PDict [("error", PStr "")])),
     [] ++ [fetch_request acme "acme" "widgets" "README.md" (PStr "dev")]).
Proof.
  assert (Hb : "dev" <> "") by discriminate.
  apply (blank_error_is_served_as_content remote_blank_errors decode_hello
           acme "acme" "widgets" "README.md" "dev" []
           (mkResponse 404 "{message: }"
              (Some (PDict [("message", PStr "")])))
           [("message", PStr "")] (PStr "") Hb eq_refl);
    try reflexivity; discriminate.
Defined.
